(** * AMLA AT2 weather API: a shallow embedding of [app/main.py]

    The service answers four GET routes.  Two of them take a base date
    as a string, shift it by a fixed number of days and ask a model
    loaded at start-up for a prediction.  This development embeds the
    module-level start-up code, the two helpers and the handlers, and
    the parts of the Python runtime they rely on:

    - exceptions and [try]/[except], as an error monad;
    - [datetime.strptime], [datetime.__add__] and [datetime.strftime],
      following CPython's [_strptime.py] and [_pydatetime.py];
    - the format specification [.1f] on a binary64 value;
    - a model artifact, as a function from a frame to an array or an
      exception.

    Strings are Rocq strings, that is sequences of code points below
    256.  On that range the regular-expression class [\d] is the ten
    ASCII digits.

    The repository pins no version of Python or pandas, and two things
    the handlers do differ between the runtimes it can be installed on:
    how the C library prints the year of [%Y], and which dates a pandas
    timestamp can hold.  Both are fields of a [Runtime], on which
    [strftime], [pd_to_datetime] and the handlers depend. *)

From Stdlib Require Import ZArith List String Ascii Bool Lia.
From Stdlib Require Import SpecFloat DecimalString DecimalN.
Import ListNotations.

Local Open Scope string_scope.
Local Open Scope Z_scope.

(** ** Exceptions and results *)

(** The exception classes that occur.  Every one of them derives from
    [Exception], so an [except Exception] clause catches them all. *)
Inductive exn : Type :=
| HTTPException (status_code : Z) (detail : string)
| ValueError (msg : string)
| OverflowError (msg : string)
| IndexError (msg : string)
| FileNotFoundError (msg : string)
| RuntimeError (msg : string)
| OutOfBoundsDatetime (msg : string).  (* pandas; derives from ValueError *)

(** The outcome of running a piece of Python: a value, or a raised
    exception. *)
Inductive result (A : Type) : Type :=
| Return (a : A)
| Raise (e : exn).

Arguments Return {A} a.
Arguments Raise {A} e.

Definition bind {A B : Type} (c : result A) (k : A -> result B) : result B :=
  match c with
  | Return a => k a
  | Raise e => Raise e
  end.

Notation "x <- c ;; k" := (bind c (fun x => k))
  (at level 61, c at next level, right associativity).

(** [try: c except Exception as e: h e]. *)
Definition try_except {A : Type} (c : result A) (h : exn -> result A) : result A :=
  match c with
  | Return a => Return a
  | Raise e => h e
  end.

(** Printing of a non-negative integer in decimal, as [str(n)] does. *)
Definition decimal (n : Z) : string :=
  NilZero.string_of_uint (N.to_uint (Z.to_N n)).

(** [str(e)]: the message of a built-in exception; Starlette renders an
    [HTTPException] as its status code, a colon and its detail. *)
Definition str_exn (e : exn) : string :=
  match e with
  | HTTPException status_code detail => decimal status_code ++ ": " ++ detail
  | ValueError msg | OverflowError msg | IndexError msg
  | FileNotFoundError msg | RuntimeError msg | OutOfBoundsDatetime msg => msg
  end.

(** ** The proleptic Gregorian calendar of [datetime] *)

Definition MINYEAR : Z := 1.
Definition MAXYEAR : Z := 9999.

Definition _is_leap (year : Z) : bool :=
  (year mod 4 =? 0) && (negb (year mod 100 =? 0) || (year mod 400 =? 0)).

Definition _days_before_year (year : Z) : Z :=
  let y := year - 1 in
  y * 365 + y / 4 - y / 100 + y / 400.

Definition _DAYS_IN_MONTH (month : Z) : Z :=
  nth (Z.to_nat month) [-1; 31; 28; 31; 30; 31; 30; 31; 31; 30; 31; 30; 31] 0.

Definition _DAYS_BEFORE_MONTH (month : Z) : Z :=
  nth (Z.to_nat month) [-1; 0; 31; 59; 90; 120; 151; 181; 212; 243; 273; 304; 334] 0.

Definition _days_in_month (year month : Z) : Z :=
  if (month =? 2) && _is_leap year then 29 else _DAYS_IN_MONTH month.

Definition _days_before_month (year month : Z) : Z :=
  _DAYS_BEFORE_MONTH month + (if (2 <? month) && _is_leap year then 1 else 0).

Definition _ymd2ord (year month day : Z) : Z :=
  _days_before_year year + _days_before_month year month + day.

Definition _DI400Y : Z := _days_before_year 401.
Definition _DI100Y : Z := _days_before_year 101.
Definition _DI4Y : Z := _days_before_year 5.

Definition _MAXORDINAL : Z := 3652059.

Definition _ord2ymd (n0 : Z) : Z * Z * Z :=
  let n := n0 - 1 in
  let n400 := n / _DI400Y in
  let n := n mod _DI400Y in
  let year := n400 * 400 + 1 in
  let n100 := n / _DI100Y in
  let n := n mod _DI100Y in
  let n4 := n / _DI4Y in
  let n := n mod _DI4Y in
  let n1 := n / 365 in
  let n := n mod 365 in
  let year := year + n100 * 100 + n4 * 4 + n1 in
  if (n1 =? 4) || (n100 =? 4) then (year - 1, 12, 31)
  else
    let leapyear := (n1 =? 3) && (negb (n4 =? 24) || (n100 =? 3)) in
    let month := Z.shiftr (n + 50) 5 in
    let preceding :=
      _DAYS_BEFORE_MONTH month + (if (2 <? month) && leapyear then 1 else 0) in
    if n <? preceding then
      let month := month - 1 in
      let preceding :=
        preceding
        - (_DAYS_IN_MONTH month + (if (month =? 2) && leapyear then 1 else 0)) in
      (year, month, n - preceding + 1)
    else (year, month, n - preceding + 1).

(** A [datetime.datetime] without time zone. *)
Record datetime : Type := mkdatetime {
  year : Z; month : Z; day : Z;
  hour : Z; minute : Z; second : Z; microsecond : Z
}.

(** A [datetime.date]. *)
Record date : Type := mkdate { date_year : Z; date_month : Z; date_day : Z }.

(** A [datetime.timedelta], already normalised. *)
Record timedelta : Type := mktimedelta {
  days : Z; seconds : Z; microseconds : Z
}.

(** The constructor's range check on year, month and day. *)
Definition _check_date_fields (y m d : Z) : result unit :=
  if negb ((MINYEAR <=? y) && (y <=? MAXYEAR)) then
    Raise (ValueError ("year " ++ decimal y ++ " is out of range"))
  else if negb ((1 <=? m) && (m <=? 12)) then
    Raise (ValueError "month must be in 1..12")
  else if negb ((1 <=? d) && (d <=? _days_in_month y m)) then
    Raise (ValueError "day is out of range for month")
  else Return tt.

(** [datetime(y, m, d)]: midnight of a checked date. *)
Definition datetime_new (y m d : Z) : result datetime :=
  _ <- _check_date_fields y m d ;;
  Return (mkdatetime y m d 0 0 0 0).

(** [timedelta(days, seconds, microseconds)]: carries are propagated,
    and the magnitude in days is bounded. *)
Definition timedelta_new (d s us : Z) : result timedelta :=
  let s := s + us / 1000000 in
  let us := us mod 1000000 in
  let d := d + s / 86400 in
  let s := s mod 86400 in
  if Z.abs d >? 999999999 then
    Raise (OverflowError ("timedelta # of days is too large: " ++ decimal d))
  else Return (mktimedelta d s us).

Definition toordinal (self : datetime) : Z :=
  _ymd2ord (year self) (month self) (day self).

(** [self + other] for a [datetime] and a [timedelta]. *)
Definition datetime_add (self : datetime) (other : timedelta) : result datetime :=
  delta <- timedelta_new (toordinal self + days other)
             (hour self * 3600 + minute self * 60 + second self + seconds other)
             (microsecond self + microseconds other) ;;
  let hh := seconds delta / 3600 in
  let rem := seconds delta mod 3600 in
  let mm := rem / 60 in
  let ss := rem mod 60 in
  if (0 <? days delta) && (days delta <=? _MAXORDINAL) then
    let '(y, m, d) := _ord2ymd (days delta) in
    Return (mkdatetime y m d hh mm ss (microseconds delta))
  else Raise (OverflowError "date value out of range").

(** [self.date()]. *)
Definition datetime_date (self : datetime) : date :=
  mkdate (year self) (month self) (day self).

(** ** Characters and a backtracking matcher *)

Definition code (c : ascii) : Z := Z.of_N (N_of_ascii c).

Definition is_digit (c : ascii) : bool := (48 <=? code c) && (code c <=? 57).

Definition is_space (c : ascii) : bool :=
  (code c =? 32) || ((9 <=? code c) && (code c <=? 13)).

Definition digit_value (c : ascii) : Z := code c - 48.

Definition digit_char (n : Z) : ascii := ascii_of_N (Z.to_N (48 + n)).

(** The fragment of regular expressions that the directives [%Y], [%m]
    and [%d] expand to. *)
Inductive regex : Type :=
| Chr (c : ascii)
| Digit
| Range (lo hi : ascii)
| Cat (r1 r2 : regex)
| Or (r1 r2 : regex)
| Group (name : string) (r : regex).

Definition groups : Type := list (string * string).

(** Matching at the head of [s], as [re] does it: alternatives are tried
    from left to right, and a later one only when everything after an
    earlier one has failed.  The continuation receives the text that
    was consumed, the rest of the input and the groups captured. *)
Fixpoint re_match {A : Type} (r : regex) (s : string) (g : groups)
    (k : string -> string -> groups -> option A) : option A :=
  match r with
  | Chr c =>
      match s with
      | String c' s' => if code c' =? code c then k (String c' "") s' g else None
      | EmptyString => None
      end
  | Digit =>
      match s with
      | String c' s' => if is_digit c' then k (String c' "") s' g else None
      | EmptyString => None
      end
  | Range lo hi =>
      match s with
      | String c' s' =>
          if (code lo <=? code c') && (code c' <=? code hi)
          then k (String c' "") s' g else None
      | EmptyString => None
      end
  | Cat r1 r2 =>
      re_match r1 s g (fun t1 s1 g1 =>
        re_match r2 s1 g1 (fun t2 s2 g2 => k (t1 ++ t2) s2 g2))
  | Or r1 r2 =>
      match re_match r1 s g k with
      | Some x => Some x
      | None => re_match r2 s g k
      end
  | Group name r1 =>
      re_match r1 s g (fun t s' g' => k t s' ((name, t) :: g'))
  end.

Fixpoint lookup (name : string) (g : groups) : option string :=
  match g with
  | [] => None
  | (n, t) :: g' => if String.eqb n name then Some t else lookup name g'
  end.

(** ** [int(text)] on the text of a group *)

Fixpoint lstrip (s : string) : string :=
  match s with
  | String c s' => if is_space c then lstrip s' else s
  | EmptyString => EmptyString
  end.

Fixpoint all_space (s : string) : bool :=
  match s with
  | String c s' => is_space c && all_space s'
  | EmptyString => true
  end.

Fixpoint read_digits (acc : Z) (s : string) : option Z :=
  match s with
  | EmptyString => Some acc
  | String c s' =>
      if is_digit c then read_digits (10 * acc + digit_value c) s'
      else if all_space s then Some acc else None
  end.

(** [int(text)] where [text] is made of decimal digits between optional
    blanks.  The signs and underscores that [int] also reads do not
    occur in what the patterns below capture. *)
Definition py_int (text : string) : result Z :=
  match lstrip text with
  | EmptyString => Raise (ValueError "invalid literal for int() with base 10")
  | String c t =>
      if is_digit c then
        match read_digits 0 (String c t) with
        | Some z => Return z
        | None => Raise (ValueError "invalid literal for int() with base 10")
        end
      else Raise (ValueError "invalid literal for int() with base 10")
  end.

(** ** [datetime.strptime(data_string, "%Y-%m-%d")] *)

(** [(?P<Y>\d\d\d\d)] *)
Definition re_Y : regex := Group "Y" (Cat Digit (Cat Digit (Cat Digit Digit))).

(** [(?P<m>1[0-2]|0[1-9]|[1-9])] *)
Definition re_m : regex :=
  Group "m" (Or (Cat (Chr "1") (Range "0" "2"))
            (Or (Cat (Chr "0") (Range "1" "9"))
                (Range "1" "9"))).

(** [(?P<d>3[0-1]|[1-2]\d|0[1-9]|[1-9]| [1-9])] *)
Definition re_d : regex :=
  Group "d" (Or (Cat (Chr "3") (Range "0" "1"))
            (Or (Cat (Range "1" "2") Digit)
            (Or (Cat (Chr "0") (Range "1" "9"))
            (Or (Range "1" "9")
                (Cat (Chr " ") (Range "1" "9")))))).

(** The pattern compiled from the format ["%Y-%m-%d"]. *)
Definition format_regex : regex :=
  Cat re_Y (Cat (Chr "-") (Cat re_m (Cat (Chr "-") re_d))).

Definition found_group (name : string) (g : groups) : result string :=
  match lookup name g with
  | Some t => Return t
  | None => Raise (IndexError "no such group")
  end.

(** The parser: match at the head, require that nothing is left over,
    convert the three groups and build the checked [datetime].  The
    texts of the two [ValueError]s are shortened; [parse_date] discards
    them. *)
Definition strptime (data_string : string) : result datetime :=
  match re_match format_regex data_string [] (fun t rest g => Some (t, g)) with
  | None => Raise (ValueError "time data does not match format")
  | Some (found, found_dict) =>
      if negb (Nat.eqb (String.length data_string) (String.length found)) then
        Raise (ValueError "unconverted data remains")
      else
        y <- bind (found_group "Y" found_dict) py_int ;;
        m <- bind (found_group "m" found_dict) py_int ;;
        d <- bind (found_group "d" found_dict) py_int ;;
        datetime_new y m d
  end.

(** ** The runtime *)

(** The unit of the 64-bit count a [pandas.Timestamp] made from a date
    holds: nanoseconds in pandas before version 3, a coarser unit (here
    microseconds) from version 3 on. *)
Inductive Resolution : Type :=
| Nanoseconds
| Microseconds.

(** What the installed Python and pandas decide.  [pads_year] tells
    whether [%Y] is padded with zeros to four digits (Python from 3.13
    on, and the C libraries of Windows and macOS before) or printed as
    the plain decimal number (glibc before Python 3.13). *)
Record Runtime : Type := mkRuntime {
  pads_year : bool;
  resolution : Resolution
}.

(** ** [d.strftime("%Y-%m-%d")] *)

Definition zfill2 (n : Z) : string :=
  String (digit_char (n / 10)) (String (digit_char (n mod 10)) "").

Definition zfill4 (n : Z) : string :=
  String (digit_char (n / 1000))
    (String (digit_char (n / 100 mod 10)) (zfill2 (n mod 100))).

(** The directive [%Y]: the year on four digits where the runtime pads
    it, and its plain decimal print where it does not, so that year 999
    is printed on three characters. *)
Definition format_Y (rt : Runtime) (y : Z) : string :=
  if pads_year rt then zfill4 y else decimal y.

(** [%m] and [%d] are on two digits, padded with a zero. *)
Definition strftime (rt : Runtime) (d : datetime) : string :=
  format_Y rt (year d) ++ "-" ++ zfill2 (month d) ++ "-" ++ zfill2 (day d).

(** ** numpy scalars, [bool], [float] and the format [.1f] *)

(** An element of the array a model returns: an integer label or a
    binary floating-point number ([S754_finite s m e] is
    [(-1)^s * m * 2^e]). *)
Inductive npval : Type :=
| NpInt (z : Z)
| NpFloat (f : spec_float).

(** [bool(v)]: a number is true unless it is zero; [nan] is true. *)
Definition py_bool (v : npval) : bool :=
  match v with
  | NpInt z => negb (z =? 0)
  | NpFloat (S754_zero _) => false
  | NpFloat _ => true
  end.

(** [float(v)]: an integer is rounded to the nearest binary64. *)
Definition py_float (v : npval) : spec_float :=
  match v with
  | NpInt z => binary_normalize 53 1024 z 0 false
  | NpFloat f => f
  end.

(** The integer nearest to [num / den] for [0 < den], ties to even. *)
Definition round_half_even (num den : Z) : Z :=
  let q := num / den in
  let r := num mod den in
  match 2 * r ?= den with
  | Lt => q
  | Gt => q + 1
  | Eq => if Z.even q then q else q + 1
  end.

Definition sign_text (s : bool) : string := if s then "-" else "".

(** [f"{x:.1f}"]: the exact value of [x] is rounded to a whole number of
    tenths, ties to even, and printed with its sign. *)
Definition format_1f (x : spec_float) : string :=
  match x with
  | S754_nan => "nan"
  | S754_infinity s => sign_text s ++ "inf"
  | S754_zero s => sign_text s ++ "0.0"
  | S754_finite s m e =>
      let tenths :=
        if 0 <=? e then 10 * Z.pos m * 2 ^ e
        else round_half_even (10 * Z.pos m) (2 ^ (- e)) in
      sign_text s ++ decimal (tenths / 10) ++ "." ++ decimal (tenths mod 10)
  end.

(** ** pandas frames and model artifacts *)

(** A [pandas.Timestamp] is a [datetime]; a frame is a list of named
    columns. *)
Definition DataFrame : Type := list (string * list datetime).

(** [date(1970, 1, 1).toordinal()] *)
Definition EPOCH_ORDINAL : Z := 719163.

(** The largest count a timestamp holds; the least 64-bit integer is
    kept for [NaT], so the bound is the same on both sides. *)
Definition INT64_MAX : Z := 2 ^ 63 - 1.

Definition ticks_per_day (r : Resolution) : Z :=
  86400 * match r with
          | Nanoseconds => 10 ^ 9
          | Microseconds => 10 ^ 6
          end.

(** The count of the midnight of [d] since the epoch. *)
Definition timestamp_value (r : Resolution) (d : date) : Z :=
  (_ymd2ord (date_year d) (date_month d) (date_day d) - EPOCH_ORDINAL)
  * ticks_per_day r.

Definition timestamp_in_bounds (rt : Runtime) (d : date) : bool :=
  Z.abs (timestamp_value (resolution rt) d) <=? INT64_MAX.

(** [pd.to_datetime(d)] for a [date]: the timestamp of its midnight
    when its count fits, and [OutOfBoundsDatetime], a subclass of
    [ValueError], when it does not.  With nanoseconds the midnights that
    fit are those of 1677-09-22 to 2262-04-11.  The text of the
    exception is shortened; no handler reads it. *)
Definition pd_to_datetime (rt : Runtime) (d : date) : result datetime :=
  if timestamp_in_bounds rt d then
    Return (mkdatetime (date_year d) (date_month d) (date_day d) 0 0 0 0)
  else Raise (OutOfBoundsDatetime "Out of bounds nanosecond timestamp").

(** Number of rows (of the first column) and of columns. *)
Definition shape (X : DataFrame) : nat * nat :=
  (match X with
   | [] => O
   | (_, col) :: _ => List.length col
   end, List.length X).

(** The object [joblib.load] returns: anything with a [predict] method,
    which yields an array or raises. *)
Record Artifact : Type := mkArtifact {
  predict : DataFrame -> result (list npval)
}.

(** [a[i]] on an array. *)
Definition getitem (a : list npval) (i : nat) : result npval :=
  match nth_error a i with
  | Some v => Return v
  | None => Raise (IndexError "index out of bounds")
  end.

(** ** [app/main.py] *)

(** The files under the model paths: a path holds an artifact that
    [joblib.load] returns, or nothing. *)
Definition FileSystem : Type := string -> option Artifact.

(** [os.environ]. *)
Definition Environ : Type := string -> option string.

Definition getenv (environ : Environ) (key default : string) : string :=
  match environ key with
  | Some v => v
  | None => default
  end.

Definition MODEL_BASE_DEFAULT : string :=
  "/Users/doanvanthang/Documents/Learning/Master In Data Science and Innovation/Semster 4/AMLA/Assignments/ASM_2/FastAPI/models".

Definition RAIN_MODEL_PATH (environ : Environ) : string :=
  getenv environ "RAIN_MODEL_PATH"
    (MODEL_BASE_DEFAULT ++ "/rain_or_not/XGBClassifier.joblib").

Definition PRECIP_MODEL_PATH (environ : Environ) : string :=
  getenv environ "PRECIP_MODEL_PATH"
    (MODEL_BASE_DEFAULT ++ "/precipitation_fall/XGBReg.joblib").

Definition _load_model (fs : FileSystem) (path : string) : result Artifact :=
  match fs path with
  | None => Raise (FileNotFoundError ("Model file not found: " ++ path))
  | Some a => Return a
  end.

(** The three module-level variables every handler reads. *)
Record State : Type := mkState {
  rain_clf : option Artifact;
  precip_reg : option Artifact;
  load_error_msg : option string
}.

(** The module-level [try] / [except FileNotFoundError] / [else]: both
    loads sit in one [try] block; any other exception leaves the
    module. *)
Definition startup (fs : FileSystem) (environ : Environ) : result State :=
  match
    (rain <- _load_model fs (RAIN_MODEL_PATH environ) ;;
     precip <- _load_model fs (PRECIP_MODEL_PATH environ) ;;
     Return (rain, precip))
  with
  | Return (rain, precip) => Return (mkState (Some rain) (Some precip) None)
  | Raise (FileNotFoundError msg) =>
      Return (mkState None None (Some (str_exn (FileNotFoundError msg))))
  | Raise e => Raise e
  end.

(** The clause [except ValueError] catches the class and its
    subclasses. *)
Definition parse_date (date_str : string) : result datetime :=
  match strptime date_str with
  | Return d => Return d
  | Raise (ValueError _) | Raise (OutOfBoundsDatetime _) =>
      Raise (HTTPException 400 "Invalid date format. Expected YYYY-MM-DD.")
  | Raise e => Raise e
  end.

(** The frame is built from one call of [pd.to_datetime]; what that
    call raises leaves the function. *)
Definition build_features_for_date (rt : Runtime) (d : datetime)
    : result DataFrame :=
  ts <- pd_to_datetime rt (datetime_date d) ;;
  Return [("date", [ts])].

(** Truth of an optional string: [None] and the empty string are
    false. *)
Definition truthy (msg : option string) : bool :=
  match msg with
  | Some (String _ _) => true
  | _ => false
  end.

(** [msg or ''] *)
Definition or_empty (msg : option string) : string :=
  match msg with
  | Some s => s
  | None => ""
  end.

(** [f"{msg}"] for an optional string. *)
Definition str_option (msg : option string) : string :=
  match msg with
  | Some s => s
  | None => "None"
  end.

Definition health_check (st : State) : result string :=
  if truthy (load_error_msg st) then
    Return ("Startup warning: " ++ str_option (load_error_msg st))
  else Return "API is ready. Models loaded.".

(** [timedelta(days=n)] for a small [n]. *)
Definition timedelta_days (n : Z) : timedelta := mktimedelta n 0 0.

Record RainPrediction : Type := mkRainPrediction {
  rp_date : string;
  will_rain : bool
}.

Record RainBody : Type := mkRainBody {
  rain_input_date : string;
  rain_prediction : RainPrediction
}.

Record PrecipPrediction : Type := mkPrecipPrediction {
  start_date : string;
  end_date : string;
  precipitation_fall : string
}.

Record PrecipBody : Type := mkPrecipBody {
  precip_input_date : string;
  precip_prediction : PrecipPrediction
}.

(** The two prediction handlers build the frame after the date
    arithmetic and before the [try] block: an exception of
    [build_features_for_date] is not caught. *)
Definition predict_rain (rt : Runtime) (st : State) (date : string)
    : result RainBody :=
  match rain_clf st with
  | None =>
      Raise (HTTPException 500
               ("Rain model not loaded. " ++ or_empty (load_error_msg st)))
  | Some clf =>
      d0 <- parse_date date ;;
      d7 <- datetime_add d0 (timedelta_days 7) ;;
      X <- build_features_for_date rt d0 ;;
      pred <- try_except (predict clf X)
                (fun e => Raise (HTTPException 500
                                   ("Inference error (rain): " ++ str_exn e))) ;;
      v <- getitem pred 0 ;;
      let will_rain := py_bool v in
      Return (mkRainBody (strftime rt d0)
                (mkRainPrediction (strftime rt d7) will_rain))
  end.

Definition predict_precipitation_fall (rt : Runtime) (st : State)
    (date : string) : result PrecipBody :=
  match precip_reg st with
  | None =>
      Raise (HTTPException 500
               ("Precipitation model not loaded. " ++ or_empty (load_error_msg st)))
  | Some reg =>
      d0 <- parse_date date ;;
      start <- datetime_add d0 (timedelta_days 1) ;;
      stop <- datetime_add d0 (timedelta_days 3) ;;
      X <- build_features_for_date rt d0 ;;
      y_hat <- try_except
                 (a <- predict reg X ;; v <- getitem a 0 ;; Return (py_float v))
                 (fun e => Raise (HTTPException 500
                                    ("Inference error (precipitation): "
                                     ++ str_exn e))) ;;
      let precipitation_str := format_1f y_hat in
      Return (mkPrecipBody (strftime rt d0)
                (mkPrecipPrediction (strftime rt start) (strftime rt stop)
                   precipitation_str))
  end.

(** What the framework answers: 200 for a returned body (every route is
    declared with [status_code=200]), the status of an [HTTPException],
    and 500 for any other exception that leaves the handler. *)
Definition http_status {A : Type} (r : result A) : Z :=
  match r with
  | Return _ => 200
  | Raise (HTTPException status_code _) => status_code
  | Raise _ => 500
  end.

(** An exception other than [HTTPException] left the handler. *)
Definition unhandled {A : Type} (r : result A) : bool :=
  match r with
  | Return _ => false
  | Raise (HTTPException _ _) => false
  | Raise _ => true
  end.

(** ** The specification's vocabulary *)

(** The Gregorian calendar, stated on its own: leap years, the length
    of a month, the dates that exist and the day after a date. *)
Definition calendar_leap (y : Z) : bool :=
  if y mod 400 =? 0 then true
  else if y mod 100 =? 0 then false
  else y mod 4 =? 0.

Definition calendar_month_length (y m : Z) : Z :=
  match m with
  | 1 | 3 | 5 | 7 | 8 | 10 | 12 => 31
  | 4 | 6 | 9 | 11 => 30
  | 2 => if calendar_leap y then 29 else 28
  | _ => 0
  end.

Definition calendar_valid (d : date) : bool :=
  (1 <=? date_year d) && (1 <=? date_month d) && (date_month d <=? 12)
  && (1 <=? date_day d)
  && (date_day d <=? calendar_month_length (date_year d) (date_month d)).

Definition calendar_next_day (d : date) : date :=
  if date_day d <? calendar_month_length (date_year d) (date_month d)
  then mkdate (date_year d) (date_month d) (date_day d + 1)
  else if date_month d <? 12
  then mkdate (date_year d) (date_month d + 1) 1
  else mkdate (date_year d + 1) 1 1.

(** The date [k] days after [d]. *)
Fixpoint calendar_plus_days (k : nat) (d : date) : date :=
  match k with
  | O => d
  | S k' => calendar_plus_days k' (calendar_next_day d)
  end.

(** Order on dates: by year, then month, then day. *)
Definition date_leb (a b : date) : bool :=
  (date_year a <? date_year b)
  || ((date_year a =? date_year b)
      && ((date_month a <? date_month b)
          || ((date_month a =? date_month b) && (date_day a <=? date_day b)))).

(** The strict reading of [YYYY-MM-DD]: four digits, a hyphen, two
    digits, a hyphen, two digits, and nothing else. *)
Definition read_YYYY_MM_DD (s : string) : option date :=
  match s with
  | String y1 (String y2 (String y3 (String y4 (String h1
      (String m1 (String m2 (String h2 (String d1 (String d2 ""))))))))) =>
      if forallb is_digit [y1; y2; y3; y4; m1; m2; d1; d2]
         && (code h1 =? 45) && (code h2 =? 45)
      then Some (mkdate
                   (1000 * digit_value y1 + 100 * digit_value y2
                    + 10 * digit_value y3 + digit_value y4)
                   (10 * digit_value m1 + digit_value m2)
                   (10 * digit_value d1 + digit_value d2))
      else None
  | _ => None
  end.

(** The texts [strptime] reads for each field.  A year is four digits;
    a month or a day may drop its leading zero, and a day may be
    written as a blank followed by a digit. *)
Inductive year_text : string -> Z -> Prop :=
| year_four_digits (a b c d : ascii) :
    is_digit a = true -> is_digit b = true ->
    is_digit c = true -> is_digit d = true ->
    year_text (String a (String b (String c (String d ""))))
      (1000 * digit_value a + 100 * digit_value b
       + 10 * digit_value c + digit_value d).

Inductive month_text : string -> Z -> Prop :=
| month_one_digit (a : ascii) :
    1 <= digit_value a <= 9 ->
    month_text (String a "") (digit_value a)
| month_two_digits (a b : ascii) :
    is_digit a = true -> is_digit b = true ->
    1 <= 10 * digit_value a + digit_value b <= 12 ->
    month_text (String a (String b "")) (10 * digit_value a + digit_value b).

Inductive day_text : string -> Z -> Prop :=
| day_one_digit (a : ascii) :
    1 <= digit_value a <= 9 ->
    day_text (String a "") (digit_value a)
| day_blank_digit (a : ascii) :
    1 <= digit_value a <= 9 ->
    day_text (String " " (String a "")) (digit_value a)
| day_two_digits (a b : ascii) :
    is_digit a = true -> is_digit b = true ->
    1 <= 10 * digit_value a + digit_value b <= 31 ->
    day_text (String a (String b "")) (10 * digit_value a + digit_value b).

Inductive lenient_text : string -> date -> Prop :=
| lenient_fields (ty tm td : string) (y m d : Z) :
    year_text ty y -> month_text tm m -> day_text td d ->
    lenient_text (ty ++ "-" ++ tm ++ "-" ++ td) (mkdate y m d).

(** Midnight of a date. *)
Definition midnight (d : date) : datetime :=
  mkdatetime (date_year d) (date_month d) (date_day d) 0 0 0 0.

(** The text YYYY-MM-DD of the date of a timestamp, every field padded
    with zeros. *)
Definition padded_text (d : datetime) : string :=
  zfill4 (year d) ++ "-" ++ zfill2 (month d) ++ "-" ++ zfill2 (day d).

(** A text with an optional minus sign, at least one digit, a point and
    exactly one digit. *)
Fixpoint all_digits (s : string) : bool :=
  match s with
  | EmptyString => true
  | String c s' => is_digit c && all_digits s'
  end.

Fixpoint split_at_point (s : string) : option (string * string) :=
  match s with
  | EmptyString => None
  | String c s' =>
      if code c =? 46 then Some ("", s')
      else match split_at_point s' with
           | Some (a, b) => Some (String c a, b)
           | None => None
           end
  end.

Definition one_fraction_digit (s : string) : bool :=
  let body :=
    match s with
    | String c s' => if code c =? 45 then s' else s
    | EmptyString => s
    end in
  match split_at_point body with
  | Some (String c ip, String f "") =>
      all_digits (String c ip) && is_digit f
  | _ => false
  end.

Definition is_finite (x : spec_float) : bool :=
  match x with
  | S754_zero _ | S754_finite _ _ _ => true
  | S754_infinity _ | S754_nan => false
  end.

(** [x] is a binary64 value no farther from [num / den] than half a unit
    in its last place: what reading the decimal literal gives. *)
Definition nearest_binary64 (x : spec_float) (num den : Z) : bool :=
  valid_binary 53 1024 x
  && match x with
     | S754_finite false m e =>
         (e <? 0) && (2 * Z.abs (Z.pos m * den - num * 2 ^ (- e)) <=? den)
     | _ => false
     end.

(** The binary64 value of the literal [28.16]. *)
Definition double_28_16 : spec_float :=
  S754_finite false 7926335344172073 (-48).

(** ** Sample runtimes, artifacts, files and states *)

(** Python from 3.13 on with pandas from 3 on. *)
Definition padding_runtime : Runtime := mkRuntime true Microseconds.

(** Python before 3.13 on glibc with pandas before 3. *)
Definition glibc_runtime : Runtime := mkRuntime false Nanoseconds.

(** A runtime that does not pad the year and whose timestamps hold
    every date. *)
Definition unpadded_runtime : Runtime := mkRuntime false Microseconds.

Definition constant_model (a : list npval) : Artifact :=
  mkArtifact (fun _ => Return a).

Definition failing_model (e : exn) : Artifact :=
  mkArtifact (fun _ => Raise e).

(** A model that looks at its input: it answers 1 on the frame of
    2023-01-01 and 0 on any other. *)
Definition new_year_model : Artifact :=
  mkArtifact (fun X =>
    match X with
    | [(_, [t])] =>
        Return [NpInt (if (year t =? 2023) && (month t =? 1) && (day t =? 1)
                       then 1 else 0)]
    | _ => Raise (ValueError "unexpected frame")
    end).

Definition no_environ : Environ := fun _ => None.

Definition empty_fs : FileSystem := fun _ => None.

Definition only_rain_fs : FileSystem :=
  fun path =>
    if String.eqb path (RAIN_MODEL_PATH no_environ)
    then Some (constant_model [NpInt 1]) else None.

Definition full_fs : FileSystem :=
  fun path =>
    if String.eqb path (RAIN_MODEL_PATH no_environ)
    then Some (constant_model [NpInt 1])
    else if String.eqb path (PRECIP_MODEL_PATH no_environ)
    then Some (constant_model [NpFloat double_28_16])
    else None.

Definition ready_state : State :=
  mkState (Some (constant_model [NpInt 1]))
          (Some (constant_model [NpFloat double_28_16])) None.

Definition degraded_state : State :=
  mkState None None
    (Some ("Model file not found: " ++ RAIN_MODEL_PATH no_environ)).

(** ** Further samples *)

(** Both artifacts are set. *)
Definition both_loaded (st : State) : bool :=
  match rain_clf st, precip_reg st with
  | Some _, Some _ => true
  | _, _ => false
  end.

(** Files whose regressor answers [nan]. *)
Definition nan_fs : FileSystem :=
  fun path =>
    if String.eqb path (RAIN_MODEL_PATH no_environ)
    then Some (constant_model [NpInt 1])
    else if String.eqb path (PRECIP_MODEL_PATH no_environ)
    then Some (constant_model [NpFloat S754_nan])
    else None.

(** The state start-up reaches from them. *)
Definition nan_state : State :=
  mkState (Some (constant_model [NpInt 1]))
          (Some (constant_model [NpFloat S754_nan])) None.

(** A model that tells which frame it was given: it raises an error
    whose text is the date of the frame's cell. *)
Definition telltale_model : Artifact :=
  mkArtifact (fun X =>
    match X with
    | [(_, [t])] => Raise (RuntimeError (padded_text t))
    | _ => Raise (RuntimeError "unexpected frame")
    end).


(** The binary32 value nearest to 28.16, which is what a regressor
    computing in single precision returns. *)
Definition single_28_16 : spec_float :=
  S754_finite false 14763950 (-19).

(** ** Auxiliary definitions for the proofs *)

(** The last step of [_ord2ymd] on its own: month and day from the
    zero-based day of the year. *)
Definition month_day_of_offset (n : Z) (leapyear : bool) : Z * Z :=
  let month := Z.shiftr (n + 50) 5 in
  let preceding :=
    _DAYS_BEFORE_MONTH month + (if (2 <? month) && leapyear then 1 else 0) in
  if n <? preceding then
    let month := month - 1 in
    let preceding :=
      preceding
      - (_DAYS_IN_MONTH month + (if (month =? 2) && leapyear then 1 else 0)) in
    (month, n - preceding + 1)
  else (month, n - preceding + 1).

(** [p] holds of [lo], [lo + 1], ..., [lo + n - 1]. *)
Fixpoint forall_range (lo : Z) (n : nat) (p : Z -> bool) : bool :=
  match n with
  | O => true
  | S n' => p lo && forall_range (lo + 1) n' p
  end.

(** The check that [month_day_of_offset] inverts the day count, for
    every month and day of a common or a leap year. *)
Definition month_day_check (leapyear : bool) : bool :=
  forall_range 1 12 (fun m =>
    forall_range 1 31 (fun d =>
      if d <=? _DAYS_IN_MONTH m + (if (m =? 2) && leapyear then 1 else 0)
      then
        let '(m', d') :=
          month_day_of_offset
            (_DAYS_BEFORE_MONTH m
             + (if (2 <? m) && leapyear then 1 else 0) + d - 1) leapyear in
        (m' =? m) && (d' =? d)
      else true)).

(** ** The descriptor route and the JSON bodies *)

(** The JSON values that occur in the responses. *)
Unset Elimination Schemes.
Inductive json : Type :=
| JString (s : string)
| JBool (b : bool)
| JArray (items : list json)
| JObject (fields : list (string * json)).
Set Elimination Schemes.

Definition GITHUB_URL_DEFAULT : string :=
  "https://github.com/your-user/your-repo".

Definition GITHUB_URL (environ : Environ) : string :=
  getenv environ "GITHUB_URL" GITHUB_URL_DEFAULT.

(** The handler of [/]. *)
Definition root (environ : Environ) : json :=
  JObject
    [("project", JString "AMLA ASM2 - Weather Prediction API");
     ("objectives",
      JArray
        [JString "Predict if it will rain exactly 7 days after the given date.";
         JString "Predict the cumulated precipitation (mm) for the next 3 days after the given date."]);
     ("endpoints",
      JArray
        [JObject
           [("path", JString "/");
            ("method", JString "GET");
            ("description",
             JString "Brief description, endpoints, inputs/outputs, repo link.")];
         JObject
           [("path", JString "/health/");
            ("method", JString "GET");
            ("description",
             JString "Health check (returns 200 and a welcome message).")];
         JObject
           [("path", JString "/predict/rain/");
            ("method", JString "GET");
            ("query_params", JObject [("date", JString "YYYY-MM-DD")]);
            ("output_example",
             JObject
               [("input_date", JString "2023-01-01");
                ("prediction",
                 JObject [("date", JString "2023-01-08");
                          ("will_rain", JBool true)])])];
         JObject
           [("path", JString "/predict/precipitation/fall/");
            ("method", JString "GET");
            ("query_params", JObject [("date", JString "YYYY-MM-DD")]);
            ("output_example",
             JObject
               [("input_date", JString "2023-01-01");
                ("prediction",
                 JObject [("start_date", JString "2023-01-02");
                          ("end_date", JString "2023-01-04");
                          ("precipitation_fall", JString "28.2")])])]]);
     ("expected_input_parameters",
      JObject [("date", JString "string formatted YYYY-MM-DD")]);
     ("output_format_notes",
      JObject
        [("/predict/rain/",
          JObject
            [("fields",
              JArray [JString "input_date"; JString "prediction.date";
                      JString "prediction.will_rain (bool)"])]);
         ("/predict/precipitation/fall/",
          JObject
            [("fields",
              JArray [JString "input_date"; JString "prediction.start_date";
                      JString "prediction.end_date";
                      JString "prediction.precipitation_fall (string/number)"])])]);
     ("github_repo", JString (GITHUB_URL environ))].

(** The dictionary each prediction handler hands to [JSONResponse]. *)
Definition rain_json (b : RainBody) : json :=
  JObject
    [("input_date", JString (rain_input_date b));
     ("prediction",
      JObject [("date", JString (rp_date (rain_prediction b)));
               ("will_rain", JBool (will_rain (rain_prediction b)))])].

Definition precip_json (b : PrecipBody) : json :=
  JObject
    [("input_date", JString (precip_input_date b));
     ("prediction",
      JObject
        [("start_date", JString (start_date (precip_prediction b)));
         ("end_date", JString (end_date (precip_prediction b)));
         ("precipitation_fall",
          JString (precipitation_fall (precip_prediction b)))])].

(** [obj[key]] on a JSON object. *)
Definition field (key : string) (j : json) : option json :=
  match j with
  | JObject fields =>
      match find (fun kv => String.eqb (fst kv) key) fields with
      | Some kv => Some (snd kv)
      | None => None
      end
  | _ => None
  end.

(** The entry of the descriptor's [endpoints] list for a path. *)
Definition endpoint_entry (path : string) (doc : json) : option json :=
  match field "endpoints" doc with
  | Some (JArray items) =>
      find (fun e =>
              match field "path" e with
              | Some (JString p) => String.eqb p path
              | _ => false
              end) items
  | _ => None
  end.

(** The example the descriptor gives for a path, and the date it was
    asked for. *)
Definition output_example (path : string) (doc : json) : option json :=
  match endpoint_entry path doc with
  | Some e => field "output_example" e
  | None => None
  end.

Definition example_date (path : string) (doc : json) : option string :=
  match output_example path doc with
  | Some ex =>
      match field "input_date" ex with
      | Some (JString s) => Some s
      | _ => None
      end
  | None => None
  end.

(** ** More vocabulary *)

(** Strictly earlier, by year, then month, then day. *)
Definition date_ltb (a b : date) : bool :=
  (date_year a <? date_year b)
  || ((date_year a =? date_year b)
      && ((date_month a <? date_month b)
          || ((date_month a =? date_month b) && (date_day a <? date_day b)))).

(** Reading a text with one digit after the point: whether it carries
    a minus sign, and its magnitude in tenths. *)
Definition tenths_of_text (s : string) : option (bool * Z) :=
  let '(negative, body) :=
    match s with
    | String c s' => if code c =? 45 then (true, s') else (false, s)
    | EmptyString => (false, s)
    end in
  match split_at_point body with
  | Some (String c ip, String f "") =>
      if all_digits (String c ip) && is_digit f then
        match read_digits 0 (String c ip) with
        | Some a => Some (negative, 10 * a + digit_value f)
        | None => None
        end
      else None
  | _ => None
  end.

(** [t] tenths is a nearest whole number of tenths to the magnitude of
    [x]: exact when [x] is an integer, within half a tenth otherwise. *)
Definition nearest_tenths (x : spec_float) (t : Z) : Prop :=
  match x with
  | S754_zero _ => t = 0
  | S754_finite _ m e =>
      if 0 <=? e then t = 10 * Z.pos m * 2 ^ e
      else 2 * Z.abs (10 * Z.pos m - t * 2 ^ (- e)) <= 2 ^ (- e)
  | _ => False
  end.

Definition sign_bit (x : spec_float) : bool :=
  match x with
  | S754_zero s | S754_infinity s | S754_finite s _ _ => s
  | S754_nan => false
  end.

(** A state whose models answer an empty array. *)
Definition empty_output_state : State :=
  mkState (Some (constant_model [])) (Some (constant_model [])) None.

(** * Proofs *)

Ltac bool_to_prop :=
  repeat match goal with
  | H : _ && _ = true |- _ => apply andb_true_iff in H; destruct H
  | H : _ || _ = false |- _ => apply orb_false_iff in H; destruct H
  | H : negb _ = true |- _ => apply negb_true_iff in H
  | H : negb _ = false |- _ => apply negb_false_iff in H
  | H : (_ =? _) = true |- _ => apply Z.eqb_eq in H
  | H : (_ =? _) = false |- _ => apply Z.eqb_neq in H
  | H : (_ <=? _) = true |- _ => apply Z.leb_le in H
  | H : (_ <=? _) = false |- _ => apply Z.leb_gt in H
  | H : (_ <? _) = true |- _ => apply Z.ltb_lt in H
  | H : (_ <? _) = false |- _ => apply Z.ltb_ge in H
  end.

(** ** The calendar *)

(** Case analysis on a variable known to lie among the [n] integers
    from [lo] on. *)
Ltac each_value x lo n :=
  lazymatch n with
  | O => exfalso; lia
  | S ?n' =>
      let lo' := eval compute in (lo + 1) in
      destruct (Z.eq_dec x lo) as [-> | ?]; [ | each_value x lo' n' ]
  end.

Ltac each_month m := each_value m 1 12%nat.


Lemma is_leap_calendar (y : Z) : _is_leap y = calendar_leap y.
Proof.
  unfold _is_leap, calendar_leap.
  destruct (y mod 400 =? 0) eqn:E400, (y mod 100 =? 0) eqn:E100,
    (y mod 4 =? 0) eqn:E4; try reflexivity; bool_to_prop; exfalso;
    Z.div_mod_to_equations; lia.
Qed.

Lemma days_in_month_calendar (y m : Z) :
  1 <= m <= 12 -> _days_in_month y m = calendar_month_length y m.
Proof.
  intros Hm. unfold _days_in_month. rewrite is_leap_calendar.
  each_month m; cbn; try reflexivity; destruct (calendar_leap y);
    reflexivity.
Qed.

Lemma forall_range_spec (p : Z -> bool) (n : nat) :
  forall lo, forall_range lo n p = true ->
  forall x, lo <= x < lo + Z.of_nat n -> p x = true.
Proof.
  induction n as [|n IH]; intros lo H x Hx.
  - lia.
  - cbn [forall_range] in H. apply andb_true_iff in H. destruct H as [H0 H1].
    destruct (Z.eq_dec x lo) as [-> | Hne]; [assumption|].
    apply (IH (lo + 1) H1). lia.
Qed.

Lemma month_day_of_offset_inverts (leapyear : bool) (m d : Z) :
  1 <= m <= 12 ->
  1 <= d <= _DAYS_IN_MONTH m + (if (m =? 2) && leapyear then 1 else 0) ->
  month_day_of_offset
    (_DAYS_BEFORE_MONTH m + (if (2 <? m) && leapyear then 1 else 0) + d - 1)
    leapyear = (m, d).
Proof.
  intros Hm Hd.
  assert (Hd31 : d <= 31).
  { each_month m; destruct leapyear; cbv - [Z.le Z.add] in Hd; lia. }
  assert (C : month_day_check leapyear = true)
    by (destruct leapyear; vm_compute; reflexivity).
  unfold month_day_check in C.
  pose proof (forall_range_spec _ _ _ C m ltac:(lia)) as Cm. cbv beta in Cm.
  pose proof (forall_range_spec _ _ _ Cm d ltac:(lia)) as Cd. cbv beta in Cd.
  destruct (d <=? _) eqn:E in Cd; [|bool_to_prop; lia].
  destruct (month_day_of_offset _ _) as [m' d'].
  bool_to_prop. congruence.
Qed.

Lemma days_before_year_split (a b c e : Z) :
  0 <= b <= 3 -> 0 <= c <= 24 -> 0 <= e <= 3 ->
  _days_before_year (400 * a + 100 * b + 4 * c + e + 1)
  = 146097 * a + 36524 * b + 1461 * c + 365 * e.
Proof.
  intros Hb Hc He. unfold _days_before_year. cbv zeta.
  replace (400 * a + 100 * b + 4 * c + e + 1 - 1)
    with (400 * a + 100 * b + 4 * c + e) by lia.
  Z.div_mod_to_equations. lia.
Qed.

Lemma is_leap_split (a b c e : Z) :
  0 <= b <= 3 -> 0 <= c <= 24 -> 0 <= e <= 3 ->
  _is_leap (400 * a + 100 * b + 4 * c + e + 1)
  = (e =? 3) && (negb (c =? 24) || (b =? 3)).
Proof.
  intros Hb Hc He. unfold _is_leap.
  destruct (e =? 3) eqn:E3, (c =? 24) eqn:E24, (b =? 3) eqn:Eb;
  cbn [andb orb negb];
  repeat match goal with
  | |- context [?x mod ?n =? 0] => destruct (x mod n =? 0) eqn:?
  end; cbn [andb orb negb]; try reflexivity; bool_to_prop; exfalso;
  Z.div_mod_to_equations; lia.
Qed.

Lemma year_split (y : Z) :
  exists a b c e,
    y = 400 * a + 100 * b + 4 * c + e + 1
    /\ 0 <= b <= 3 /\ 0 <= c <= 24 /\ 0 <= e <= 3 /\ (1 <= y -> 0 <= a).
Proof.
  exists ((y - 1) / 400), ((y - 1) mod 400 / 100),
    ((y - 1) mod 400 mod 100 / 4), ((y - 1) mod 400 mod 100 mod 4).
  Z.div_mod_to_equations. lia.
Qed.

Lemma div_mod_linear (q r d : Z) :
  0 <= r < d -> (d * q + r) / d = q /\ (d * q + r) mod d = r.
Proof.
  intros H. split; symmetry.
  - apply (Z.div_unique_pos _ _ q r); [assumption | reflexivity].
  - apply (Z.mod_unique_pos _ _ q r); [assumption | reflexivity].
Qed.

(** The year part of [_ord2ymd], for a day that is not the 366th of its
    year. *)
Lemma ord2ymd_year_part (a b c e r : Z) :
  0 <= b <= 3 -> 0 <= c <= 24 -> 0 <= e <= 3 -> 0 <= r <= 364 ->
  _ord2ymd (146097 * a + 36524 * b + 1461 * c + 365 * e + r + 1)
  = let '(m, d) :=
      month_day_of_offset r ((e =? 3) && (negb (c =? 24) || (b =? 3))) in
    (400 * a + 100 * b + 4 * c + e + 1, m, d).
Proof.
  intros Hb Hc He Hr. unfold _ord2ymd. cbv zeta.
  change _DI400Y with 146097. change _DI100Y with 36524.
  change _DI4Y with 1461.
  replace (146097 * a + 36524 * b + 1461 * c + 365 * e + r + 1 - 1)
    with (146097 * a + (36524 * b + 1461 * c + 365 * e + r)) by lia.
  destruct (div_mod_linear a (36524 * b + 1461 * c + 365 * e + r) 146097
              ltac:(lia)) as [-> ->].
  replace (36524 * b + 1461 * c + 365 * e + r)
    with (36524 * b + (1461 * c + 365 * e + r)) by lia.
  destruct (div_mod_linear b (1461 * c + 365 * e + r) 36524
              ltac:(lia)) as [-> ->].
  replace (1461 * c + 365 * e + r) with (1461 * c + (365 * e + r)) by lia.
  destruct (div_mod_linear c (365 * e + r) 1461 ltac:(lia)) as [-> ->].
  destruct (div_mod_linear e r 365 ltac:(lia)) as [-> ->].
  replace ((e =? 4) || (b =? 4)) with false
    by (symmetry; apply orb_false_iff; split; apply Z.eqb_neq; lia).
  unfold month_day_of_offset. cbv zeta.
  replace (a * 400 + 1 + b * 100 + c * 4 + e)
    with (400 * a + 100 * b + 4 * c + e + 1) by lia.
  destruct (_ <? _); reflexivity.
Qed.

(** The 366th day of a leap year. *)
Lemma ord2ymd_leap_end (a b c : Z) :
  0 <= b <= 3 -> 0 <= c <= 24 -> (c <> 24 \/ b = 3) ->
  _ord2ymd (146097 * a + 36524 * b + 1461 * c + 365 * 3 + 365 + 1)
  = (400 * a + 100 * b + 4 * c + 3 + 1, 12, 31).
Proof.
  intros Hb Hc Hleap. unfold _ord2ymd. cbv zeta.
  change _DI400Y with 146097. change _DI100Y with 36524.
  change _DI4Y with 1461.
  replace (146097 * a + 36524 * b + 1461 * c + 365 * 3 + 365 + 1 - 1)
    with (146097 * a + (36524 * b + 1461 * c + 1460)) by lia.
  destruct (div_mod_linear a (36524 * b + 1461 * c + 1460) 146097
              ltac:(lia)) as [-> ->].
  destruct (Z.eq_dec c 24) as [-> | Hc24].
  - assert (b = 3) as -> by lia.
    change (36524 * 3 + 1461 * 24 + 1460) with 146096.
    change (146096 / 36524) with 4. change (146096 mod 36524) with 0.
    change (0 mod 1461) with 0. change (0 / 1461) with 0.
    change (0 / 365) with 0.
    cbn [Z.eqb Pos.eqb orb]. f_equal. f_equal. lia.
  - replace (36524 * b + 1461 * c + 1460)
      with (36524 * b + (1461 * c + 1460)) by lia.
    destruct (div_mod_linear b (1461 * c + 1460) 36524
                ltac:(lia)) as [-> ->].
    destruct (div_mod_linear c 1460 1461 ltac:(lia)) as [-> ->].
    change (1460 / 365) with 4. cbn [Z.eqb Pos.eqb orb].
    f_equal. f_equal. lia.
Qed.

Lemma days_in_month_table (y m : Z) :
  _days_in_month y m
  = _DAYS_IN_MONTH m + (if (m =? 2) && _is_leap y then 1 else 0).
Proof.
  unfold _days_in_month. destruct (m =? 2) eqn:E; cbn [andb]; [|lia].
  apply Z.eqb_eq in E. subst m. destruct (_is_leap y); reflexivity.
Qed.


(** The zero-based day of the year stays within the year. *)
Lemma day_of_year_bound (leapyear : bool) (m d : Z) :
  1 <= m <= 12 ->
  1 <= d <= _DAYS_IN_MONTH m + (if (m =? 2) && leapyear then 1 else 0) ->
  let r := _DAYS_BEFORE_MONTH m + (if (2 <? m) && leapyear then 1 else 0)
           + d - 1 in
  0 <= r <= 364
  \/ (r = 365 /\ leapyear = true /\ m = 12 /\ d = 31).
Proof.
  intros Hm Hd. each_month m; destruct leapyear;
    cbv - [Z.le Z.lt Z.add Z.sub] in Hd |- *; lia.
Qed.

Lemma valid_fields (y m d : Z) :
  calendar_valid (mkdate y m d) = true ->
  1 <= y /\ 1 <= m <= 12 /\ 1 <= d <= _days_in_month y m.
Proof.
  unfold calendar_valid. cbn [date_year date_month date_day]. intros H.
  bool_to_prop. rewrite days_in_month_calendar by lia. lia.
Qed.

(** [_ord2ymd] inverts [_ymd2ord] on every date of the calendar. *)
Lemma ord2ymd_ymd2ord (y m d : Z) :
  calendar_valid (mkdate y m d) = true ->
  _ord2ymd (_ymd2ord y m d) = (y, m, d).
Proof.
  intros Hv. apply valid_fields in Hv. destruct Hv as (Hy & Hm & Hd).
  rewrite days_in_month_table in Hd.
  destruct (year_split y) as (a & b & c & e & Ey & Hb & Hc & He & Ha).
  unfold _ymd2ord, _days_before_month. rewrite Ey in *.
  rewrite days_before_year_split by assumption.
  rewrite is_leap_split in * by assumption.
  set (leapyear := (e =? 3) && (negb (c =? 24) || (b =? 3))) in *.
  destruct (day_of_year_bound leapyear m d Hm Hd) as [Hr | (Hr & Hl & -> & ->)].
  - match goal with
    | |- _ord2ymd ?n = _ =>
        replace n with
          (146097 * a + 36524 * b + 1461 * c + 365 * e
           + (_DAYS_BEFORE_MONTH m
              + (if (2 <? m) && leapyear then 1 else 0) + d - 1) + 1) by lia
    end.
    rewrite ord2ymd_year_part by assumption.
    fold leapyear. rewrite month_day_of_offset_inverts by assumption.
    reflexivity.
  - subst leapyear. rewrite Hl. clear Hd Hr. bool_to_prop. subst e. cbn [andb].
    change (2 <? 12) with true. cbn [andb].
    change (_DAYS_BEFORE_MONTH 12) with 334.
    replace (146097 * a + 36524 * b + 1461 * c + 365 * 3 + (334 + 1) + 31)
      with (146097 * a + 36524 * b + 1461 * c + 365 * 3 + 365 + 1) by lia.
    apply ord2ymd_leap_end; try assumption.
    destruct (c =? 24) eqn:E24; cbn [negb orb] in *; bool_to_prop;
      [right | left]; assumption.
Qed.

Lemma days_before_next_year (y : Z) :
  _days_before_year (y + 1)
  = _days_before_year y + 365 + (if _is_leap y then 1 else 0).
Proof.
  destruct (year_split y) as (a & b & c & e & Ey & Hb & Hc & He & _).
  rewrite Ey at 2 3. rewrite is_leap_split, days_before_year_split by assumption.
  unfold _days_before_year. cbv zeta.
  destruct (e =? 3) eqn:E3, (c =? 24) eqn:E24, (b =? 3) eqn:Eb;
    cbn [andb orb negb]; bool_to_prop; Z.div_mod_to_equations; lia.
Qed.

Lemma next_day_valid (dt : date) :
  calendar_valid dt = true -> calendar_valid (calendar_next_day dt) = true.
Proof.
  destruct dt as [y m d]. intros Hv. unfold calendar_valid in *.
  unfold calendar_next_day. cbn [date_year date_month date_day] in *.
  bool_to_prop.
  destruct (d <? calendar_month_length y m) eqn:Ed;
    [|destruct (m <? 12) eqn:Em]; cbn [date_year date_month date_day];
    bool_to_prop.
  - repeat (apply andb_true_iff; split); apply Z.leb_le; lia.
  - repeat (apply andb_true_iff; split); apply Z.leb_le; try lia.
    each_month m; try lia; cbn; destruct (calendar_leap y); lia.
  - repeat (apply andb_true_iff; split); apply Z.leb_le; cbn; lia.
Qed.

Lemma days_before_next_month (leapyear : bool) (m : Z) :
  1 <= m <= 11 ->
  _DAYS_BEFORE_MONTH (m + 1) + (if (2 <? m + 1) && leapyear then 1 else 0)
  = _DAYS_BEFORE_MONTH m + (if (2 <? m) && leapyear then 1 else 0)
    + (_DAYS_IN_MONTH m + (if (m =? 2) && leapyear then 1 else 0)).
Proof.
  intros Hm. each_month m; try lia; destruct leapyear; reflexivity.
Qed.

(** The ordinal of the next day is the next ordinal. *)
Lemma ymd2ord_next_day (dt : date) :
  calendar_valid dt = true ->
  _ymd2ord (date_year (calendar_next_day dt))
    (date_month (calendar_next_day dt)) (date_day (calendar_next_day dt))
  = _ymd2ord (date_year dt) (date_month dt) (date_day dt) + 1.
Proof.
  destruct dt as [y m d]. intros Hv.
  pose proof (valid_fields _ _ _ Hv) as (Hy & Hm & Hd).
  unfold calendar_next_day. cbn [date_year date_month date_day].
  rewrite <- days_in_month_calendar by assumption.
  destruct (d <? _days_in_month y m) eqn:Ed;
    [|destruct (m <? 12) eqn:Em]; cbn [date_year date_month date_day];
    bool_to_prop; unfold _ymd2ord.
  - lia.
  - assert (d = _days_in_month y m) as -> by lia.
    unfold _days_before_month.
    rewrite days_before_next_month, days_in_month_table by lia. lia.
  - assert (m = 12) as -> by lia.
    change (_days_in_month y 12) with 31 in *.
    assert (d = 31) as -> by lia.
    rewrite days_before_next_year. unfold _days_before_month.
    change (2 <? 1) with false. change (2 <? 12) with true.
    change (_DAYS_BEFORE_MONTH 1) with 0.
    change (_DAYS_BEFORE_MONTH 12) with 334.
    cbn [andb]. destruct (_is_leap y); lia.
Qed.

Lemma plus_days_valid (k : nat) :
  forall dt, calendar_valid dt = true ->
  calendar_valid (calendar_plus_days k dt) = true.
Proof.
  induction k as [|k IH]; intros dt Hv; cbn [calendar_plus_days].
  - assumption.
  - apply IH, next_day_valid, Hv.
Qed.

(** Adding [k] to the ordinal of a date and converting back walks [k]
    days forward in the calendar. *)
Lemma ord2ymd_plus_days (k : nat) :
  forall dt, calendar_valid dt = true ->
  _ord2ymd (_ymd2ord (date_year dt) (date_month dt) (date_day dt)
            + Z.of_nat k)
  = (date_year (calendar_plus_days k dt),
     date_month (calendar_plus_days k dt),
     date_day (calendar_plus_days k dt)).
Proof.
  induction k as [|k IH]; intros dt Hv; cbn [calendar_plus_days].
  - rewrite Z.add_0_r. destruct dt as [y m d]. apply ord2ymd_ymd2ord, Hv.
  - rewrite <- (IH (calendar_next_day dt)) by (apply next_day_valid, Hv).
    rewrite ymd2ord_next_day by assumption. f_equal. lia.
Qed.

Lemma ymd2ord_positive (y m d : Z) :
  calendar_valid (mkdate y m d) = true -> 0 < _ymd2ord y m d.
Proof.
  intros Hv. apply valid_fields in Hv. destruct Hv as (Hy & Hm & Hd).
  unfold _ymd2ord, _days_before_year, _days_before_month. cbv zeta.
  assert (0 <= _DAYS_BEFORE_MONTH m)
    by (each_month m; cbv; discriminate).
  destruct (_ && _); Z.div_mod_to_equations; lia.
Qed.

(** A date up to [k] days before the last one keeps its [k]-th
    successor within the range of ordinals. *)
Lemma ymd2ord_in_range (y m d k : Z) :
  calendar_valid (mkdate y m d) = true ->
  0 <= k <= 30 ->
  date_leb (mkdate y m d) (mkdate 9999 12 (31 - k)) = true ->
  _ymd2ord y m d + k <= _MAXORDINAL.
Proof.
  intros Hv Hk Hle. apply valid_fields in Hv. destruct Hv as (Hy & Hm & Hd).
  rewrite days_in_month_table in Hd.
  unfold date_leb in Hle. cbn [date_year date_month date_day] in Hle.
  unfold _MAXORDINAL, _ymd2ord, _days_before_month.
  assert (Hdoy : _DAYS_BEFORE_MONTH m
                 + (if (2 <? m) && _is_leap y then 1 else 0) + d <= 366).
  { destruct (day_of_year_bound (_is_leap y) m d Hm Hd) as [H | (H & _)];
      cbv zeta in H; lia. }
  apply orb_true_iff in Hle. destruct Hle as [Hlt | Heq].
  - bool_to_prop. unfold _days_before_year. cbv zeta.
    Z.div_mod_to_equations. lia.
  - apply andb_true_iff in Heq. destruct Heq as [Ey Hmd]. bool_to_prop.
    subst y. change (_days_before_year 9999) with 3651694.
    change (_is_leap 9999) with false. rewrite andb_false_r in *.
    apply orb_true_iff in Hmd. destruct Hmd as [Hlt | Heq].
    + bool_to_prop.
      assert (_DAYS_BEFORE_MONTH m + d <= 334).
      { each_month m; try lia; cbv - [Z.le Z.add] in Hd |- *; lia. }
      lia.
    + bool_to_prop. subst m. change (_DAYS_BEFORE_MONTH 12) with 334. lia.
Qed.

Lemma days_in_month_le_31 (y m : Z) :
  1 <= m <= 12 -> _days_in_month y m <= 31.
Proof.
  intros Hm. unfold _days_in_month. destruct (_ && _); [lia|].
  each_month m; cbv; discriminate.
Qed.

(** ** Characters *)

Lemma code_range (c : ascii) : 0 <= code c < 256.
Proof.
  unfold code. pose proof (N_ascii_bounded c) as H. lia.
Qed.

Lemma code_inj (a b : ascii) : code a = code b -> a = b.
Proof.
  unfold code. intros H. apply N2Z.inj in H.
  rewrite <- (ascii_N_embedding a), <- (ascii_N_embedding b). now f_equal.
Qed.

Lemma is_digit_value (c : ascii) :
  is_digit c = true <-> 0 <= digit_value c <= 9.
Proof.
  unfold is_digit, digit_value. split; intros H.
  - bool_to_prop. lia.
  - apply andb_true_iff. split; apply Z.leb_le; lia.
Qed.

Lemma code_digit_char (n : Z) : 0 <= n <= 9 -> code (digit_char n) = 48 + n.
Proof.
  intros H. unfold code, digit_char. rewrite N_ascii_embedding; lia.
Qed.

Lemma digit_value_digit_char (n : Z) :
  0 <= n <= 9 -> digit_value (digit_char n) = n.
Proof.
  intros H. unfold digit_value. rewrite code_digit_char by assumption. lia.
Qed.

Lemma is_digit_digit_char (n : Z) :
  0 <= n <= 9 -> is_digit (digit_char n) = true.
Proof.
  intros H. apply is_digit_value. rewrite digit_value_digit_char; lia.
Qed.

(** Turn the tests on characters into facts on their codes. *)
Ltac char_facts :=
  unfold is_digit, is_space in *;
  change (code "0") with 48 in *; change (code "1") with 49 in *;
  change (code "2") with 50 in *; change (code "3") with 51 in *;
  change (code "9") with 57 in *; change (code "-") with 45 in *;
  change (code " ") with 32 in *;
  repeat match goal with
  | H : _ && _ = false |- _ => apply andb_false_iff in H; destruct H
  | H : _ || _ = true |- _ => apply orb_true_iff in H; destruct H
  | _ => progress bool_to_prop
  end.

(** Case analysis on the tests met in a hypothesis, dropping the cases
    where it reads [None = Some _]. *)
Ltac split_tests H :=
  try discriminate H;
  repeat match type of H with
  | context [if ?b then _ else _] =>
      let E := fresh "E" in destruct b eqn:E; try discriminate H
  | context [match ?x with Some _ => _ | None => _ end] =>
      let E := fresh "E" in destruct x eqn:E; try discriminate H
  end.

Ltac solve_char :=
  unfold digit_value, is_digit in *;
  repeat (apply andb_true_iff; split);
  try apply Z.leb_le; lia.

(** ** What each pattern matches *)

Section Matching.
Context {A : Type}.
Implicit Types (k : string -> string -> groups -> option A).

Lemma re_Y_inv s g k x :
  re_match re_Y s g k = Some x ->
  exists t y rest,
    year_text t y /\ s = t ++ rest /\ k t rest (("Y", t) :: g) = Some x.
Proof.
  unfold re_Y. cbn [re_match append]. intros H.
  destruct s as [|a [|b [|c [|d s]]]]; split_tests H.
  exists (String a (String b (String c (String d "")))).
  eexists. exists s. split; [|split; [reflexivity | exact H]].
  constructor; assumption.
Qed.

Lemma re_Y_complete t y rest g k :
  year_text t y ->
  re_match re_Y (t ++ rest) g k = k t rest (("Y", t) :: g).
Proof.
  intros [a b c d Ha Hb Hc Hd]. unfold re_Y. cbn [re_match append].
  rewrite Ha, Hb, Hc, Hd. reflexivity.
Qed.

Lemma hyphen_inv s g k x :
  re_match (Chr "-") s g k = Some x ->
  exists rest, s = String "-" rest /\ k "-" rest g = Some x.
Proof.
  cbn [re_match]. intros H. destruct s as [|a s]; split_tests H.
  char_facts. apply (code_inj a "-") in E. subst a.
  exists s. split; [reflexivity | exact H].
Qed.

Lemma re_m_inv s g k x :
  re_match re_m s g k = Some x ->
  exists t m rest,
    month_text t m /\ s = t ++ rest /\ k t rest (("m", t) :: g) = Some x.
Proof.
  unfold re_m. cbn [re_match append]. intros H.
  destruct s as [|a [|b s]]; split_tests H; char_facts;
    try (injection H as <-); try (exfalso; lia);
    match goal with
    | K : k ?t ?rest _ = Some _ |- _ =>
        exists t; eexists; exists rest;
        split; [|split; [reflexivity | exact K]]
    end;
    first [ apply month_one_digit; solve_char
          | apply month_two_digits; solve_char ].
Qed.

Lemma re_d_inv s g k x :
  re_match re_d s g k = Some x ->
  exists t d rest,
    day_text t d /\ s = t ++ rest /\ k t rest (("d", t) :: g) = Some x.
Proof.
  unfold re_d. cbn [re_match append]. intros H.
  destruct s as [|a [|b s]]; split_tests H; char_facts;
    try (injection H as <-); try (exfalso; lia);
    match goal with
    | K : k ?t ?rest _ = Some _ |- _ =>
        exists t; eexists; exists rest;
        split; [|split; [reflexivity | exact K]]
    end;
    first [ apply day_one_digit; solve_char
          | apply day_two_digits; solve_char
          | match goal with
            | E : code ?c = 32 |- _ =>
                apply (code_inj c " ") in E; subst c
            end; apply day_blank_digit; solve_char ].
Qed.
End Matching.

Ltac split_goal_tests :=
  repeat match goal with
  | |- context [if ?b then _ else _] =>
      let E := fresh "E" in destruct b eqn:E
  | |- context [match ?x with Some _ => _ | None => _ end] =>
      let E := fresh "E" in destruct x eqn:E
  end.

Section Completeness.
Context {A : Type}.
Implicit Types (k : string -> string -> groups -> option A).

Lemma hyphen_complete rest g k :
  re_match (Chr "-") (String "-" rest) g k = k "-" rest g.
Proof. reflexivity. Qed.

(** A month followed by a hyphen is matched as a whole. *)
Lemma re_m_complete t m rest g k x :
  month_text t m ->
  k t (String "-" rest) (("m", t) :: g) = Some x ->
  re_match re_m (t ++ String "-" rest) g k = Some x.
Proof.
  intros [a Ha | a b Ha Hb Hab] K; unfold re_m; cbn [re_match append];
    rewrite ?K; split_goal_tests; char_facts;
    first [reflexivity | exfalso; solve_char].
Qed.

(** A day at the end of the input is matched as a whole. *)
Lemma re_d_complete t d g k x :
  day_text t d ->
  k t "" (("d", t) :: g) = Some x ->
  re_match re_d t g k = Some x.
Proof.
  intros [a Ha | a Ha | a b Ha Hb Hab] K; unfold re_d;
    cbn [re_match append];
    rewrite ?K; split_goal_tests; char_facts;
    first [reflexivity | exfalso; solve_char].
Qed.
End Completeness.

(** ** [int] on the text of a field *)

Lemma digit_not_space a : 0 <= digit_value a <= 9 -> is_space a = false.
Proof.
  intros H. unfold is_space, digit_value in *. apply orb_false_iff. split.
  - apply Z.eqb_neq. lia.
  - apply andb_false_iff. right. apply Z.leb_gt. lia.
Qed.

Lemma py_int_digits a t z :
  is_digit a = true ->
  read_digits 0 (String a t) = Some z ->
  py_int (String a t) = Return z.
Proof.
  intros Ha Hz. unfold py_int. cbn [lstrip].
  rewrite digit_not_space by (apply is_digit_value; assumption).
  rewrite Ha, Hz. reflexivity.
Qed.

Lemma py_int_year t y : year_text t y -> py_int t = Return y.
Proof.
  intros [a b c d Ha Hb Hc Hd]. apply py_int_digits; [assumption|].
  cbn [read_digits]. rewrite Ha, Hb, Hc, Hd. f_equal; lia.
Qed.

Lemma py_int_month t m : month_text t m -> py_int t = Return m.
Proof.
  intros [a Ha | a b Ha Hb Hab].
  - assert (Hd : is_digit a = true) by (apply is_digit_value; lia).
    apply py_int_digits; [assumption|].
    cbn [read_digits]. rewrite Hd. f_equal; lia.
  - apply py_int_digits; [assumption|].
    cbn [read_digits]. rewrite Ha, Hb. f_equal; lia.
Qed.

Lemma py_int_day t d : day_text t d -> py_int t = Return d.
Proof.
  intros [a Ha | a Ha | a b Ha Hb Hab].
  - assert (Hd : is_digit a = true) by (apply is_digit_value; lia).
    apply py_int_digits; [assumption|].
    cbn [read_digits]. rewrite Hd. f_equal; lia.
  - assert (Hd : is_digit a = true) by (apply is_digit_value; lia).
    change (py_int (String " " (String a ""))) with (py_int (String a "")).
    apply py_int_digits; [assumption|].
    cbn [read_digits]. rewrite Hd. f_equal; lia.
  - apply py_int_digits; [assumption|].
    cbn [read_digits]. rewrite Ha, Hb. f_equal; lia.
Qed.

(** ** Strings *)

Lemma append_assoc (a b c : string) : (a ++ b) ++ c = a ++ (b ++ c).
Proof.
  induction a as [|x a IH]; cbn; [reflexivity | now rewrite IH].
Qed.

Lemma append_empty_r (a : string) : a ++ "" = a.
Proof.
  induction a as [|x a IH]; cbn; [reflexivity | now rewrite IH].
Qed.

Lemma length_append (a b : string) :
  String.length (a ++ b) = (String.length a + String.length b)%nat.
Proof.
  induction a as [|x a IH]; cbn; [reflexivity | now rewrite IH].
Qed.

Lemma length_zero (a : string) : String.length a = O -> a = "".
Proof.
  destruct a; [reflexivity | discriminate].
Qed.

(** ** [strptime] *)

Lemma re_match_Cat {A : Type} (r1 r2 : regex) (s : string) (g : groups)
    (k : string -> string -> groups -> option A) :
  re_match (Cat r1 r2) s g k
  = re_match r1 s g (fun t1 s1 g1 =>
      re_match r2 s1 g1 (fun t2 s2 g2 => k (t1 ++ t2) s2 g2)).
Proof. reflexivity. Qed.

(** A successful match splits the input into the three fields and what
    is left over. *)
Lemma format_regex_inv (s found : string) (g : groups) :
  re_match format_regex s [] (fun t _ g => Some (t, g)) = Some (found, g) ->
  exists ty y tm m td d rest,
    year_text ty y /\ month_text tm m /\ day_text td d
    /\ found = ty ++ "-" ++ tm ++ "-" ++ td
    /\ s = found ++ rest
    /\ g = [("d", td); ("m", tm); ("Y", ty)].
Proof.
  unfold format_regex. intros H. rewrite re_match_Cat in H.
  apply re_Y_inv in H. destruct H as (ty & y & r1 & Hy & -> & H).
  rewrite re_match_Cat in H.
  apply hyphen_inv in H. destruct H as (r2 & -> & H).
  rewrite re_match_Cat in H.
  apply re_m_inv in H. destruct H as (tm & m & r3 & Hm & -> & H).
  rewrite re_match_Cat in H.
  apply hyphen_inv in H. destruct H as (r4 & -> & H).
  apply re_d_inv in H. destruct H as (td & d & r5 & Hd & -> & H).
  injection H as <- <-.
  exists ty, y, tm, m, td, d, r5. repeat split; try assumption.
  rewrite !append_assoc. cbn [append]. rewrite !append_assoc. reflexivity.
Qed.

Lemma format_regex_complete (ty tm td : string) (y m d : Z) :
  year_text ty y -> month_text tm m -> day_text td d ->
  re_match format_regex (ty ++ "-" ++ tm ++ "-" ++ td) []
    (fun t _ g => Some (t, g))
  = Some (ty ++ "-" ++ tm ++ "-" ++ td, [("d", td); ("m", tm); ("Y", ty)]).
Proof.
  intros Hy Hm Hd. unfold format_regex. rewrite re_match_Cat.
  rewrite (re_Y_complete _ _ _ _ _ Hy). cbn [append].
  rewrite re_match_Cat, hyphen_complete, re_match_Cat.
  apply (re_m_complete _ _ _ _ _ _ Hm).
  rewrite re_match_Cat, hyphen_complete.
  apply (re_d_complete _ _ _ _ _ Hd). reflexivity.
Qed.

Lemma year_text_bound t y : year_text t y -> 0 <= y <= 9999.
Proof.
  intros [a b c d Ha Hb Hc Hd].
  apply is_digit_value in Ha, Hb, Hc, Hd. lia.
Qed.

Lemma month_text_bound t m : month_text t m -> 1 <= m <= 12.
Proof.
  intros [a Ha | a b Ha Hb Hab]; lia.
Qed.

Lemma day_text_bound t d : day_text t d -> 1 <= d <= 31.
Proof.
  intros [a Ha | a Ha | a b Ha Hb Hab]; lia.
Qed.

Lemma datetime_new_valid (y m d : Z) :
  calendar_valid (mkdate y m d) = true -> y <= 9999 ->
  datetime_new y m d = Return (mkdatetime y m d 0 0 0 0).
Proof.
  intros Hv Hy. apply valid_fields in Hv. destruct Hv as (H1 & Hm & Hd).
  unfold datetime_new, _check_date_fields, MINYEAR, MAXYEAR.
  replace ((1 <=? y) && (y <=? 9999)) with true
    by (symmetry; apply andb_true_iff; split; apply Z.leb_le; lia).
  replace ((1 <=? m) && (m <=? 12)) with true
    by (symmetry; apply andb_true_iff; split; apply Z.leb_le; lia).
  replace ((1 <=? d) && (d <=? _days_in_month y m)) with true
    by (symmetry; apply andb_true_iff; split; apply Z.leb_le; lia).
  reflexivity.
Qed.

Lemma datetime_new_inv (y m d : Z) (dt : datetime) :
  1 <= m <= 12 ->
  datetime_new y m d = Return dt ->
  calendar_valid (mkdate y m d) = true /\ y <= 9999
  /\ dt = mkdatetime y m d 0 0 0 0.
Proof.
  intros Hm. unfold datetime_new, _check_date_fields, MINYEAR, MAXYEAR.
  destruct ((1 <=? y) && (y <=? 9999)) eqn:Ey; [|discriminate].
  destruct ((1 <=? m) && (m <=? 12)) eqn:Em; [|discriminate].
  destruct ((1 <=? d) && (d <=? _days_in_month y m)) eqn:Ed; [|discriminate].
  cbn. intros [= <-]. bool_to_prop. repeat split; try assumption.
  unfold calendar_valid. cbn [date_year date_month date_day].
  rewrite <- days_in_month_calendar by lia.
  repeat (apply andb_true_iff; split); apply Z.leb_le; lia.
Qed.

Lemma datetime_new_raises (y m d : Z) :
  (exists dt, datetime_new y m d = Return dt)
  \/ (exists msg, datetime_new y m d = Raise (ValueError msg)).
Proof.
  unfold datetime_new, _check_date_fields.
  repeat match goal with
  | |- context [if ?b then _ else _] => destruct b
  end; cbn; eauto.
Qed.

(** What [strptime] accepts, and what it then returns. *)
Lemma strptime_accepts (s : string) (dt : datetime) :
  strptime s = Return dt <->
  exists d, lenient_text s d /\ calendar_valid d = true /\ dt = midnight d.
Proof.
  unfold strptime. split.
  - destruct (re_match _ _ _ _) as [[found g]|] eqn:E; [|discriminate].
    apply format_regex_inv in E.
    destruct E as (ty & y & tm & m & td & d & rest
                   & Hy & Hm & Hd & Ef & -> & ->).
    rewrite length_append.
    destruct (Nat.eqb _ _) eqn:El; [|discriminate]. cbn [negb].
    apply Nat.eqb_eq in El.
    assert (rest = "") as -> by (apply length_zero; lia).
    rewrite append_empty_r. cbn [found_group lookup String.eqb Ascii.eqb
      Bool.eqb bind].
    rewrite (py_int_year _ _ Hy), (py_int_month _ _ Hm), (py_int_day _ _ Hd).
    cbn [bind]. intros H.
    apply datetime_new_inv in H; [|eapply month_text_bound; eassumption].
    destruct H as (Hv & _ & ->).
    exists (mkdate y m d). subst found.
    split; [constructor; assumption | split; [assumption | reflexivity]].
  - intros (d & Hl & Hv & ->).
    destruct Hl as [ty tm td y m d Hy Hm Hd].
    rewrite (format_regex_complete _ _ _ _ _ _ Hy Hm Hd).
    rewrite Nat.eqb_refl. cbn [negb found_group lookup String.eqb Ascii.eqb
      Bool.eqb bind].
    rewrite (py_int_year _ _ Hy), (py_int_month _ _ Hm), (py_int_day _ _ Hd).
    cbn [bind]. apply datetime_new_valid; [assumption|].
    apply year_text_bound in Hy. lia.
Qed.

(** [strptime] never raises anything but a [ValueError]. *)
Lemma strptime_raises (s : string) :
  (exists dt, strptime s = Return dt)
  \/ (exists msg, strptime s = Raise (ValueError msg)).
Proof.
  unfold strptime.
  destruct (re_match _ _ _ _) as [[found g]|] eqn:E; [|right; eauto].
  apply format_regex_inv in E.
  destruct E as (ty & y & tm & m & td & d & rest
                 & Hy & Hm & Hd & Ef & -> & ->).
  destruct (negb _); [right; eauto|].
  cbn [found_group lookup String.eqb Ascii.eqb Bool.eqb bind].
  rewrite (py_int_year _ _ Hy), (py_int_month _ _ Hm), (py_int_day _ _ Hd).
  cbn [bind]. apply datetime_new_raises.
Qed.

Lemma parse_date_strptime (s : string) (dt : datetime) :
  parse_date s = Return dt <-> strptime s = Return dt.
Proof.
  unfold parse_date.
  destruct (strptime_raises s) as [[d ->] | [msg ->]]; [tauto|].
  split; discriminate.
Qed.

Lemma parse_date_rejects (s : string) :
  (forall dt, strptime s <> Return dt) ->
  parse_date s
  = Raise (HTTPException 400 "Invalid date format. Expected YYYY-MM-DD.").
Proof.
  intros H. unfold parse_date.
  destruct (strptime_raises s) as [[d E] | [msg ->]]; [|reflexivity].
  destruct (H d E).
Qed.

(** ** [strftime] and the strict reading *)

Lemma digit_char_digit_value (c : ascii) :
  is_digit c = true -> digit_char (digit_value c) = c.
Proof.
  intros H. apply code_inj. apply is_digit_value in H.
  rewrite code_digit_char by assumption. unfold digit_value. lia.
Qed.

(** The plain print of a year of four digits is the padded one; the
    print of a smaller year has at most three characters. *)
Lemma four_digit_years_checked :
  forall_range 1000 (Z.to_nat 9000)
    (fun y => String.eqb (decimal y) (zfill4 y)) = true.
Proof. vm_compute. reflexivity. Qed.

Lemma short_years_checked :
  forall_range 0 (Z.to_nat 1000)
    (fun y => (String.length (decimal y) <=? 3)%nat) = true.
Proof. vm_compute. reflexivity. Qed.

Lemma decimal_four_digits (y : Z) :
  1000 <= y <= 9999 -> decimal y = zfill4 y.
Proof.
  intros Hy. apply String.eqb_eq.
  apply (forall_range_spec _ _ _ four_digit_years_checked y).
  rewrite Z2Nat.id by lia. lia.
Qed.

Lemma decimal_short (y : Z) :
  0 <= y <= 999 -> (String.length (decimal y) <= 3)%nat.
Proof.
  intros Hy. apply Nat.leb_le.
  apply (forall_range_spec _ _ _ short_years_checked y).
  rewrite Z2Nat.id by lia. lia.
Qed.

(** Where the runtime pads the year, and everywhere from year 1000 on,
    [strftime] prints the padded text. *)
Lemma strftime_padded (rt : Runtime) (dt : datetime) :
  pads_year rt = true \/ 1000 <= year dt <= 9999 ->
  strftime rt dt = padded_text dt.
Proof.
  intros H. unfold strftime, padded_text, format_Y.
  destruct (pads_year rt); [reflexivity|].
  destruct H as [H | H]; [discriminate H|].
  rewrite decimal_four_digits by assumption. reflexivity.
Qed.

(** The padded text reads back, strictly, as the date. *)
Lemma read_padded_text (dt : datetime) :
  0 <= year dt <= 9999 -> 0 <= month dt <= 99 -> 0 <= day dt <= 99 ->
  read_YYYY_MM_DD (padded_text dt) = Some (datetime_date dt).
Proof.
  intros Hy Hm Hd. unfold padded_text, zfill4, zfill2, datetime_date.
  cbn [append read_YYYY_MM_DD forallb].
  rewrite !is_digit_digit_char by (Z.div_mod_to_equations; lia).
  rewrite !digit_value_digit_char by (Z.div_mod_to_equations; lia).
  cbn [andb]. change (code "-" =? 45) with true. cbn [andb].
  f_equal. f_equal; Z.div_mod_to_equations; lia.
Qed.

Lemma read_YYYY_MM_DD_inv (s : string) (d : date) :
  read_YYYY_MM_DD s = Some d ->
  exists y1 y2 y3 y4 m1 m2 d1 d2,
    s = String y1 (String y2 (String y3 (String y4 (String "-"
          (String m1 (String m2 (String "-" (String d1 (String d2 "")))))))))
    /\ Forall (fun c => is_digit c = true) [y1; y2; y3; y4; m1; m2; d1; d2]
    /\ d = mkdate
             (1000 * digit_value y1 + 100 * digit_value y2
              + 10 * digit_value y3 + digit_value y4)
             (10 * digit_value m1 + digit_value m2)
             (10 * digit_value d1 + digit_value d2).
Proof.
  unfold read_YYYY_MM_DD. intros H.
  destruct s as [|y1 s]; [discriminate|].
  destruct s as [|y2 s]; [discriminate|].
  destruct s as [|y3 s]; [discriminate|].
  destruct s as [|y4 s]; [discriminate|].
  destruct s as [|h1 s]; [discriminate|].
  destruct s as [|m1 s]; [discriminate|].
  destruct s as [|m2 s]; [discriminate|].
  destruct s as [|h2 s]; [discriminate|].
  destruct s as [|d1 s]; [discriminate|].
  destruct s as [|d2 s]; [discriminate|].
  destruct s; [|discriminate].
  destruct (forallb _ _ && _ && _) eqn:E; [|discriminate].
  apply andb_true_iff in E. destruct E as [E E2].
  apply andb_true_iff in E. destruct E as [E E1].
  apply Z.eqb_eq in E1, E2.
  apply (code_inj h1 "-") in E1. apply (code_inj h2 "-") in E2. subst h1 h2.
  exists y1, y2, y3, y4, m1, m2, d1, d2.
  split; [reflexivity|]. split; [|congruence].
  apply Forall_forall. apply forallb_forall. exact E.
Qed.

Ltac read_inv H :=
  apply read_YYYY_MM_DD_inv in H;
  let F := fresh "F" in
  destruct H as (y1 & y2 & y3 & y4 & m1 & m2 & d1 & d2 & -> & F & ->);
  repeat match goal with
  | F : Forall _ (_ :: _) |- _ => inversion_clear F
  | F : Forall _ [] |- _ => clear F
  end.

(** A strict text is printed back unchanged. *)
Lemma padded_text_read (s : string) (d : date) :
  read_YYYY_MM_DD s = Some d -> padded_text (midnight d) = s.
Proof.
  intros H. read_inv H.
  repeat match goal with
  | E : is_digit ?c = true |- _ =>
      pose proof (digit_char_digit_value c E);
      apply is_digit_value in E
  end.
  unfold padded_text, zfill4, zfill2, midnight.
  cbn [year month day date_year date_month date_day append].
  repeat match goal with
  | |- String ?x _ = String ?y _ =>
      replace x with y; [f_equal|]
  end; try reflexivity;
  match goal with
  | H : digit_char (digit_value ?c) = ?c |- ?c = _ =>
      rewrite <- H at 1; f_equal; Z.div_mod_to_equations; lia
  end.
Qed.

(** A strict text of a date of the calendar is one [strptime] reads. *)
Lemma read_lenient (s : string) (d : date) :
  read_YYYY_MM_DD s = Some d -> calendar_valid d = true -> lenient_text s d.
Proof.
  intros H Hv. read_inv H.
  apply valid_fields in Hv. destruct Hv as (Hy & Hm & Hd).
  match type of Hd with
  | _ <= _ <= _days_in_month ?y _ =>
      pose proof (days_in_month_le_31 y _ Hm)
  end.
  apply (lenient_fields
           (String y1 (String y2 (String y3 (String y4 ""))))
           (String m1 (String m2 "")) (String d1 (String d2 ""))).
  - constructor; assumption.
  - apply month_two_digits; assumption.
  - apply day_two_digits; try assumption. lia.
Qed.

(** ** Adding days to a date *)

Lemma valid_year_in_range (d : date) :
  calendar_valid d = true -> date_year d <= 9999 ->
  date_leb d (mkdate 9999 12 31) = true.
Proof.
  destruct d as [y m dd]. intros Hv Hy.
  apply valid_fields in Hv. destruct Hv as (H1 & Hm & Hd).
  pose proof (days_in_month_le_31 y m Hm).
  unfold date_leb. cbn [date_year date_month date_day] in *.
  destruct (y <? 9999) eqn:E; [reflexivity|]. bool_to_prop.
  replace (y =? 9999) with true by (symmetry; apply Z.eqb_eq; lia).
  destruct (m <? 12) eqn:E'; [reflexivity|]. bool_to_prop.
  replace (m =? 12) with true by (symmetry; apply Z.eqb_eq; lia).
  cbn. apply Z.leb_le. lia.
Qed.

(** Adding [k] days to the midnight of a date: the midnight of the
    [k]-th next day while it is not after 9999-12-31, an [OverflowError]
    beyond. *)
Lemma datetime_add_days (d : date) (k : nat) :
  calendar_valid d = true -> date_year d <= 9999 -> (k <= 30)%nat ->
  datetime_add (midnight d) (timedelta_days (Z.of_nat k))
  = if _ymd2ord (date_year d) (date_month d) (date_day d) + Z.of_nat k
       <=? _MAXORDINAL
    then Return (midnight (calendar_plus_days k d))
    else Raise (OverflowError "date value out of range").
Proof.
  intros Hv Hy Hk.
  pose proof (valid_year_in_range d Hv Hy) as Hle.
  destruct d as [y m dd]. cbn [date_year date_month date_day] in *.
  pose proof (ymd2ord_positive _ _ _ Hv) as Hpos.
  pose proof (ymd2ord_in_range y m dd 0 Hv ltac:(lia) Hle) as Hmax.
  unfold _MAXORDINAL in *.
  unfold datetime_add, timedelta_new, toordinal, timedelta_days, midnight.
  cbn [year month day hour minute second microsecond days seconds
       microseconds date_year date_month date_day].
  change (0 * 3600 + 0 * 60 + 0 + 0 + (0 + 0) / 1000000) with 0.
  change ((0 + 0) mod 1000000) with 0.
  change (0 / 86400) with 0. change (0 mod 86400) with 0.
  rewrite Z.add_0_r.
  replace (Z.abs (_ymd2ord y m dd + Z.of_nat k) >? 999999999) with false
    by (symmetry; rewrite Z.gtb_ltb; apply Z.ltb_ge; lia).
  cbn [bind days seconds microseconds].
  replace (0 <? _ymd2ord y m dd + Z.of_nat k) with true
    by (symmetry; apply Z.ltb_lt; lia).
  cbn [andb]. unfold _MAXORDINAL.
  destruct (_ <=? _); [|reflexivity].
  pose proof (ord2ymd_plus_days k (mkdate y m dd) Hv) as E.
  cbn [date_year date_month date_day] in E. rewrite E.
  destruct (calendar_plus_days k _). reflexivity.
Qed.

(** What [parse_date] returns is the midnight of a date of the
    calendar, of a year up to 9999, that the text denotes. *)
Lemma parse_date_valid (s : string) (dt : datetime) :
  parse_date s = Return dt ->
  exists d,
    dt = midnight d /\ calendar_valid d = true /\ date_year d <= 9999
    /\ lenient_text s d.
Proof.
  intros H. apply parse_date_strptime, strptime_accepts in H.
  destruct H as (d & Hl & Hv & ->). exists d. repeat split; try assumption.
  destruct Hl as [ty tm td y m dd Hy _ _]. apply year_text_bound in Hy.
  cbn. lia.
Qed.

Lemma datetime_date_midnight (d : date) : datetime_date (midnight d) = d.
Proof. destruct d. reflexivity. Qed.

Lemma ymd2ord_plus_days (k : nat) :
  forall d, calendar_valid d = true ->
  _ymd2ord (date_year (calendar_plus_days k d))
    (date_month (calendar_plus_days k d)) (date_day (calendar_plus_days k d))
  = _ymd2ord (date_year d) (date_month d) (date_day d) + Z.of_nat k.
Proof.
  induction k as [|k IH]; intros d Hv; cbn [calendar_plus_days].
  - lia.
  - rewrite IH by (apply next_day_valid, Hv).
    rewrite ymd2ord_next_day by assumption. lia.
Qed.

Lemma ymd2ord_year_bound (y m d : Z) :
  calendar_valid (mkdate y m d) = true ->
  _ymd2ord y m d <= _MAXORDINAL -> y <= 9999.
Proof.
  intros Hv Hle. apply valid_fields in Hv. destruct Hv as (Hy & Hm & Hd).
  destruct (year_split y) as (a & b & c & e & Ey & Hb & Hc & He & Ha).
  unfold _ymd2ord, _days_before_month, _MAXORDINAL in Hle.
  rewrite Ey in Hle. rewrite days_before_year_split in Hle by assumption.
  assert (0 <= _DAYS_BEFORE_MONTH m) by (each_month m; cbv; discriminate).
  destruct (_ && _) in Hle; lia.
Qed.

Lemma plus_days_year_bound (d : date) (k : nat) :
  calendar_valid d = true ->
  _ymd2ord (date_year d) (date_month d) (date_day d) + Z.of_nat k
    <= _MAXORDINAL ->
  0 <= date_year (calendar_plus_days k d) <= 9999.
Proof.
  intros Hv Hle.
  pose proof (plus_days_valid k d Hv) as Hv'.
  pose proof (ymd2ord_plus_days k d Hv) as E.
  destruct (calendar_plus_days k d) as [y m dd].
  cbn [date_year date_month date_day] in *.
  pose proof (valid_fields _ _ _ Hv') as (Hy & _).
  split; [lia|]. apply (ymd2ord_year_bound y m dd Hv'). lia.
Qed.

Lemma hyphen_not_digit : is_digit "-" = false.
Proof. reflexivity. Qed.

Lemma blank_not_digit : is_digit " " = false.
Proof. reflexivity. Qed.

(** Compare two texts character by character. *)
Ltac same_text :=
  repeat match goal with
  | E : String _ _ = String _ _ |- _ =>
      let E1 := fresh "E" in
      let E2 := fresh "E" in
      injection E as E1 E2; try subst
  | E : String _ _ = EmptyString |- _ => discriminate E
  | E : EmptyString = String _ _ |- _ => discriminate E
  | H : is_digit "-" = true |- _ => rewrite hyphen_not_digit in H; discriminate H
  | H : is_digit " " = true |- _ => rewrite blank_not_digit in H; discriminate H
  end.

(** On a text of the strict form the two readings agree. *)
Lemma lenient_strict_agree (s : string) (d d' : date) :
  read_YYYY_MM_DD s = Some d' -> lenient_text s d -> d = d'.
Proof.
  intros H Hl. read_inv H.
  inversion Hl as [ty tm td y m dd Hy Hm Hd E]. subst d.
  destruct Hy as [a b c e Ha Hb Hc He].
  destruct Hm as [a' Ha' | a' b' Ha' Hb' Hab];
    destruct Hd as [a'' Ha'' | a'' Ha'' | a'' b'' Ha'' Hb'' Hab''];
    cbn [append] in E; same_text; reflexivity.
Qed.

(** The padded text of what [parse_date] read from a text of the
    strict form is that text. *)
Lemma padded_text_parse_strict (s : string) (d : date) (dt : datetime) :
  read_YYYY_MM_DD s = Some d -> parse_date s = Return dt ->
  padded_text dt = s.
Proof.
  intros Hread Hparse.
  destruct (parse_date_valid _ _ Hparse) as (d' & -> & _ & _ & Hl).
  rewrite (lenient_strict_agree s d' d Hread Hl).
  apply padded_text_read, Hread.
Qed.

(** ** Decimal printing and the format [.1f] *)

Lemma string_of_uint_digits (u : Decimal.uint) :
  all_digits (NilEmpty.string_of_uint u) = true.
Proof.
  induction u; cbn [NilEmpty.string_of_uint all_digits]; try reflexivity;
    rewrite IHu; reflexivity.
Qed.

Lemma decimal_digits (n : Z) : all_digits (decimal n) = true.
Proof.
  unfold decimal, NilZero.string_of_uint.
  destruct (N.to_uint _) eqn:E; try reflexivity;
    rewrite <- E; apply string_of_uint_digits.
Qed.

Lemma decimal_not_empty (n : Z) : decimal n <> "".
Proof.
  unfold decimal, NilZero.string_of_uint.
  destruct (N.to_uint _); discriminate.
Qed.

Lemma decimal_one_digit (n : Z) :
  0 <= n <= 9 -> exists c, decimal n = String c "" /\ is_digit c = true.
Proof.
  intros H. each_value n 0 10%nat; eexists; split; reflexivity.
Qed.

Lemma split_at_point_digits (ip rest : string) :
  all_digits ip = true ->
  split_at_point (ip ++ String "." rest) = Some (ip, rest).
Proof.
  induction ip as [|c ip IH]; cbn [all_digits append split_at_point];
    intros H.
  - reflexivity.
  - apply andb_true_iff in H. destruct H as [Hc Hip].
    replace (code c =? 46) with false
      by (symmetry; apply Z.eqb_neq; apply is_digit_value in Hc;
          unfold digit_value in Hc; lia).
    rewrite (IH Hip). reflexivity.
Qed.

(** A sign, digits, a point and one digit pass [one_fraction_digit]. *)
Lemma one_fraction_digit_intro (s : bool) (ip : string) (f : ascii) :
  all_digits ip = true -> ip <> "" -> is_digit f = true ->
  one_fraction_digit (sign_text s ++ ip ++ String "." (String f "")) = true.
Proof.
  intros Hip Hne Hf. destruct ip as [|c ip]; [contradiction|].
  assert (Hb : one_fraction_digit (String c ip ++ String "." (String f ""))
               = true).
  { unfold one_fraction_digit.
    pose proof Hip as Hc. cbn [all_digits] in Hc.
    apply andb_true_iff in Hc. destruct Hc as [Hc _].
    cbn [append].
    replace (code c =? 45) with false
      by (symmetry; apply Z.eqb_neq; apply is_digit_value in Hc;
          unfold digit_value in Hc; lia).
    change (String c (ip ++ String "." (String f "")))
      with (String c ip ++ String "." (String f "")).
    rewrite split_at_point_digits by assumption.
    rewrite Hip, Hf. reflexivity. }
  destruct s; [|exact Hb].
  unfold one_fraction_digit in *. cbn [sign_text append] in *.
  change (code "-" =? 45) with true. cbn iota.
  destruct (code c =? 45) eqn:E; [|exact Hb].
  exfalso. cbn [all_digits] in Hip. apply andb_true_iff in Hip.
  destruct Hip as [Hc _]. apply is_digit_value in Hc.
  unfold digit_value in Hc. bool_to_prop. lia.
Qed.

Lemma round_half_even_nonneg (num den : Z) :
  0 <= num -> 0 < den -> 0 <= round_half_even num den.
Proof.
  intros Hn Hd. unfold round_half_even.
  assert (0 <= num / den) by (apply Z.div_pos; lia).
  destruct (_ ?= _); [destruct (Z.even _)|..]; lia.
Qed.

(** [round_half_even] picks a nearest integer. *)
Lemma round_half_even_nearest (num den : Z) :
  0 < den -> 2 * Z.abs (num - den * round_half_even num den) <= den.
Proof.
  intros Hd. unfold round_half_even.
  pose proof (Z.div_mod num den ltac:(lia)) as E.
  pose proof (Z.mod_pos_bound num den Hd) as B.
  destruct (2 * (num mod den) ?= den) eqn:C.
  - apply Z.compare_eq in C. destruct (Z.even _); nia.
  - rewrite Z.compare_lt_iff in C. nia.
  - rewrite Z.compare_gt_iff in C. nia.
Qed.

(** A finite value is printed with exactly one digit after the point. *)
Lemma format_1f_one_fraction_digit (x : spec_float) :
  is_finite x = true -> one_fraction_digit (format_1f x) = true.
Proof.
  destruct x as [s | s | | s m e]; try discriminate; intros _.
  - destruct s; reflexivity.
  - unfold format_1f.
    set (tenths := if 0 <=? e then _ else _).
    assert (Ht : 0 <= tenths).
    { subst tenths. destruct (0 <=? e) eqn:E.
      - bool_to_prop. pose proof (Z.pow_nonneg 2 e ltac:(lia)). nia.
      - bool_to_prop. apply round_half_even_nonneg; [lia|].
        apply Z.pow_pos_nonneg; lia. }
    destruct (decimal_one_digit (tenths mod 10)
                ltac:(Z.div_mod_to_equations; lia)) as (f & -> & Hf).
    apply one_fraction_digit_intro;
      [apply decimal_digits | apply decimal_not_empty | exact Hf].
Qed.

(** The scenario's number in both precisions. *)
Lemma format_1f_28_16 :
  nearest_binary64 double_28_16 2816 100 = true
  /\ format_1f double_28_16 = "28.2"
  /\ valid_binary 24 128 single_28_16 = true
  /\ 2 * Z.abs (14763950 * 100 - 2816 * 2 ^ 19) <= 100
  /\ format_1f single_28_16 = "28.2".
Proof.
  repeat split; vm_compute; congruence.
Qed.

(** ** Reading the printed amount back *)

Lemma read_digits_acc (u : Decimal.uint) :
  forall p,
    read_digits (Z.pos p) (NilEmpty.string_of_uint u)
    = Some (Z.pos (Pos.of_uint_acc u p)).
Proof.
  induction u; intros p;
    cbn [NilEmpty.string_of_uint read_digits Pos.of_uint_acc];
    try reflexivity;
    match goal with
    | |- context [is_digit ?c] =>
        change (is_digit c) with true; cbn iota;
        let v := eval compute in (digit_value c) in
        change (digit_value c) with v
    end;
    rewrite <- IHu; f_equal; lia.
Qed.

Lemma read_digits_of_uint (u : Decimal.uint) :
  read_digits 0 (NilEmpty.string_of_uint u) = Some (Z.of_N (N.of_uint u)).
Proof.
  induction u;
    cbn [NilEmpty.string_of_uint read_digits];
    try reflexivity;
    match goal with
    | |- context [is_digit ?c] =>
        change (is_digit c) with true; cbn iota;
        let v := eval compute in (10 * 0 + digit_value c) in
        change (10 * 0 + digit_value c) with v
    end;
    [exact IHu | apply read_digits_acc ..].
Qed.

(** Reading the decimal print of a number gives the number. *)
Lemma read_digits_decimal (n : Z) :
  0 <= n -> read_digits 0 (decimal n) = Some n.
Proof.
  intros Hn. unfold decimal, NilZero.string_of_uint.
  destruct (N.to_uint (Z.to_N n)) eqn:E;
    try (rewrite <- E, read_digits_of_uint, DecimalN.Unsigned.of_to;
         f_equal; lia).
  exfalso. destruct (Z.to_N n); [discriminate E|].
  cbn in E. apply (DecimalPos.Unsigned.to_uint_nonnil _ E).
Qed.

Lemma decimal_digit_char (n : Z) :
  0 <= n <= 9 -> decimal n = String (digit_char n) "".
Proof.
  intros H. each_value n 0 10%nat; reflexivity.
Qed.

(** What [tenths_of_text] reads from a sign, a whole part, a point and
    a digit. *)
Lemma tenths_of_text_intro (s : bool) (a f : Z) :
  0 <= a -> 0 <= f <= 9 ->
  tenths_of_text (sign_text s ++ decimal a ++ "." ++ decimal f)
  = Some (s, 10 * a + f).
Proof.
  intros Ha Hf. rewrite (decimal_digit_char f Hf).
  pose proof (decimal_digits a) as Hd.
  pose proof (decimal_not_empty a) as Hne.
  pose proof (read_digits_decimal a Ha) as Hr.
  destruct (decimal a) as [|c ip] eqn:E; [contradiction|].
  pose proof Hd as Hc. cbn [all_digits] in Hc.
  apply andb_true_iff in Hc. destruct Hc as [Hc _].
  assert (Hbody : forall neg : bool,
    match split_at_point (String c ip ++ "." ++ String (digit_char f) "") with
    | Some (String c0 ip0, String f0 "") =>
        if all_digits (String c0 ip0) && is_digit f0 then
          match read_digits 0 (String c0 ip0) with
          | Some a0 => Some (neg, 10 * a0 + digit_value f0)
          | None => None
          end
        else None
    | _ => None
    end = Some (neg, 10 * a + f)).
  { intros neg.
    change ("." ++ String (digit_char f) "")
      with (String "." (String (digit_char f) "")).
    rewrite split_at_point_digits by assumption.
    rewrite Hd, is_digit_digit_char by assumption. cbn [andb].
    rewrite Hr, digit_value_digit_char by assumption. reflexivity. }
  unfold tenths_of_text. destruct s; cbn [sign_text append].
  - change (code "-" =? 45) with true. cbn iota. apply Hbody.
  - replace (code c =? 45) with false
      by (symmetry; apply Z.eqb_neq; apply is_digit_value in Hc;
          unfold digit_value in Hc; lia).
    apply (Hbody false).
Qed.

Lemma format_1f_reads_back (x : spec_float) :
  is_finite x = true ->
  exists t,
    tenths_of_text (format_1f x) = Some (sign_bit x, t)
    /\ nearest_tenths x t.
Proof.
  destruct x as [s | s | | s m e]; try discriminate; intros _.
  - exists 0. split; [destruct s; reflexivity | reflexivity].
  - unfold format_1f, nearest_tenths, sign_bit.
    set (t := if 0 <=? e then _ else _).
    assert (Ht : 0 <= t).
    { subst t. destruct (0 <=? e) eqn:E.
      - bool_to_prop. pose proof (Z.pow_nonneg 2 e ltac:(lia)). nia.
      - bool_to_prop. apply round_half_even_nonneg; [lia|].
        apply Z.pow_pos_nonneg; lia. }
    exists t. split.
    + rewrite tenths_of_text_intro
        by (Z.div_mod_to_equations; lia).
      f_equal. f_equal. Z.div_mod_to_equations. lia.
    + subst t. destruct (0 <=? e) eqn:E; [reflexivity|]. bool_to_prop.
      pose proof (round_half_even_nearest (10 * Z.pos m) (2 ^ (- e))
                    ltac:(apply Z.pow_pos_nonneg; lia)) as R.
      rewrite (Z.mul_comm (round_half_even _ _)). exact R.
Qed.

(** ** The handlers, step by step *)

Lemma padded_text_midnight_reads (d : date) :
  calendar_valid d = true -> date_year d <= 9999 ->
  read_YYYY_MM_DD (padded_text (midnight d)) = Some d.
Proof.
  intros Hv Hy. destruct d as [y m dd].
  pose proof (valid_fields _ _ _ Hv) as (H1 & Hm & Hd).
  pose proof (days_in_month_le_31 y m Hm).
  cbn [date_year] in Hy.
  rewrite read_padded_text; cbn [midnight year month day date_year date_month
    date_day]; try lia.
  reflexivity.
Qed.

Lemma strftime_midnight (rt : Runtime) (d : date) :
  calendar_valid d = true -> date_year d <= 9999 ->
  pads_year rt = true \/ 1000 <= date_year d ->
  strftime rt (midnight d) = padded_text (midnight d).
Proof.
  intros Hv Hy Hpad. apply strftime_padded.
  destruct Hpad as [H | H]; [left; exact H | right; cbn; lia].
Qed.

Lemma next_day_year (d : date) :
  date_year d <= date_year (calendar_next_day d).
Proof.
  unfold calendar_next_day.
  destruct (_ <? _); [cbn; lia|]. destruct (_ <? _); cbn; lia.
Qed.

Lemma plus_days_year (k : nat) :
  forall d, date_year d <= date_year (calendar_plus_days k d).
Proof.
  induction k as [|k IH]; intros d; cbn [calendar_plus_days]; [lia|].
  pose proof (next_day_year d). pose proof (IH (calendar_next_day d)). lia.
Qed.

(** The handler's date arithmetic, for a base date from which [k] days
    can be added. *)
Lemma shifted_date_text (d : date) (k : nat) :
  calendar_valid d = true -> date_year d <= 9999 -> (k <= 30)%nat ->
  date_leb d (mkdate 9999 12 (31 - Z.of_nat k)) = true ->
  datetime_add (midnight d) (timedelta_days (Z.of_nat k))
  = Return (midnight (calendar_plus_days k d))
  /\ calendar_valid (calendar_plus_days k d) = true
  /\ date_year (calendar_plus_days k d) <= 9999
  /\ read_YYYY_MM_DD (padded_text (midnight (calendar_plus_days k d)))
     = Some (calendar_plus_days k d).
Proof.
  intros Hv Hy Hk Hle.
  assert (Hord : _ymd2ord (date_year d) (date_month d) (date_day d)
                 + Z.of_nat k <= _MAXORDINAL).
  { destruct d as [y m dd]. apply ymd2ord_in_range; [assumption|lia|].
    exact Hle. }
  pose proof (plus_days_valid k d Hv) as Hv'.
  pose proof (plus_days_year_bound d k Hv Hord) as Hy'.
  split; [|split; [exact Hv' | split; [lia|]]].
  - rewrite datetime_add_days by assumption.
    replace (_ <=? _) with true by (symmetry; apply Z.leb_le; exact Hord).
    reflexivity.
  - apply padded_text_midnight_reads; [exact Hv' | lia].
Qed.

Lemma date_leb_weaken (d : date) (y m a b : Z) :
  date_leb d (mkdate y m a) = true -> a <= b ->
  date_leb d (mkdate y m b) = true.
Proof.
  unfold date_leb. cbn [date_year date_month date_day]. intros H Hab.
  destruct (date_year d <? y); [reflexivity|]. cbn [orb] in *.
  destruct (date_year d =? y); [|discriminate H]. cbn [andb] in *.
  destruct (date_month d <? m); [reflexivity|]. cbn [orb] in *.
  destruct (date_month d =? m); [|discriminate H]. cbn [andb] in *.
  apply Z.leb_le. apply Z.leb_le in H. lia.
Qed.

(** What a handler prints for the date [k] days after a base date
    within the bound: the padded text of that date, when the runtime
    pads the year or the base date is of year 1000 or later. *)
Lemma shifted_text_reads (rt : Runtime) (d : date) (k : nat) (bound : Z) :
  calendar_valid d = true -> date_year d <= 9999 -> (k <= 30)%nat ->
  date_leb d (mkdate 9999 12 bound) = true ->
  bound <= 31 - Z.of_nat k ->
  pads_year rt = true \/ 1000 <= date_year d ->
  read_YYYY_MM_DD (strftime rt (midnight (calendar_plus_days k d)))
  = Some (calendar_plus_days k d).
Proof.
  intros Hv Hy Hk Hle Hb Hpad.
  destruct (shifted_date_text d k Hv Hy Hk
              (date_leb_weaken d 9999 12 bound _ Hle Hb))
    as (_ & Hv' & Hy' & Hread).
  rewrite strftime_midnight; try assumption.
  destruct Hpad as [H | H]; [left; exact H | right].
  pose proof (plus_days_year k d). lia.
Qed.

(** ** The feature frame *)

Lemma build_features_outcome (rt : Runtime) (dt : datetime) :
  build_features_for_date rt dt
  = if timestamp_in_bounds rt (datetime_date dt)
    then Return [("date", [midnight (datetime_date dt)])]
    else Raise (OutOfBoundsDatetime "Out of bounds nanosecond timestamp").
Proof.
  unfold build_features_for_date, pd_to_datetime.
  destruct (timestamp_in_bounds _ _); reflexivity.
Qed.

Lemma build_features_returns (rt : Runtime) (dt : datetime) (X : DataFrame) :
  build_features_for_date rt dt = Return X ->
  timestamp_in_bounds rt (datetime_date dt) = true
  /\ X = [("date", [midnight (datetime_date dt)])].
Proof.
  rewrite build_features_outcome.
  destruct (timestamp_in_bounds _ _); [|discriminate].
  intros H. split; [reflexivity | congruence].
Qed.

(** With microseconds every date of [datetime] has a timestamp. *)
Lemma timestamp_in_bounds_microseconds (rt : Runtime) (d : date) :
  resolution rt = Microseconds ->
  calendar_valid d = true -> date_year d <= 9999 ->
  timestamp_in_bounds rt d = true.
Proof.
  intros Hr Hv Hy.
  pose proof (valid_year_in_range d Hv Hy) as Hle.
  destruct d as [y m dd]. cbn [date_year] in Hy.
  pose proof (ymd2ord_positive _ _ _ Hv) as Hpos.
  pose proof (ymd2ord_in_range y m dd 0 Hv ltac:(lia) Hle) as Hmax.
  unfold timestamp_in_bounds, timestamp_value, ticks_per_day, EPOCH_ORDINAL,
    INT64_MAX, _MAXORDINAL in *.
  rewrite Hr. cbn [date_year date_month date_day].
  apply Z.leb_le.
  change (86400 * 10 ^ 6) with 86400000000.
  change (2 ^ 63 - 1) with 9223372036854775807. lia.
Qed.

(** ** The handlers before the model is asked *)

Lemma predict_rain_unloaded (rt : Runtime) (st : State) (date : string) :
  rain_clf st = None ->
  predict_rain rt st date
  = Raise (HTTPException 500
             ("Rain model not loaded. " ++ or_empty (load_error_msg st))).
Proof.
  intros H. unfold predict_rain. rewrite H. reflexivity.
Qed.

Lemma predict_precipitation_fall_unloaded (rt : Runtime) (st : State)
    (date : string) :
  precip_reg st = None ->
  predict_precipitation_fall rt st date
  = Raise (HTTPException 500
             ("Precipitation model not loaded. "
              ++ or_empty (load_error_msg st))).
Proof.
  intros H. unfold predict_precipitation_fall. rewrite H. reflexivity.
Qed.

Lemma predict_rain_bad_date (rt : Runtime) (st : State) (clf : Artifact)
    (date : string) (e : exn) :
  rain_clf st = Some clf -> parse_date date = Raise e ->
  predict_rain rt st date = Raise e.
Proof.
  intros Hclf H. unfold predict_rain. rewrite Hclf, H. reflexivity.
Qed.

Lemma predict_precipitation_fall_bad_date (rt : Runtime) (st : State)
    (reg : Artifact) (date : string) (e : exn) :
  precip_reg st = Some reg -> parse_date date = Raise e ->
  predict_precipitation_fall rt st date = Raise e.
Proof.
  intros Hreg H. unfold predict_precipitation_fall. rewrite Hreg, H.
  reflexivity.
Qed.

Lemma same_midnight (d d' : date) : midnight d' = midnight d -> d' = d.
Proof.
  intros E. rewrite <- (datetime_date_midnight d'), E.
  apply datetime_date_midnight.
Qed.

Lemma past_bound_overflows (y m dd bound : Z) (k : nat) :
  calendar_valid (mkdate y m dd) = true -> y <= 9999 ->
  date_leb (mkdate y m dd) (mkdate 9999 12 bound) = false ->
  31 - Z.of_nat k <= bound ->
  (_ymd2ord y m dd + Z.of_nat k <=? _MAXORDINAL) = false.
Proof.
  intros Hv Hy Hle Hb.
  pose proof (valid_fields _ _ _ Hv) as (H1 & Hm & Hd).
  unfold date_leb in Hle. cbn [date_year date_month date_day] in Hle.
  apply orb_false_iff in Hle. destruct Hle as [Hlt Hle].
  apply Z.ltb_ge in Hlt. assert (y = 9999) as -> by lia.
  rewrite Z.eqb_refl in Hle. cbn [andb] in Hle.
  apply orb_false_iff in Hle. destruct Hle as [Hlt' Hle].
  apply Z.ltb_ge in Hlt'. assert (m = 12) as -> by lia.
  rewrite Z.eqb_refl in Hle. cbn [andb] in Hle. apply Z.leb_gt in Hle.
  apply Z.leb_gt. unfold _ymd2ord, _MAXORDINAL.
  change (_days_before_year 9999) with 3651694.
  change (_days_before_month 9999 12) with 334. lia.
Qed.

(** From 9999-12-25 on, the rain handler of a loaded classifier raises
    [OverflowError]; the frame is not built yet. *)
Lemma predict_rain_overflows_after_bound
    (rt : Runtime) (st : State) (clf : Artifact) (date : string)
    (d0 : datetime) :
  rain_clf st = Some clf ->
  parse_date date = Return d0 ->
  date_leb (datetime_date d0) (mkdate 9999 12 24) = false ->
  predict_rain rt st date = Raise (OverflowError "date value out of range").
Proof.
  intros Hclf Hparse Hle.
  destruct (parse_date_valid _ _ Hparse) as (d & -> & Hv & Hy & _).
  rewrite datetime_date_midnight in Hle.
  unfold predict_rain. rewrite Hclf, Hparse. cbn [bind].
  change (timedelta_days 7) with (timedelta_days (Z.of_nat 7)).
  rewrite datetime_add_days by (assumption || lia).
  destruct d as [y m dd]. cbn [date_year date_month date_day] in *.
  rewrite (past_bound_overflows y m dd 24 7 Hv Hy Hle) by lia.
  reflexivity.
Qed.

(** From 9999-12-29 on, one of the two additions of the precipitation
    handler overflows. *)
Lemma predict_precipitation_fall_overflow (rt : Runtime) (st : State)
    (reg : Artifact) (d : date) (date : string) :
  precip_reg st = Some reg ->
  parse_date date = Return (midnight d) ->
  date_leb d (mkdate 9999 12 28) = false ->
  predict_precipitation_fall rt st date
  = Raise (OverflowError "date value out of range").
Proof.
  intros Hreg Hparse Hle.
  destruct (parse_date_valid _ _ Hparse) as (d' & E & Hv & Hy & _).
  apply same_midnight in E. subst d'.
  unfold predict_precipitation_fall. rewrite Hreg, Hparse. cbn [bind].
  change (timedelta_days 1) with (timedelta_days (Z.of_nat 1)).
  change (timedelta_days 3) with (timedelta_days (Z.of_nat 3)).
  rewrite !datetime_add_days by (assumption || lia).
  destruct d as [y m dd]. cbn [date_year date_month date_day] in *.
  rewrite (past_bound_overflows y m dd 28 3 Hv Hy Hle) by lia.
  destruct (_ <=? _); reflexivity.
Qed.

(** ** The handlers from the frame on *)

(** The body of the rain handler once the classifier is known to be
    loaded and the date to be accepted and in range. *)
Lemma predict_rain_loaded (rt : Runtime) (st : State) (clf : Artifact)
    (d : date) (date : string) :
  rain_clf st = Some clf ->
  parse_date date = Return (midnight d) ->
  date_leb d (mkdate 9999 12 24) = true ->
  predict_rain rt st date
  = (X <- build_features_for_date rt (midnight d) ;;
     pred <- try_except (predict clf X)
               (fun e => Raise (HTTPException 500
                                  ("Inference error (rain): " ++ str_exn e))) ;;
     v <- getitem pred 0 ;;
     Return (mkRainBody (strftime rt (midnight d))
               (mkRainPrediction
                  (strftime rt (midnight (calendar_plus_days 7 d)))
                  (py_bool v)))).
Proof.
  intros Hclf Hparse Hle.
  destruct (parse_date_valid _ _ Hparse) as (d' & E & Hv & Hy & _).
  apply same_midnight in E. subst d'.
  destruct (shifted_date_text d 7 Hv Hy ltac:(lia) Hle) as [Hadd _].
  unfold predict_rain. rewrite Hclf, Hparse. cbn [bind].
  change (timedelta_days 7) with (timedelta_days (Z.of_nat 7)).
  rewrite Hadd. reflexivity.
Qed.

Lemma predict_precipitation_fall_loaded (rt : Runtime) (st : State)
    (reg : Artifact) (d : date) (date : string) :
  precip_reg st = Some reg ->
  parse_date date = Return (midnight d) ->
  date_leb d (mkdate 9999 12 28) = true ->
  predict_precipitation_fall rt st date
  = (X <- build_features_for_date rt (midnight d) ;;
     y_hat <- try_except
                (a <- predict reg X ;; v <- getitem a 0 ;;
                 Return (py_float v))
                (fun e => Raise (HTTPException 500
                                   ("Inference error (precipitation): "
                                    ++ str_exn e))) ;;
     Return (mkPrecipBody (strftime rt (midnight d))
               (mkPrecipPrediction
                  (strftime rt (midnight (calendar_plus_days 1 d)))
                  (strftime rt (midnight (calendar_plus_days 3 d)))
                  (format_1f y_hat)))).
Proof.
  intros Hreg Hparse Hle.
  destruct (parse_date_valid _ _ Hparse) as (d' & E & Hv & Hy & _).
  apply same_midnight in E. subst d'.
  destruct (shifted_date_text d 1 Hv Hy ltac:(lia)
              (date_leb_weaken d 9999 12 28 (31 - Z.of_nat 1) Hle
                 ltac:(lia)))
    as [Hadd1 _].
  destruct (shifted_date_text d 3 Hv Hy ltac:(lia) Hle) as [Hadd3 _].
  unfold predict_precipitation_fall. rewrite Hreg, Hparse. cbn [bind].
  change (timedelta_days 1) with (timedelta_days (Z.of_nat 1)).
  change (timedelta_days 3) with (timedelta_days (Z.of_nat 3)).
  rewrite Hadd1, Hadd3. reflexivity.
Qed.

Lemma parse_date_outcome (s : string) :
  (exists d,
     parse_date s = Return (midnight d)
     /\ calendar_valid d = true /\ date_year d <= 9999)
  \/ parse_date s
     = Raise (HTTPException 400 "Invalid date format. Expected YYYY-MM-DD.").
Proof.
  destruct (parse_date s) as [dt|e] eqn:E.
  - left. destruct (parse_date_valid _ _ E) as (d & -> & Hv & Hy & _).
    exists d. repeat split; assumption.
  - right. unfold parse_date in E.
    destruct (strptime_raises s) as [[dt H] | [msg H]]; rewrite H in E.
    + discriminate E.
    + exact (eq_sym E).
Qed.

(** A body of the rain handler comes from a loaded classifier, an
    accepted date within the bound, a frame that was built and an
    output with a first value. *)
Lemma predict_rain_returns (rt : Runtime) (st : State) (date : string)
    (body : RainBody) :
  predict_rain rt st date = Return body ->
  exists clf d X v rest,
    rain_clf st = Some clf
    /\ parse_date date = Return (midnight d)
    /\ calendar_valid d = true /\ date_year d <= 9999
    /\ date_leb d (mkdate 9999 12 24) = true
    /\ build_features_for_date rt (midnight d) = Return X
    /\ predict clf X = Return (v :: rest)
    /\ body = mkRainBody (strftime rt (midnight d))
                (mkRainPrediction
                   (strftime rt (midnight (calendar_plus_days 7 d)))
                   (py_bool v)).
Proof.
  intros H.
  destruct (rain_clf st) as [clf|] eqn:Hclf;
    [|rewrite predict_rain_unloaded in H by assumption; discriminate H].
  destruct (parse_date_outcome date) as [(d & E & Hv & Hy) | E];
    [|rewrite (predict_rain_bad_date rt st clf date _ Hclf E) in H;
      discriminate H].
  destruct (date_leb d (mkdate 9999 12 24)) eqn:Hle.
  - rewrite (predict_rain_loaded rt st clf d date Hclf E Hle) in H.
    destruct (build_features_for_date rt (midnight d)) as [X|e] eqn:Hb;
      cbn [bind] in H; [|discriminate H].
    destruct (predict clf X) as [[|v rest]|e] eqn:Hp;
      cbn [bind try_except getitem nth_error] in H; try discriminate H.
    exists clf, d, X, v, rest. repeat split; try assumption. congruence.
  - rewrite (predict_rain_overflows_after_bound rt st clf date (midnight d)
               Hclf E Hle) in H.
    discriminate H.
Qed.

Lemma predict_precipitation_fall_returns (rt : Runtime) (st : State)
    (date : string) (body : PrecipBody) :
  predict_precipitation_fall rt st date = Return body ->
  exists reg d X v rest,
    precip_reg st = Some reg
    /\ parse_date date = Return (midnight d)
    /\ calendar_valid d = true /\ date_year d <= 9999
    /\ date_leb d (mkdate 9999 12 28) = true
    /\ build_features_for_date rt (midnight d) = Return X
    /\ predict reg X = Return (v :: rest)
    /\ body = mkPrecipBody (strftime rt (midnight d))
                (mkPrecipPrediction
                   (strftime rt (midnight (calendar_plus_days 1 d)))
                   (strftime rt (midnight (calendar_plus_days 3 d)))
                   (format_1f (py_float v))).
Proof.
  intros H.
  destruct (precip_reg st) as [reg|] eqn:Hreg;
    [|rewrite predict_precipitation_fall_unloaded in H by assumption;
      discriminate H].
  destruct (parse_date_outcome date) as [(d & E & Hv & Hy) | E];
    [|rewrite (predict_precipitation_fall_bad_date rt st reg date _ Hreg E)
        in H;
      discriminate H].
  destruct (date_leb d (mkdate 9999 12 28)) eqn:Hle.
  - rewrite (predict_precipitation_fall_loaded rt st reg d date Hreg E Hle)
      in H.
    destruct (build_features_for_date rt (midnight d)) as [X|e] eqn:Hb;
      cbn [bind] in H; [|discriminate H].
    destruct (predict reg X) as [[|v rest]|e] eqn:Hp;
      cbn [bind try_except getitem nth_error] in H; try discriminate H.
    exists reg, d, X, v, rest. repeat split; try assumption. congruence.
  - rewrite (predict_precipitation_fall_overflow rt st reg d date Hreg E Hle)
      in H.
    discriminate H.
Qed.

(** ** The order of dates and of ordinals *)

Lemma days_before_year_mono (y y0 : Z) :
  y <= y0 -> _days_before_year y <= _days_before_year y0.
Proof.
  intros H. unfold _days_before_year. cbv zeta.
  Z.div_mod_to_equations. lia.
Qed.

(** The days before a month, in a common or a leap year. *)
Lemma days_before_month_mono (leapyear : bool) (m m0 : Z) :
  1 <= m <= 12 -> 1 <= m0 <= 12 -> m < m0 ->
  _DAYS_BEFORE_MONTH m + (if (2 <? m) && leapyear then 1 else 0)
  + (_DAYS_IN_MONTH m + (if (m =? 2) && leapyear then 1 else 0))
  <= _DAYS_BEFORE_MONTH m0 + (if (2 <? m0) && leapyear then 1 else 0).
Proof.
  intros Hm Hm0 Hlt.
  each_month m; each_month m0; try lia; destruct leapyear; cbv; discriminate.
Qed.

(** An earlier date has a smaller ordinal. *)
Lemma ymd2ord_lt (y m d y0 m0 d0 : Z) :
  calendar_valid (mkdate y m d) = true ->
  calendar_valid (mkdate y0 m0 d0) = true ->
  date_ltb (mkdate y m d) (mkdate y0 m0 d0) = true ->
  _ymd2ord y m d < _ymd2ord y0 m0 d0.
Proof.
  intros Hv Hv0 Hlt.
  apply valid_fields in Hv. destruct Hv as (Hy & Hm & Hd).
  apply valid_fields in Hv0. destruct Hv0 as (Hy0 & Hm0 & Hd0).
  rewrite days_in_month_table in Hd, Hd0.
  unfold date_ltb in Hlt. cbn [date_year date_month date_day] in Hlt.
  unfold _ymd2ord, _days_before_month.
  apply orb_true_iff in Hlt. destruct Hlt as [Hlt | Heq].
  - bool_to_prop.
    pose proof (days_before_year_mono (y + 1) y0 ltac:(lia)) as Hmono.
    rewrite days_before_next_year in Hmono.
    assert (Hdoy : _DAYS_BEFORE_MONTH m
                   + (if (2 <? m) && _is_leap y then 1 else 0) + d
                   <= 365 + (if _is_leap y then 1 else 0)).
    { destruct (day_of_year_bound (_is_leap y) m d Hm Hd)
        as [H | (H & HL & _)]; cbv zeta in H;
        destruct (_is_leap y); try discriminate HL; cbv iota; lia. }
    assert (0 <= _DAYS_BEFORE_MONTH m0)
      by (each_month m0; cbv; discriminate).
    destruct ((2 <? m0) && _is_leap y0); lia.
  - apply andb_true_iff in Heq. destruct Heq as [Ey Hmd]. bool_to_prop.
    subst y0. apply orb_true_iff in Hmd. destruct Hmd as [Hlt | Heq].
    + bool_to_prop.
      pose proof (days_before_month_mono (_is_leap y) m m0 Hm Hm0 Hlt).
      lia.
    + bool_to_prop. subst m0. lia.
Qed.

Lemma date_order_total (a b : date) :
  date_leb a b = negb (date_ltb b a).
Proof.
  unfold date_leb, date_ltb. lia.
Qed.

Lemma date_leb_ltb_or_eq (a b : date) :
  date_leb a b = true -> date_ltb a b = true \/ a = b.
Proof.
  destruct a as [y m d], b as [y0 m0 d0].
  unfold date_leb, date_ltb. cbn [date_year date_month date_day]. intros H.
  match goal with
  | |- ?b = true \/ _ => destruct b eqn:E; [left; reflexivity | right]
  end.
  assert (y = y0 /\ m = m0 /\ d = d0) as (-> & -> & ->) by lia.
  reflexivity.
Qed.

(** The order of dates is the order of their ordinals. *)
Lemma date_leb_ymd2ord (a b : date) :
  calendar_valid a = true -> calendar_valid b = true ->
  date_leb a b
  = (_ymd2ord (date_year a) (date_month a) (date_day a)
     <=? _ymd2ord (date_year b) (date_month b) (date_day b)).
Proof.
  intros Ha Hb. destruct (date_leb a b) eqn:E; symmetry.
  - apply Z.leb_le. destruct (date_leb_ltb_or_eq a b E) as [H | ->]; [|lia].
    destruct a, b. apply Z.lt_le_incl, ymd2ord_lt; assumption.
  - apply Z.leb_gt. rewrite date_order_total in E. apply negb_false_iff in E.
    destruct a, b. apply ymd2ord_lt; assumption.
Qed.

(** The dates whose midnight a nanosecond timestamp holds. *)
Lemma nanosecond_timestamp_range (rt : Runtime) (d : date) :
  resolution rt = Nanoseconds -> calendar_valid d = true ->
  timestamp_in_bounds rt d
  = date_leb (mkdate 1677 9 22) d && date_leb d (mkdate 2262 4 11).
Proof.
  intros Hr Hv.
  rewrite (date_leb_ymd2ord (mkdate 1677 9 22) d eq_refl Hv).
  rewrite (date_leb_ymd2ord d (mkdate 2262 4 11) Hv eq_refl).
  cbn [date_year date_month date_day].
  change (_ymd2ord 1677 9 22) with 612412.
  change (_ymd2ord 2262 4 11) with 825914.
  unfold timestamp_in_bounds, timestamp_value, ticks_per_day, EPOCH_ORDINAL,
    INT64_MAX. rewrite Hr.
  change (86400 * 10 ^ 9) with 86400000000000.
  change (2 ^ 63 - 1) with 9223372036854775807.
  set (n := _ymd2ord _ _ _).
  apply Bool.eq_iff_eq_true. rewrite andb_true_iff, !Z.leb_le. lia.
Qed.

(** The dates whose midnight has a timestamp, in either unit. *)
Lemma timestamp_in_bounds_dates (rt : Runtime) (d : date) :
  calendar_valid d = true -> date_year d <= 9999 ->
  timestamp_in_bounds rt d = true
  <-> (resolution rt = Microseconds
       \/ date_leb (mkdate 1677 9 22) d && date_leb d (mkdate 2262 4 11)
          = true).
Proof.
  intros Hv Hy. destruct (resolution rt) eqn:Hr.
  - rewrite (nanosecond_timestamp_range rt d Hr Hv). split.
    + intros H. right. exact H.
    + intros [H | H]; [discriminate H | exact H].
  - rewrite (timestamp_in_bounds_microseconds rt d Hr Hv Hy). split.
    + intros _. left. reflexivity.
    + intros _. reflexivity.
Qed.

(** * The claims *)

(** ** Dates answered by the prediction routes *)

(** C1, as amended.  For every date string that [parse_date] accepts
    and that denotes a date not after 9999-12-24, of year 1000 or later
    unless the runtime pads the year, with the classifier loaded, the
    frame of the base date built and the [predict] call returning an
    array with a first value, [/predict/rain/] returns a body whose
    [input_date] is the zero-padded YYYY-MM-DD text of the base date and
    whose [prediction.date] is the zero-padded text of the date exactly
    seven calendar days later; [will_rain] is the truth value of the
    first output.  When the request's text is itself zero-padded,
    [input_date] is that text. *)
Theorem predict_rain_shifts_seven_days
    (rt : Runtime) (st : State) (clf : Artifact) (date : string)
    (d0 : datetime) (X : DataFrame) (v : npval) (rest : list npval) :
  rain_clf st = Some clf ->
  parse_date date = Return d0 ->
  date_leb (datetime_date d0) (mkdate 9999 12 24) = true ->
  pads_year rt = true \/ 1000 <= year d0 ->
  build_features_for_date rt d0 = Return X ->
  predict clf X = Return (v :: rest) ->
  exists body,
    predict_rain rt st date = Return body
    /\ read_YYYY_MM_DD (rain_input_date body) = Some (datetime_date d0)
    /\ read_YYYY_MM_DD (rp_date (rain_prediction body))
       = Some (calendar_plus_days 7 (datetime_date d0))
    /\ will_rain (rain_prediction body) = py_bool v
    /\ (forall d, read_YYYY_MM_DD date = Some d ->
        rain_input_date body = date).
Proof.
  intros Hclf Hparse Hle Hpad Hbuild Hpred.
  destruct (parse_date_valid _ _ Hparse) as (d & -> & Hv & Hy & _).
  rewrite datetime_date_midnight in *.
  assert (Hpad' : pads_year rt = true \/ 1000 <= date_year d)
    by (destruct d; exact Hpad).
  rewrite (predict_rain_loaded rt st clf d date Hclf Hparse Hle), Hbuild.
  cbn [bind]. rewrite Hpred. cbn [try_except bind getitem nth_error].
  eexists. split; [reflexivity|].
  cbn [rain_input_date rain_prediction rp_date will_rain].
  rewrite (strftime_midnight rt d Hv Hy Hpad').
  split; [apply padded_text_midnight_reads; assumption|].
  split; [apply (shifted_text_reads rt d 7 24); assumption || lia|].
  split; [reflexivity|].
  intros d' Hstrict. apply (padded_text_parse_strict date d' _ Hstrict Hparse).
Qed.

Lemma predict_rain_shifts_seven_days_witness :
  exists body,
    predict_rain glibc_runtime ready_state "2023-01-01" = Return body
    /\ read_YYYY_MM_DD (rain_input_date body) = Some (mkdate 2023 1 1)
    /\ read_YYYY_MM_DD (rp_date (rain_prediction body))
       = Some (mkdate 2023 1 8)
    /\ will_rain (rain_prediction body) = true
    /\ rain_input_date body = "2023-01-01".
Proof.
  assert (Hpad : pads_year glibc_runtime = true
                 \/ 1000 <= year (mkdatetime 2023 1 1 0 0 0 0))
    by (right; cbn; lia).
  destruct (predict_rain_shifts_seven_days glibc_runtime ready_state
              (constant_model [NpInt 1]) "2023-01-01"
              (mkdatetime 2023 1 1 0 0 0 0)
              [("date", [mkdatetime 2023 1 1 0 0 0 0])] (NpInt 1) []
              eq_refl eq_refl eq_refl Hpad eq_refl eq_refl)
    as (body & Hbody & Hin & Hout & Hrain & Hecho).
  exists body. repeat split; try assumption.
  apply (Hecho (mkdate 2023 1 1)). reflexivity.
Defined.

(** C1 as stated fails on the last days of year 9999: the text is a
    valid date, the classifier is loaded, the frame of that date is
    built and [predict] succeeds on it, yet the handler raises
    [OverflowError] when it adds the seven days, and the request is
    answered 500. *)
Lemma predict_rain_overflows_at_last_date :
  parse_date "9999-12-31" = Return (mkdatetime 9999 12 31 0 0 0 0)
  /\ rain_clf ready_state = Some (constant_model [NpInt 1])
  /\ build_features_for_date padding_runtime (mkdatetime 9999 12 31 0 0 0 0)
     = Return [("date", [mkdatetime 9999 12 31 0 0 0 0])]
  /\ predict (constant_model [NpInt 1])
       [("date", [mkdatetime 9999 12 31 0 0 0 0])]
     = Return [NpInt 1]
  /\ predict_rain padding_runtime ready_state "9999-12-31"
     = Raise (OverflowError "date value out of range")
  /\ http_status (predict_rain padding_runtime ready_state "9999-12-31")
     = 500.
Proof.
  vm_compute. repeat split; reflexivity.
Qed.

(** The two other conditions of C1 cannot be dropped either.  Where
    the year is not padded, a year below 1000 is answered on fewer than
    four digits; and with nanosecond timestamps the frame of a date
    outside their range is not built: [OutOfBoundsDatetime] is raised
    before the [try] block and leaves the handler. *)
Lemma predict_rain_prints_short_year :
  predict_rain unpadded_runtime ready_state "0999-12-31"
  = Return (mkRainBody "999-12-31" (mkRainPrediction "1000-01-07" true))
  /\ read_YYYY_MM_DD "999-12-31" = None.
Proof.
  vm_compute. split; reflexivity.
Qed.

Lemma predict_rain_frame_out_of_bounds :
  (exists msg,
     predict_rain glibc_runtime ready_state "3000-01-01"
     = Raise (OutOfBoundsDatetime msg))
  /\ unhandled (predict_rain glibc_runtime ready_state "3000-01-01") = true.
Proof.
  split; [eexists|]; vm_compute; reflexivity.
Qed.

(** The dates at which nanosecond timestamps begin and end. *)
Lemma nanosecond_timestamp_edges :
  timestamp_in_bounds glibc_runtime (mkdate 1677 9 21) = false
  /\ timestamp_in_bounds glibc_runtime (mkdate 1677 9 22) = true
  /\ timestamp_in_bounds glibc_runtime (mkdate 2262 4 11) = true
  /\ timestamp_in_bounds glibc_runtime (mkdate 2262 4 12) = false.
Proof.
  vm_compute. repeat split; reflexivity.
Qed.

(** C2, as amended.  For every date string that [parse_date] accepts,
    of year 1000 or later unless the runtime pads the year, a
    successful request to [/predict/precipitation/fall/] returns a
    [start_date] that is the zero-padded text of the day after the base
    date and an [end_date] that is the text of the third day after it;
    and the request is successful whenever the regressor is loaded, the
    frame of the base date is built, the [predict] call returns an
    array with a first value and the base date is not after
    9999-12-28. *)
Theorem predict_precipitation_fall_window
    (rt : Runtime) (st : State) (date : string) (d0 : datetime) :
  parse_date date = Return d0 ->
  pads_year rt = true \/ 1000 <= year d0 ->
  (forall body,
     predict_precipitation_fall rt st date = Return body ->
     read_YYYY_MM_DD (start_date (precip_prediction body))
     = Some (calendar_plus_days 1 (datetime_date d0))
     /\ read_YYYY_MM_DD (end_date (precip_prediction body))
        = Some (calendar_plus_days 3 (datetime_date d0)))
  /\ (forall reg X v rest,
        precip_reg st = Some reg ->
        build_features_for_date rt d0 = Return X ->
        predict reg X = Return (v :: rest) ->
        date_leb (datetime_date d0) (mkdate 9999 12 28) = true ->
        exists body, predict_precipitation_fall rt st date = Return body).
Proof.
  intros Hparse Hpad.
  destruct (parse_date_valid _ _ Hparse) as (d & -> & Hv & Hy & _).
  rewrite datetime_date_midnight.
  assert (Hpad' : pads_year rt = true \/ 1000 <= date_year d)
    by (destruct d; exact Hpad).
  split.
  - intros body H.
    destruct (predict_precipitation_fall_returns _ _ _ _ H)
      as (reg & d' & X & v & rest & _ & E & _ & _ & Hle & _ & _ & ->).
    assert (d' = d) as -> by (apply same_midnight; congruence).
    cbn [precip_prediction start_date end_date].
    split; [apply (shifted_text_reads rt d 1 28)
           | apply (shifted_text_reads rt d 3 28)]; assumption || lia.
  - intros reg X v rest Hreg Hbuild Hpred Hle.
    rewrite (predict_precipitation_fall_loaded rt st reg d date Hreg Hparse
               Hle), Hbuild.
    cbn [bind]. rewrite Hpred. cbn. eexists. reflexivity.
Qed.

Lemma predict_precipitation_fall_window_witness :
  (forall body,
     predict_precipitation_fall glibc_runtime ready_state "2023-01-01"
     = Return body ->
     read_YYYY_MM_DD (start_date (precip_prediction body))
     = Some (mkdate 2023 1 2)
     /\ read_YYYY_MM_DD (end_date (precip_prediction body))
        = Some (mkdate 2023 1 4))
  /\ (exists body,
        predict_precipitation_fall glibc_runtime ready_state "2023-01-01"
        = Return body).
Proof.
  assert (Hpad : pads_year glibc_runtime = true
                 \/ 1000 <= year (mkdatetime 2023 1 1 0 0 0 0))
    by (right; cbn; lia).
  destruct (predict_precipitation_fall_window glibc_runtime ready_state
              "2023-01-01" (mkdatetime 2023 1 1 0 0 0 0) eq_refl Hpad)
    as [H1 H2].
  split.
  - exact H1.
  - apply (H2 (constant_model [NpFloat double_28_16])
             [("date", [mkdatetime 2023 1 1 0 0 0 0])]
             (NpFloat double_28_16) []); reflexivity.
Defined.

(** C2 as stated fails where the year is not padded: the request for
    the first day of year 1 is successful, and its two dates are not
    of the form YYYY-MM-DD. *)
Lemma precipitation_window_of_year_one :
  parse_date "0001-01-01" = Return (mkdatetime 1 1 1 0 0 0 0)
  /\ predict_precipitation_fall unpadded_runtime ready_state "0001-01-01"
     = Return (mkPrecipBody "1-01-01"
                 (mkPrecipPrediction "1-01-02" "1-01-04" "28.2"))
  /\ read_YYYY_MM_DD "1-01-02" = None
  /\ read_YYYY_MM_DD "1-01-04" = None.
Proof.
  vm_compute. repeat split; reflexivity.
Qed.

(** ** The date parser *)

(** What [parse_date] accepts, on texts of code points below 256: the
    texts made of a four-digit year, a hyphen, a month and a day, where
    the month is one or two digits and the day is one or two digits or
    a blank and a digit, that denote a date of the calendar from year 1
    on.  It returns the midnight of that date, and raises the 400 error
    on every other such text.  Every zero-padded YYYY-MM-DD text of a
    date of the calendar is among the accepted ones. *)
Lemma parse_date_reads_lenient_texts (s : string) :
  (forall dt,
     parse_date s = Return dt <->
     exists d, lenient_text s d /\ calendar_valid d = true /\ dt = midnight d)
  /\ (~ (exists d, lenient_text s d /\ calendar_valid d = true) ->
      parse_date s
      = Raise (HTTPException 400 "Invalid date format. Expected YYYY-MM-DD."))
  /\ (forall d,
        read_YYYY_MM_DD s = Some d -> calendar_valid d = true ->
        parse_date s = Return (midnight d)).
Proof.
  split; [|split].
  - intros dt. rewrite parse_date_strptime. apply strptime_accepts.
  - intros Hno. apply parse_date_rejects. intros dt Hdt.
    apply strptime_accepts in Hdt. destruct Hdt as (d & Hl & Hv & _).
    apply Hno. exists d. split; assumption.
  - intros d Hread Hv. apply parse_date_strptime, strptime_accepts.
    exists d. split; [|split; [assumption | reflexivity]].
    apply read_lenient; assumption.
Qed.

(** C3.  The parser does not reject every text that departs from the
    zero-padded form YYYY-MM-DD, as the claim, the docstring of
    [parse_date] and the detail of its 400 error require: the texts
    2023-1-1 and 2023-03- 7, which are not of that form, are read as
    the dates 2023-01-01 and 2023-03-07, and a prediction route answers
    the first of them 200. *)
Theorem parse_date_accepts_unpadded :
  read_YYYY_MM_DD "2023-1-1" = None
  /\ parse_date "2023-1-1" = Return (mkdatetime 2023 1 1 0 0 0 0)
  /\ read_YYYY_MM_DD "2023-03- 7" = None
  /\ parse_date "2023-03- 7" = Return (mkdatetime 2023 3 7 0 0 0 0)
  /\ http_status (predict_rain glibc_runtime ready_state "2023-1-1") = 200.
Proof.
  vm_compute. repeat split; reflexivity.
Qed.

(** ** Start-up *)

(** The outcome of the module-level [try] block, by which files
    exist. *)
Lemma startup_outcome (fs : FileSystem) (environ : Environ) :
  startup fs environ
  = Return
      match fs (RAIN_MODEL_PATH environ), fs (PRECIP_MODEL_PATH environ) with
      | Some a, Some b => mkState (Some a) (Some b) None
      | Some _, None =>
          mkState None None
            (Some ("Model file not found: " ++ PRECIP_MODEL_PATH environ))
      | None, _ =>
          mkState None None
            (Some ("Model file not found: " ++ RAIN_MODEL_PATH environ))
      end.
Proof.
  unfold startup, _load_model.
  destruct (fs (RAIN_MODEL_PATH environ));
    [destruct (fs (PRECIP_MODEL_PATH environ))|]; reflexivity.
Qed.

(** C4.  If the classifier's file is missing, or the classifier's file
    exists and the regressor's is missing, both artifacts are left
    unset and the one recorded message names the first missing path; if
    both files exist, both artifacts are set and no message is
    recorded. *)
Theorem startup_couples_both_artifacts (fs : FileSystem) (environ : Environ) :
  (fs (RAIN_MODEL_PATH environ) = None ->
   startup fs environ
   = Return (mkState None None
               (Some ("Model file not found: " ++ RAIN_MODEL_PATH environ))))
  /\ (forall a,
        fs (RAIN_MODEL_PATH environ) = Some a ->
        fs (PRECIP_MODEL_PATH environ) = None ->
        startup fs environ
        = Return (mkState None None
                    (Some ("Model file not found: "
                           ++ PRECIP_MODEL_PATH environ))))
  /\ (forall a b,
        fs (RAIN_MODEL_PATH environ) = Some a ->
        fs (PRECIP_MODEL_PATH environ) = Some b ->
        startup fs environ = Return (mkState (Some a) (Some b) None)).
Proof.
  rewrite startup_outcome. split; [|split].
  - intros ->. reflexivity.
  - intros a -> ->. reflexivity.
  - intros a b -> ->. reflexivity.
Qed.

Lemma startup_couples_both_artifacts_witness :
  startup only_rain_fs no_environ
  = Return (mkState None None
              (Some ("Model file not found: "
                     ++ PRECIP_MODEL_PATH no_environ))).
Proof.
  apply (proj1 (proj2 (startup_couples_both_artifacts only_rain_fs
                         no_environ)) (constant_model [NpInt 1]));
    reflexivity.
Defined.

Lemma startup_total (fs : FileSystem) (environ : Environ) :
  exists st, startup fs environ = Return st.
Proof.
  eexists. apply startup_outcome.
Qed.

(** ** Missing artifacts *)

(** C5.  With the classifier unset, [/predict/rain/] answers 500 for
    every date value.  The answer of [/predict/precipitation/fall/] is
    the same whatever the classifier variable holds, and the answer of
    [/predict/rain/] is the same whatever the regressor variable
    holds. *)
Theorem handlers_read_their_own_artifact
    (rt : Runtime) (st : State) (date : string) :
  (rain_clf st = None -> http_status (predict_rain rt st date) = 500)
  /\ (forall clf,
        predict_precipitation_fall rt
          (mkState clf (precip_reg st) (load_error_msg st)) date
        = predict_precipitation_fall rt st date)
  /\ (forall reg,
        predict_rain rt (mkState (rain_clf st) reg (load_error_msg st)) date
        = predict_rain rt st date).
Proof.
  split; [|split].
  - intros H. rewrite predict_rain_unloaded by assumption. reflexivity.
  - intros clf. reflexivity.
  - intros reg. reflexivity.
Qed.

Lemma handlers_read_their_own_artifact_witness :
  http_status (predict_rain glibc_runtime degraded_state "2023-01-01") = 500.
Proof.
  apply (proj1 (handlers_read_their_own_artifact glibc_runtime degraded_state
                  "2023-01-01")).
  reflexivity.
Defined.

(** C10.  With its artifact unset, a prediction handler raises the 500
    error [ModelUnavailable] for every date string, well-formed or not:
    the check comes before [parse_date], so the 400 error is never
    returned. *)
Theorem model_check_precedes_date_parsing
    (rt : Runtime) (st : State) (date : string) :
  (rain_clf st = None ->
   predict_rain rt st date
   = Raise (HTTPException 500
              ("Rain model not loaded. " ++ or_empty (load_error_msg st)))
   /\ http_status (predict_rain rt st date) <> 400)
  /\ (precip_reg st = None ->
      predict_precipitation_fall rt st date
      = Raise (HTTPException 500
                 ("Precipitation model not loaded. "
                  ++ or_empty (load_error_msg st)))
      /\ http_status (predict_precipitation_fall rt st date) <> 400).
Proof.
  split; intros H.
  - rewrite predict_rain_unloaded by assumption. split; [reflexivity|].
    cbn. discriminate.
  - rewrite predict_precipitation_fall_unloaded by assumption.
    split; [reflexivity|]. cbn. discriminate.
Qed.

Lemma model_check_precedes_date_parsing_witness :
  parse_date "01-01-2023"
  = Raise (HTTPException 400 "Invalid date format. Expected YYYY-MM-DD.")
  /\ http_status (predict_rain glibc_runtime degraded_state "01-01-2023")
     <> 400
  /\ http_status
       (predict_precipitation_fall glibc_runtime degraded_state "01-01-2023")
     <> 400.
Proof.
  split; [reflexivity|]. split.
  - apply (proj1 (model_check_precedes_date_parsing glibc_runtime
                    degraded_state "01-01-2023")). reflexivity.
  - apply (proj2 (model_check_precedes_date_parsing glibc_runtime
                    degraded_state "01-01-2023")). reflexivity.
Defined.

(** ** Health *)

(** C6.  Start-up always yields a state, and in that state
    [/health/] answers 200: with the fixed ready message when both
    artifacts are loaded, and otherwise with a message that embeds the
    recorded start-up error.  The body of a loaded state differs from
    the body of any state where loading failed. *)
Theorem health_check_reports_in_body (fs : FileSystem) (environ : Environ) :
  exists st,
    startup fs environ = Return st
    /\ http_status (health_check st) = 200
    /\ (both_loaded st = true ->
        health_check st = Return "API is ready. Models loaded.")
    /\ (both_loaded st = false ->
        exists msg,
          load_error_msg st = Some msg
          /\ health_check st = Return ("Startup warning: " ++ msg))
    /\ (forall fs' environ' st',
          startup fs' environ' = Return st' ->
          both_loaded st = true -> both_loaded st' = false ->
          health_check st <> health_check st').
Proof.
  assert (Hcases : forall fs environ st,
    startup fs environ = Return st ->
    (both_loaded st = true
     /\ health_check st = Return "API is ready. Models loaded.")
    \/ (both_loaded st = false
        /\ exists msg, load_error_msg st = Some msg
           /\ health_check st = Return ("Startup warning: " ++ msg))).
  { clear. intros fs environ st. rewrite startup_outcome.
    destruct (fs (RAIN_MODEL_PATH environ)) as [a|];
      [destruct (fs (PRECIP_MODEL_PATH environ)) as [b|]|];
      intros [= <-].
    - left. split; reflexivity.
    - right. split; [reflexivity|]. eexists. split; reflexivity.
    - right. split; [reflexivity|]. eexists. split; reflexivity. }
  destruct (startup_total fs environ) as [st Hst]. exists st.
  split; [exact Hst|]. split; [unfold health_check; destruct (truthy _);
    reflexivity|].
  destruct (Hcases _ _ _ Hst) as [[Hb Hh] | [Hb (msg & Hm & Hh)]].
  - split; [intros _; exact Hh|]. split; [rewrite Hb; discriminate|].
    intros fs' environ' st' Hst' _ Hb'.
    destruct (Hcases _ _ _ Hst') as [[Hb2 _] | [_ (msg' & _ & Hh')]];
      [congruence|].
    rewrite Hh, Hh'. discriminate.
  - split; [rewrite Hb; discriminate|].
    split; [intros _; exists msg; split; assumption|].
    intros fs' environ' st' _ Hb'. congruence.
Qed.

Lemma health_check_reports_in_body_witness :
  exists st,
    startup full_fs no_environ = Return st
    /\ health_check st = Return "API is ready. Models loaded.".
Proof.
  destruct (health_check_reports_in_body full_fs no_environ)
    as (st & Hst & _ & Hready & _).
  exists st. split; [exact Hst|]. apply Hready.
  vm_compute in Hst. injection Hst as <-. reflexivity.
Defined.

(** ** Inference *)

(** C7, as amended.  On the precipitation route, once the frame of the
    base date is built, the first output of the regressor is coerced to
    a binary64 number and printed by the format [.1f].  When that
    number is finite the text is an optional minus sign, digits, a
    point and exactly one digit, and it denotes a whole number of
    tenths nearest to the number, with the sign of the number.  When it
    is not finite the text is nan, inf or -inf and has no digit after a
    point.  The binary64 value nearest to 28.16 is printed as 28.2. *)
Theorem precipitation_fall_one_decimal
    (rt : Runtime) (st : State) (reg : Artifact) (date : string)
    (d0 : datetime) (X : DataFrame) (v : npval) (rest : list npval) :
  precip_reg st = Some reg ->
  parse_date date = Return d0 ->
  date_leb (datetime_date d0) (mkdate 9999 12 28) = true ->
  build_features_for_date rt d0 = Return X ->
  predict reg X = Return (v :: rest) ->
  exists body,
    predict_precipitation_fall rt st date = Return body
    /\ precipitation_fall (precip_prediction body) = format_1f (py_float v)
    /\ (is_finite (py_float v) = true ->
        one_fraction_digit (precipitation_fall (precip_prediction body))
        = true
        /\ exists t,
             tenths_of_text (precipitation_fall (precip_prediction body))
             = Some (sign_bit (py_float v), t)
             /\ nearest_tenths (py_float v) t)
    /\ (is_finite (py_float v) = false ->
        one_fraction_digit (precipitation_fall (precip_prediction body))
        = false
        /\ (precipitation_fall (precip_prediction body) = "nan"
            \/ precipitation_fall (precip_prediction body) = "inf"
            \/ precipitation_fall (precip_prediction body) = "-inf"))
    /\ (v = NpFloat double_28_16 ->
        nearest_binary64 double_28_16 2816 100 = true
        /\ precipitation_fall (precip_prediction body) = "28.2").
Proof.
  intros Hreg Hparse Hle Hbuild Hpred.
  destruct (parse_date_valid _ _ Hparse) as (d & -> & _).
  rewrite datetime_date_midnight in Hle.
  rewrite (predict_precipitation_fall_loaded rt st reg d date Hreg Hparse
             Hle), Hbuild.
  cbn [bind]. rewrite Hpred. cbn [bind try_except getitem nth_error].
  eexists. split; [reflexivity|].
  cbn [precip_prediction precipitation_fall].
  split; [reflexivity|]. split; [|split].
  - intros Hfin. split.
    + apply format_1f_one_fraction_digit, Hfin.
    + apply format_1f_reads_back, Hfin.
  - destruct (py_float v) as [s | [|] | | s m e]; try discriminate;
      intros _; (split; [reflexivity|]); cbn; auto.
  - intros ->. split; vm_compute; reflexivity.
Qed.

Lemma precipitation_fall_one_decimal_witness :
  exists body,
    predict_precipitation_fall glibc_runtime ready_state "2023-01-01"
    = Return body
    /\ precipitation_fall (precip_prediction body) = "28.2".
Proof.
  destruct (precipitation_fall_one_decimal glibc_runtime ready_state
              (constant_model [NpFloat double_28_16]) "2023-01-01"
              (mkdatetime 2023 1 1 0 0 0 0)
              [("date", [mkdatetime 2023 1 1 0 0 0 0])]
              (NpFloat double_28_16) []
              eq_refl eq_refl eq_refl eq_refl eq_refl)
    as (body & Hb & _ & _ & _ & H28).
  exists body. split; [exact Hb|]. apply (H28 eq_refl).
Defined.

(** C7 as stated fails when the regressor's output is not a number.
    Start-up on files whose regressor answers [nan] loads both models,
    and in the state it reaches the route returns a body whose amount
    is the text nan, which has no digit after a point. *)
Lemma precipitation_fall_of_nan :
  startup nan_fs no_environ = Return nan_state
  /\ exists body,
       predict_precipitation_fall glibc_runtime nan_state "2023-01-01"
       = Return body
       /\ precipitation_fall (precip_prediction body) = "nan"
       /\ one_fraction_digit (precipitation_fall (precip_prediction body))
          = false.
Proof.
  split; [vm_compute; reflexivity|].
  eexists. split; [vm_compute; reflexivity|]. split; reflexivity.
Qed.

(** C8.  When the frame of the base date is built and the model's
    [predict] call on it raises an exception, each prediction handler
    raises the 500 error whose detail is its fixed prefix followed by
    the text of that exception, and nothing else leaves the handler.
    (The call is reached when the artifact is loaded, the date is
    accepted and the shifted dates exist.) *)
Theorem inference_errors_become_500
    (rt : Runtime) (st : State) (m : Artifact) (date : string)
    (d0 : datetime) (X : DataFrame) (e : exn) :
  parse_date date = Return d0 ->
  build_features_for_date rt d0 = Return X ->
  predict m X = Raise e ->
  (rain_clf st = Some m ->
   date_leb (datetime_date d0) (mkdate 9999 12 24) = true ->
   predict_rain rt st date
   = Raise (HTTPException 500 ("Inference error (rain): " ++ str_exn e))
   /\ unhandled (predict_rain rt st date) = false)
  /\ (precip_reg st = Some m ->
      date_leb (datetime_date d0) (mkdate 9999 12 28) = true ->
      predict_precipitation_fall rt st date
      = Raise (HTTPException 500
                 ("Inference error (precipitation): " ++ str_exn e))
      /\ unhandled (predict_precipitation_fall rt st date) = false).
Proof.
  intros Hparse Hbuild Hraise.
  destruct (parse_date_valid _ _ Hparse) as (d & -> & _).
  rewrite datetime_date_midnight.
  split; intros Hm Hle.
  - rewrite (predict_rain_loaded rt st m d date Hm Hparse Hle), Hbuild.
    cbn [bind]. rewrite Hraise. split; reflexivity.
  - rewrite (predict_precipitation_fall_loaded rt st m d date Hm Hparse Hle),
      Hbuild.
    cbn [bind]. rewrite Hraise. split; reflexivity.
Qed.

Lemma inference_errors_become_500_witness :
  predict_rain glibc_runtime
    (mkState (Some (failing_model (RuntimeError "feature mismatch")))
       None None) "2023-01-01"
  = Raise (HTTPException 500 "Inference error (rain): feature mismatch").
Proof.
  apply (inference_errors_become_500 glibc_runtime
           (mkState (Some (failing_model (RuntimeError "feature mismatch")))
              None None)
           (failing_model (RuntimeError "feature mismatch")) "2023-01-01"
           (mkdatetime 2023 1 1 0 0 0 0)
           [("date", [mkdatetime 2023 1 1 0 0 0 0])]
           (RuntimeError "feature mismatch")
           eq_refl eq_refl eq_refl);
    reflexivity.
Defined.

(** ** The feature frame *)

(** C9, as amended.  For every parsed base date whose midnight the
    runtime's timestamps can hold (every date when they count
    microseconds, the dates from 1677-09-22 to 2262-04-11 when they
    count nanoseconds), the feature builder returns a frame of one row
    and one column, named [date], whose value is the midnight of the
    base date whatever the time of day it is given.
    Each prediction handler, for a base date within its bound, asks its
    model on this very frame: whatever the model is, if it raises on
    this frame the handler answers 500 with the text of that exception,
    and if it returns an array on this frame the answer is made from
    the first value of that array. *)
Theorem build_features_single_midnight_cell
    (rt : Runtime) (date : string) (d0 : datetime) :
  parse_date date = Return d0 ->
  resolution rt = Microseconds
  \/ date_leb (mkdate 1677 9 22) (datetime_date d0)
     && date_leb (datetime_date d0) (mkdate 2262 4 11) = true ->
  exists X,
    build_features_for_date rt d0 = Return X
    /\ shape X = (1%nat, 1%nat)
    /\ X = [("date", [mkdatetime (year d0) (month d0) (day d0) 0 0 0 0])]
    /\ (forall h mi s us,
          build_features_for_date rt
            (mkdatetime (year d0) (month d0) (day d0) h mi s us)
          = Return X)
    /\ (forall m reg msg e,
          date_leb (datetime_date d0) (mkdate 9999 12 24) = true ->
          predict m X = Raise e ->
          predict_rain rt (mkState (Some m) reg msg) date
          = Raise (HTTPException 500
                     ("Inference error (rain): " ++ str_exn e)))
    /\ (forall m reg msg v rest,
          date_leb (datetime_date d0) (mkdate 9999 12 24) = true ->
          predict m X = Return (v :: rest) ->
          exists body,
            predict_rain rt (mkState (Some m) reg msg) date = Return body
            /\ will_rain (rain_prediction body) = py_bool v)
    /\ (forall m clf msg e,
          date_leb (datetime_date d0) (mkdate 9999 12 28) = true ->
          predict m X = Raise e ->
          predict_precipitation_fall rt (mkState clf (Some m) msg) date
          = Raise (HTTPException 500
                     ("Inference error (precipitation): " ++ str_exn e)))
    /\ (forall m clf msg v rest,
          date_leb (datetime_date d0) (mkdate 9999 12 28) = true ->
          predict m X = Return (v :: rest) ->
          exists body,
            predict_precipitation_fall rt (mkState clf (Some m) msg) date
            = Return body
            /\ precipitation_fall (precip_prediction body)
               = format_1f (py_float v)).
Proof.
  intros Hparse Hrange.
  assert (Hin : timestamp_in_bounds rt (datetime_date d0) = true).
  { destruct (parse_date_valid _ _ Hparse) as (d & -> & Hv & Hy & _).
    rewrite datetime_date_midnight in *.
    apply timestamp_in_bounds_dates; assumption. }
  clear Hrange.
  assert (Hbuild : forall h mi s us,
    build_features_for_date rt
      (mkdatetime (year d0) (month d0) (day d0) h mi s us)
    = Return [("date", [mkdatetime (year d0) (month d0) (day d0) 0 0 0 0])]).
  { intros h mi s us. rewrite build_features_outcome.
    change (datetime_date (mkdatetime (year d0) (month d0) (day d0) h mi s us))
      with (datetime_date d0).
    rewrite Hin. reflexivity. }
  destruct (parse_date_valid _ _ Hparse) as (d & -> & _).
  rewrite datetime_date_midnight in *.
  pose proof (Hbuild 0 0 0 0) as Hb0.
  change (mkdatetime (year (midnight d)) (month (midnight d))
            (day (midnight d)) 0 0 0 0) with (midnight d) in Hb0, Hbuild |- *.
  exists [("date", [midnight d])].
  split; [exact Hb0|]. split; [reflexivity|]. split; [reflexivity|].
  split; [exact Hbuild|].
  split; [|split; [|split]].
  - intros m reg msg e Hle Hraise.
    rewrite (predict_rain_loaded rt (mkState (Some m) reg msg) m d date
               eq_refl Hparse Hle), Hb0.
    cbn [bind]. rewrite Hraise. reflexivity.
  - intros m reg msg v rest Hle Hret.
    rewrite (predict_rain_loaded rt (mkState (Some m) reg msg) m d date
               eq_refl Hparse Hle), Hb0.
    cbn [bind]. rewrite Hret. cbn [bind try_except getitem nth_error].
    eexists. split; reflexivity.
  - intros m clf msg e Hle Hraise.
    rewrite (predict_precipitation_fall_loaded rt (mkState clf (Some m) msg)
               m d date eq_refl Hparse Hle), Hb0.
    cbn [bind]. rewrite Hraise. reflexivity.
  - intros m clf msg v rest Hle Hret.
    rewrite (predict_precipitation_fall_loaded rt (mkState clf (Some m) msg)
               m d date eq_refl Hparse Hle), Hb0.
    cbn [bind]. rewrite Hret. cbn [bind try_except getitem nth_error].
    eexists. split; reflexivity.
Qed.

Lemma build_features_single_midnight_cell_witness :
  predict telltale_model [("date", [mkdatetime 2023 1 1 0 0 0 0])]
  <> predict telltale_model [("date", [mkdatetime 2023 1 8 0 0 0 0])]
  /\ predict_rain glibc_runtime (mkState (Some telltale_model) None None)
       "2023-01-01"
     = Raise (HTTPException 500 "Inference error (rain): 2023-01-01")
  /\ predict_precipitation_fall glibc_runtime
       (mkState None (Some telltale_model) None) "2023-01-01"
     = Raise (HTTPException 500 "Inference error (precipitation): 2023-01-01")
  /\ exists body,
       predict_rain glibc_runtime (mkState (Some new_year_model) None None)
         "2023-01-01"
       = Return body
       /\ will_rain (rain_prediction body) = true.
Proof.
  split; [discriminate|].
  destruct (build_features_single_midnight_cell glibc_runtime "2023-01-01"
              (mkdatetime 2023 1 1 0 0 0 0) eq_refl (or_intror eq_refl))
    as (X & _ & _ & HX & _ & Hrain & Hanswer & Hprecip & _).
  subst X. split; [|split].
  - apply (Hrain telltale_model None None (RuntimeError "2023-01-01"));
      reflexivity.
  - apply (Hprecip telltale_model None None (RuntimeError "2023-01-01"));
      reflexivity.
  - apply (Hanswer new_year_model None None (NpInt 1) []); reflexivity.
Defined.

(** The model of the rain route is asked about the base date, not
    about the date the prediction is for: a classifier that answers 1
    on the frame of 2023-01-01 only gives true for the base date
    2023-01-01 and false for the base date 2022-12-25, whose target is
    2023-01-01. *)
Lemma predict_rain_asks_about_base_date :
  predict_rain glibc_runtime (mkState (Some new_year_model) None None)
    "2023-01-01"
  = Return (mkRainBody "2023-01-01" (mkRainPrediction "2023-01-08" true))
  /\ predict_rain glibc_runtime (mkState (Some new_year_model) None None)
       "2022-12-25"
     = Return (mkRainBody "2022-12-25" (mkRainPrediction "2023-01-01" false)).
Proof.
  vm_compute. split; reflexivity.
Qed.

(** C9 as stated fails where timestamps count nanoseconds: the text
    3000-01-01 is parsed, and the feature builder raises
    [OutOfBoundsDatetime] for it instead of producing a frame; the
    exception leaves both handlers. *)
Lemma build_features_out_of_bounds :
  parse_date "3000-01-01" = Return (mkdatetime 3000 1 1 0 0 0 0)
  /\ (exists msg,
        build_features_for_date glibc_runtime (mkdatetime 3000 1 1 0 0 0 0)
        = Raise (OutOfBoundsDatetime msg))
  /\ (forall X,
        build_features_for_date glibc_runtime (mkdatetime 3000 1 1 0 0 0 0)
        <> Return X)
  /\ unhandled (predict_rain glibc_runtime ready_state "3000-01-01") = true
  /\ unhandled
       (predict_precipitation_fall glibc_runtime ready_state "3000-01-01")
     = true.
Proof.
  split; [reflexivity|]. split; [eexists; vm_compute; reflexivity|].
  split; [intros X; vm_compute; discriminate|].
  split; vm_compute; reflexivity.
Qed.

(** * Further properties of the code *)

(** ** [parse_date] *)

Lemma parse_date_padded_text (d : date) :
  calendar_valid d = true -> date_year d <= 9999 ->
  parse_date (padded_text (midnight d)) = Return (midnight d).
Proof.
  intros Hv Hy. apply parse_date_strptime, strptime_accepts.
  exists d. split; [|split; [assumption | reflexivity]].
  apply read_lenient; [|assumption].
  apply padded_text_midnight_reads; assumption.
Qed.

Lemma parse_date_strftime (rt : Runtime) (d : date) :
  calendar_valid d = true -> date_year d <= 9999 ->
  pads_year rt = true \/ 1000 <= date_year d ->
  parse_date (strftime rt (midnight d)) = Return (midnight d).
Proof.
  intros Hv Hy Hpad. rewrite strftime_midnight by assumption.
  apply parse_date_padded_text; assumption.
Qed.

(** A text that begins with fewer than four digits before its first
    hyphen is read neither by [parse_date] nor strictly. *)
Lemma short_year_text_rejected (y : Z) (rest : string) :
  0 <= y <= 999 ->
  parse_date (decimal y ++ "-" ++ rest)
  = Raise (HTTPException 400 "Invalid date format. Expected YYYY-MM-DD.")
  /\ read_YYYY_MM_DD (decimal y ++ "-" ++ rest) = None.
Proof.
  intros Hy. pose proof (decimal_short y Hy) as Hlen.
  pose proof (decimal_not_empty y) as Hne.
  destruct (decimal y) as [|a [|b [|c [|e t]]]];
    [contradiction | | | | cbn in Hlen; lia]; clear Hlen Hne;
    cbn [append]; (split;
    [ match goal with
      | |- parse_date ?s = _ =>
          destruct (parse_date_outcome s) as [(d & E & _) | E]
      end;
      [exfalso | exact E];
      destruct (parse_date_valid _ _ E) as (d' & _ & _ & _ & Hl);
      inversion Hl as [ty tm td y' m' dd' Hy' Hm' Hd' Es];
      destruct Hy' as [a' b' c' e' Ha' Hb' Hc' He'];
      cbn [append] in Es; same_text
    | match goal with
      | |- ?r = None => destruct r eqn:E; [exfalso | reflexivity]
      end;
      apply read_YYYY_MM_DD_inv in E;
      destruct E as (y1 & y2 & y3 & y4 & m1 & m2 & d1 & d2 & Es & F & _);
      repeat match goal with
      | F : Forall _ (_ :: _) |- _ => inversion_clear F
      end;
      same_text ]).
Qed.

Lemma lenient_text_length (s : string) (d : date) :
  lenient_text s d -> (8 <= String.length s <= 10)%nat.
Proof.
  intros [ty tm td y m dd Hy Hm Hd].
  destruct Hy; destruct Hm; destruct Hd; cbn; lia.
Qed.

(** X1.  Whatever [parse_date] returns is the midnight of a date of
    the calendar: its time of day is zero, its year lies between 1 and
    9999, its month between 1 and 12 and its day within the month. *)
Theorem parse_date_returns_midnight_of_real_date
    (s : string) (dt : datetime) :
  parse_date s = Return dt ->
  hour dt = 0 /\ minute dt = 0 /\ second dt = 0 /\ microsecond dt = 0
  /\ 1 <= year dt <= 9999 /\ 1 <= month dt <= 12
  /\ 1 <= day dt <= calendar_month_length (year dt) (month dt).
Proof.
  intros H. destruct (parse_date_valid _ _ H) as (d & -> & Hv & Hy & _).
  destruct d as [y m dd]. cbn [date_year] in Hy.
  pose proof (valid_fields _ _ _ Hv) as (H1 & Hm & Hd).
  rewrite days_in_month_calendar in Hd by assumption.
  cbn [midnight hour minute second microsecond year month day
       date_year date_month date_day].
  repeat split; try reflexivity; lia.
Qed.

Lemma parse_date_returns_midnight_of_real_date_witness :
  parse_date "2024-2-29" = Return (mkdatetime 2024 2 29 0 0 0 0)
  /\ hour (mkdatetime 2024 2 29 0 0 0 0) = 0
  /\ 1 <= day (mkdatetime 2024 2 29 0 0 0 0)
     <= calendar_month_length (year (mkdatetime 2024 2 29 0 0 0 0))
          (month (mkdatetime 2024 2 29 0 0 0 0)).
Proof.
  assert (H : parse_date "2024-2-29" = Return (mkdatetime 2024 2 29 0 0 0 0))
    by reflexivity.
  split; [exact H|].
  destruct (parse_date_returns_midnight_of_real_date _ _ H)
    as (Hh & _ & _ & _ & _ & _ & Hd).
  split; assumption.
Defined.

(** X2.  The only exception [parse_date] raises is the 400 error with
    its fixed detail: no [ValueError] of [strptime] gets through. *)
Theorem parse_date_raises_only_400 (s : string) (e : exn) :
  parse_date s = Raise e ->
  e = HTTPException 400 "Invalid date format. Expected YYYY-MM-DD.".
Proof.
  intros H. destruct (parse_date_outcome s) as [(d & E & _) | E];
    rewrite E in H; [discriminate H | congruence].
Qed.

Lemma parse_date_raises_only_400_witness :
  exists e,
    parse_date "2023-02-30" = Raise e
    /\ e = HTTPException 400 "Invalid date format. Expected YYYY-MM-DD.".
Proof.
  eexists. split; [reflexivity|].
  apply (parse_date_raises_only_400 "2023-02-30"). reflexivity.
Defined.

(** X3.  For a date of the calendar of a year up to 9999, printing it
    with the handlers' format and parsing the text gives the date back
    when the runtime pads the year or the year is 1000 or later.  Where
    the year is not padded, the print of a date before year 1000 is not
    of the form YYYY-MM-DD and [parse_date] answers it with the 400
    error. *)
Theorem parse_date_strftime_round_trip (rt : Runtime) (d : date) :
  calendar_valid d = true -> date_year d <= 9999 ->
  (pads_year rt = true \/ 1000 <= date_year d ->
   parse_date (strftime rt (midnight d)) = Return (midnight d)
   /\ read_YYYY_MM_DD (strftime rt (midnight d)) = Some d)
  /\ (pads_year rt = false -> date_year d < 1000 ->
      parse_date (strftime rt (midnight d))
      = Raise (HTTPException 400 "Invalid date format. Expected YYYY-MM-DD.")
      /\ read_YYYY_MM_DD (strftime rt (midnight d)) = None).
Proof.
  intros Hv Hy. split.
  - intros Hpad. split.
    + apply parse_date_strftime; assumption.
    + rewrite strftime_midnight by assumption.
      apply padded_text_midnight_reads; assumption.
  - intros Hpad Hshort. destruct d as [y m dd].
    pose proof (valid_fields _ _ _ Hv) as (H1 & _).
    cbn [date_year] in Hshort.
    unfold strftime, format_Y. rewrite Hpad.
    cbn [midnight year month day date_year date_month date_day].
    apply short_year_text_rejected. lia.
Qed.

Lemma parse_date_strftime_round_trip_witness :
  (parse_date (strftime glibc_runtime (midnight (mkdate 2024 2 29)))
   = Return (midnight (mkdate 2024 2 29))
   /\ read_YYYY_MM_DD (strftime glibc_runtime (midnight (mkdate 2024 2 29)))
      = Some (mkdate 2024 2 29))
  /\ parse_date (strftime glibc_runtime (midnight (mkdate 999 12 31)))
     = Raise (HTTPException 400 "Invalid date format. Expected YYYY-MM-DD.").
Proof.
  split.
  - apply (proj1 (parse_date_strftime_round_trip glibc_runtime
                    (mkdate 2024 2 29) eq_refl ltac:(cbn; lia))).
    right. cbn. lia.
  - apply (proj2 (parse_date_strftime_round_trip glibc_runtime
                    (mkdate 999 12 31) eq_refl ltac:(cbn; lia)));
      [reflexivity | cbn; lia].
Defined.

(** X4.  [parse_date] rejects, with the 400 error, every string shorter
    than eight characters or longer than ten; the empty string among
    them. *)
Theorem parse_date_rejects_by_length (s : string) :
  (String.length s < 8 \/ 10 < String.length s)%nat ->
  parse_date s
  = Raise (HTTPException 400 "Invalid date format. Expected YYYY-MM-DD.").
Proof.
  intros Hlen. destruct (parse_date_outcome s) as [(d & E & _) | E];
    [exfalso | exact E].
  destruct (parse_date_valid _ _ E) as (d' & _ & _ & _ & Hl).
  apply lenient_text_length in Hl. lia.
Qed.

Lemma parse_date_rejects_by_length_witness :
  parse_date ""
  = Raise (HTTPException 400 "Invalid date format. Expected YYYY-MM-DD.").
Proof.
  apply (parse_date_rejects_by_length ""). left. cbn. lia.
Defined.

(** ** The handlers on requests that fail *)

(** X5.  With its model loaded, each prediction handler answers a date
    string that [parse_date] does not accept with the 400 error, and
    with nothing else. *)
Theorem malformed_date_is_answered_400
    (rt : Runtime) (st : State) (date : string) :
  (forall dt, parse_date date <> Return dt) ->
  (rain_clf st <> None ->
   predict_rain rt st date
   = Raise (HTTPException 400 "Invalid date format. Expected YYYY-MM-DD."))
  /\ (precip_reg st <> None ->
      predict_precipitation_fall rt st date
      = Raise (HTTPException 400
                 "Invalid date format. Expected YYYY-MM-DD.")).
Proof.
  intros Hbad.
  assert (E : parse_date date
    = Raise (HTTPException 400 "Invalid date format. Expected YYYY-MM-DD.")).
  { destruct (parse_date_outcome date) as [(d & E & _) | E];
      [destruct (Hbad _ E) | exact E]. }
  split; intros Hm.
  - destruct (rain_clf st) as [clf|] eqn:Hclf; [|contradiction].
    apply (predict_rain_bad_date rt st clf); assumption.
  - destruct (precip_reg st) as [reg|] eqn:Hreg; [|contradiction].
    apply (predict_precipitation_fall_bad_date rt st reg); assumption.
Qed.

Lemma malformed_date_is_answered_400_witness :
  predict_rain glibc_runtime ready_state "2023-13-40"
  = Raise (HTTPException 400 "Invalid date format. Expected YYYY-MM-DD.")
  /\ predict_precipitation_fall glibc_runtime ready_state "2023-13-40"
     = Raise (HTTPException 400 "Invalid date format. Expected YYYY-MM-DD.").
Proof.
  assert (Hbad : forall dt, parse_date "2023-13-40" <> Return dt)
    by (intros dt; discriminate).
  destruct (malformed_date_is_answered_400 glibc_runtime ready_state
              "2023-13-40" Hbad)
    as [Hr Hp].
  split; [apply Hr | apply Hp]; discriminate.
Defined.

(** X6.  A date past the handler's bound makes the date addition
    overflow before the model is asked: with their model loaded, the
    rain handler raises [OverflowError] on every accepted date after
    9999-12-24 and the precipitation handler on every accepted date
    after 9999-12-28, and the request is answered 500 outside the
    handler's own errors. *)
Theorem dates_past_the_bound_overflow
    (rt : Runtime) (st : State) (date : string) (d0 : datetime) :
  parse_date date = Return d0 ->
  (rain_clf st <> None ->
   date_leb (datetime_date d0) (mkdate 9999 12 24) = false ->
   predict_rain rt st date = Raise (OverflowError "date value out of range")
   /\ unhandled (predict_rain rt st date) = true)
  /\ (precip_reg st <> None ->
      date_leb (datetime_date d0) (mkdate 9999 12 28) = false ->
      predict_precipitation_fall rt st date
      = Raise (OverflowError "date value out of range")
      /\ unhandled (predict_precipitation_fall rt st date) = true).
Proof.
  intros Hparse. split; intros Hm Hle.
  - destruct (rain_clf st) as [clf|] eqn:Hclf; [|contradiction].
    rewrite (predict_rain_overflows_after_bound rt st clf date d0 Hclf Hparse
               Hle).
    split; reflexivity.
  - destruct (precip_reg st) as [reg|] eqn:Hreg; [|contradiction].
    destruct (parse_date_valid _ _ Hparse) as (d & -> & _).
    rewrite datetime_date_midnight in Hle.
    rewrite (predict_precipitation_fall_overflow rt st reg d date Hreg Hparse
               Hle).
    split; reflexivity.
Qed.

Lemma dates_past_the_bound_overflow_witness :
  predict_rain glibc_runtime ready_state "9999-12-25"
  = Raise (OverflowError "date value out of range")
  /\ predict_precipitation_fall glibc_runtime ready_state "9999-12-29"
     = Raise (OverflowError "date value out of range").
Proof.
  split.
  - apply (proj1 (dates_past_the_bound_overflow glibc_runtime ready_state
                    "9999-12-25" (mkdatetime 9999 12 25 0 0 0 0) eq_refl));
      [discriminate | reflexivity].
  - apply (proj2 (dates_past_the_bound_overflow glibc_runtime ready_state
                    "9999-12-29" (mkdatetime 9999 12 29 0 0 0 0) eq_refl));
      [discriminate | reflexivity].
Defined.

(** X7.  When the frame of the base date is built and the regressor
    returns an empty array on it, taking its first value fails inside
    the [try] block, and the precipitation handler answers with its own
    500 error. *)
Theorem precipitation_empty_output_is_wrapped
    (rt : Runtime) (st : State) (reg : Artifact) (date : string)
    (d0 : datetime) (X : DataFrame) :
  precip_reg st = Some reg ->
  parse_date date = Return d0 ->
  date_leb (datetime_date d0) (mkdate 9999 12 28) = true ->
  build_features_for_date rt d0 = Return X ->
  predict reg X = Return [] ->
  exists msg,
    predict_precipitation_fall rt st date
    = Raise (HTTPException 500 ("Inference error (precipitation): " ++ msg))
    /\ unhandled (predict_precipitation_fall rt st date) = false.
Proof.
  intros Hreg Hparse Hle Hbuild Hpred.
  destruct (parse_date_valid _ _ Hparse) as (d & -> & _).
  rewrite datetime_date_midnight in Hle.
  rewrite (predict_precipitation_fall_loaded rt st reg d date Hreg Hparse
             Hle), Hbuild.
  cbn [bind]. rewrite Hpred. cbn. eexists. split; reflexivity.
Qed.

Lemma precipitation_empty_output_is_wrapped_witness :
  exists msg,
    predict_precipitation_fall glibc_runtime empty_output_state "2023-01-01"
    = Raise (HTTPException 500 ("Inference error (precipitation): " ++ msg))
    /\ unhandled
         (predict_precipitation_fall glibc_runtime empty_output_state
            "2023-01-01")
       = false.
Proof.
  apply (precipitation_empty_output_is_wrapped glibc_runtime
           empty_output_state (constant_model []) "2023-01-01"
           (mkdatetime 2023 1 1 0 0 0 0)
           [("date", [mkdatetime 2023 1 1 0 0 0 0])]);
    reflexivity.
Defined.

(** X8.  In the rain handler the first value is taken after the [try]
    block: when the frame of the base date is built and the classifier
    returns an empty array on it, the [IndexError] leaves the handler
    as it is, and the request is answered 500 by the framework, not by
    an [HTTPException] of the handler. *)
Theorem rain_empty_output_escapes
    (rt : Runtime) (st : State) (clf : Artifact) (date : string)
    (d0 : datetime) (X : DataFrame) :
  rain_clf st = Some clf ->
  parse_date date = Return d0 ->
  date_leb (datetime_date d0) (mkdate 9999 12 24) = true ->
  build_features_for_date rt d0 = Return X ->
  predict clf X = Return [] ->
  exists msg,
    predict_rain rt st date = Raise (IndexError msg)
    /\ unhandled (predict_rain rt st date) = true
    /\ http_status (predict_rain rt st date) = 500.
Proof.
  intros Hclf Hparse Hle Hbuild Hpred.
  destruct (parse_date_valid _ _ Hparse) as (d & -> & _).
  rewrite datetime_date_midnight in Hle.
  rewrite (predict_rain_loaded rt st clf d date Hclf Hparse Hle), Hbuild.
  cbn [bind]. rewrite Hpred. cbn. eexists. repeat split; reflexivity.
Qed.

Lemma rain_empty_output_escapes_witness :
  exists msg,
    predict_rain glibc_runtime empty_output_state "2023-01-01"
    = Raise (IndexError msg)
    /\ unhandled (predict_rain glibc_runtime empty_output_state "2023-01-01")
       = true
    /\ http_status (predict_rain glibc_runtime empty_output_state "2023-01-01")
       = 500.
Proof.
  apply (rain_empty_output_escapes glibc_runtime empty_output_state
           (constant_model []) "2023-01-01" (mkdatetime 2023 1 1 0 0 0 0)
           [("date", [mkdatetime 2023 1 1 0 0 0 0])]);
    reflexivity.
Defined.

(** A frame that is not built: the count of nanoseconds does not fit,
    and the exception leaves the function. *)
Lemma build_features_raises (rt : Runtime) (d : date) :
  calendar_valid d = true -> date_year d <= 9999 ->
  timestamp_in_bounds rt d = false ->
  resolution rt = Nanoseconds
  /\ exists msg,
       build_features_for_date rt (midnight d)
       = Raise (OutOfBoundsDatetime msg).
Proof.
  intros Hv Hy Hout. split.
  - destruct (resolution rt) eqn:Hr; [reflexivity|].
    rewrite (timestamp_in_bounds_microseconds rt d Hr Hv Hy) in Hout.
    discriminate Hout.
  - rewrite build_features_outcome, datetime_date_midnight, Hout.
    eexists. reflexivity.
Qed.

(** X9.  The exceptions other than its own [HTTPException]s that leave
    the precipitation handler are the overflow of a date past
    9999-12-28 and, for an earlier date that nanosecond timestamps
    cannot hold, the [OutOfBoundsDatetime] of the feature builder. *)
Theorem precipitation_handler_escapes
    (rt : Runtime) (st : State) (date : string) :
  unhandled (predict_precipitation_fall rt st date) = true ->
  exists d,
    parse_date date = Return (midnight d)
    /\ ((predict_precipitation_fall rt st date
         = Raise (OverflowError "date value out of range")
         /\ date_leb d (mkdate 9999 12 28) = false)
        \/ ((exists msg,
               predict_precipitation_fall rt st date
               = Raise (OutOfBoundsDatetime msg))
            /\ date_leb d (mkdate 9999 12 28) = true
            /\ timestamp_in_bounds rt d = false
            /\ resolution rt = Nanoseconds)).
Proof.
  intros Hun.
  destruct (precip_reg st) as [reg|] eqn:Hreg.
  - destruct (parse_date_outcome date) as [(d & E & Hv & Hy) | E].
    + exists d. split; [exact E|].
      destruct (date_leb d (mkdate 9999 12 28)) eqn:Hle.
      * right.
        rewrite (predict_precipitation_fall_loaded rt st reg d date Hreg E
                   Hle) in Hun |- *.
        destruct (timestamp_in_bounds rt d) eqn:Hin.
        -- exfalso. rewrite build_features_outcome, datetime_date_midnight,
             Hin in Hun.
           cbn [bind] in Hun.
           destruct (predict reg _) as [[|v a]|e]; cbn in Hun;
             discriminate Hun.
        -- destruct (build_features_raises rt d Hv Hy Hin) as [Hr [msg Hb]].
           rewrite Hb. split; [exists msg; reflexivity|].
           repeat split; assumption || reflexivity.
      * left. split; [|reflexivity].
        apply (predict_precipitation_fall_overflow rt st reg d); assumption.
    + rewrite (predict_precipitation_fall_bad_date rt st reg date _ Hreg E)
        in Hun.
      discriminate Hun.
  - rewrite predict_precipitation_fall_unloaded in Hun by assumption.
    discriminate Hun.
Qed.

Lemma precipitation_handler_escapes_witness :
  exists d,
    parse_date "3000-01-01" = Return (midnight d)
    /\ ((predict_precipitation_fall glibc_runtime ready_state "3000-01-01"
         = Raise (OverflowError "date value out of range")
         /\ date_leb d (mkdate 9999 12 28) = false)
        \/ ((exists msg,
               predict_precipitation_fall glibc_runtime ready_state
                 "3000-01-01"
               = Raise (OutOfBoundsDatetime msg))
            /\ date_leb d (mkdate 9999 12 28) = true
            /\ timestamp_in_bounds glibc_runtime d = false
            /\ resolution glibc_runtime = Nanoseconds)).
Proof.
  apply (precipitation_handler_escapes glibc_runtime ready_state
           "3000-01-01").
  reflexivity.
Defined.



(** ** The bodies the handlers return *)

(** X11.  Asking again with the [input_date] of a returned body gives
    the same body, for both prediction routes, when the runtime pads
    the year or the base date is of year 1000 or later: the handlers
    then print the base date in a form they read back as the same
    date. *)
Theorem input_date_reproduces_the_body
    (rt : Runtime) (st : State) (date : string) (d0 : datetime) :
  parse_date date = Return d0 ->
  pads_year rt = true \/ 1000 <= year d0 ->
  (forall body,
     predict_rain rt st date = Return body ->
     predict_rain rt st (rain_input_date body) = Return body)
  /\ (forall body,
        predict_precipitation_fall rt st date = Return body ->
        predict_precipitation_fall rt st (precip_input_date body)
        = Return body).
Proof.
  intros Hparse Hpad. split; intros body H.
  - destruct (predict_rain_returns _ _ _ _ H)
      as (clf & d & X & v & rest & Hclf & E & Hv & Hy & Hle & Hb & Hp & ->).
    assert (d0 = midnight d) as -> by congruence.
    assert (Hpad' : pads_year rt = true \/ 1000 <= date_year d)
      by (destruct d; exact Hpad).
    cbn [rain_input_date].
    rewrite (predict_rain_loaded rt st clf d _ Hclf
               (parse_date_strftime rt d Hv Hy Hpad') Hle).
    rewrite Hb. cbn [bind]. rewrite Hp. reflexivity.
  - destruct (predict_precipitation_fall_returns _ _ _ _ H)
      as (reg & d & X & v & rest & Hreg & E & Hv & Hy & Hle & Hb & Hp & ->).
    assert (d0 = midnight d) as -> by congruence.
    assert (Hpad' : pads_year rt = true \/ 1000 <= date_year d)
      by (destruct d; exact Hpad).
    cbn [precip_input_date].
    rewrite (predict_precipitation_fall_loaded rt st reg d _ Hreg
               (parse_date_strftime rt d Hv Hy Hpad') Hle).
    rewrite Hb. cbn [bind]. rewrite Hp. reflexivity.
Qed.

Lemma input_date_reproduces_the_body_witness :
  exists body,
    predict_rain glibc_runtime ready_state "2023-1-1" = Return body
    /\ rain_input_date body = "2023-01-01"
    /\ predict_rain glibc_runtime ready_state (rain_input_date body)
       = Return body.
Proof.
  assert (Hpad : pads_year glibc_runtime = true
                 \/ 1000 <= year (mkdatetime 2023 1 1 0 0 0 0))
    by (right; cbn; lia).
  eexists. split; [reflexivity|]. split; [reflexivity|].
  apply (proj1 (input_date_reproduces_the_body glibc_runtime ready_state
                  "2023-1-1" (mkdatetime 2023 1 1 0 0 0 0) eq_refl Hpad)).
  reflexivity.
Defined.

(** ** Order of the dates in a body *)

Lemma date_ltb_trans (a b c : date) :
  date_ltb a b = true -> date_ltb b c = true -> date_ltb a c = true.
Proof.
  unfold date_ltb. intros H1 H2.
  repeat match goal with
  | H : _ || _ = true |- _ => apply orb_true_iff in H; destruct H as [H | H]
  | H : _ && _ = true |- _ => apply andb_true_iff in H; destruct H
  end; bool_to_prop;
  repeat match goal with
  | |- _ || _ = true => apply orb_true_iff
  end;
  first [ left; apply Z.ltb_lt; lia
        | right; apply andb_true_iff; split; [apply Z.eqb_eq; lia|];
          apply orb_true_iff;
          first [ left; apply Z.ltb_lt; lia
                | right; apply andb_true_iff; split;
                  [apply Z.eqb_eq; lia | apply Z.ltb_lt; lia] ] ].
Qed.

Lemma next_day_later (d : date) :
  calendar_valid d = true -> date_ltb d (calendar_next_day d) = true.
Proof.
  destruct d as [y m dd]. intros Hv.
  apply valid_fields in Hv. destruct Hv as (Hy & Hm & Hd).
  unfold calendar_next_day, date_ltb.
  cbn [date_year date_month date_day].
  destruct (dd <? _) eqn:E1; [|destruct (m <? 12) eqn:E2];
    cbn [date_year date_month date_day].
  - rewrite !Z.eqb_refl, !Z.ltb_irrefl. cbn.
    apply Z.ltb_lt. lia.
  - rewrite Z.eqb_refl, Z.ltb_irrefl. cbn.
    replace (m <? m + 1) with true by (symmetry; apply Z.ltb_lt; lia).
    reflexivity.
  - replace (y <? y + 1) with true by (symmetry; apply Z.ltb_lt; lia).
    reflexivity.
Qed.

Lemma plus_days_later (k : nat) :
  forall d, calendar_valid d = true ->
  date_ltb d (calendar_plus_days (S k) d) = true.
Proof.
  induction k as [|k IH]; intros d Hv.
  - apply next_day_later, Hv.
  - apply (date_ltb_trans _ (calendar_next_day d)).
    + apply next_day_later, Hv.
    + apply (IH (calendar_next_day d)), next_day_valid, Hv.
Qed.

(** X12.  In every body of the precipitation route, when the runtime
    pads the year or the base date is of year 1000 or later, the three
    dates are zero-padded texts, [start_date] is the day after
    [input_date], [end_date] is two days after [start_date], and they
    come in strictly increasing order. *)
Theorem precipitation_window_is_ordered
    (rt : Runtime) (st : State) (date : string) (d0 : datetime)
    (body : PrecipBody) :
  parse_date date = Return d0 ->
  pads_year rt = true \/ 1000 <= year d0 ->
  predict_precipitation_fall rt st date = Return body ->
  exists d s e,
    read_YYYY_MM_DD (precip_input_date body) = Some d
    /\ read_YYYY_MM_DD (start_date (precip_prediction body)) = Some s
    /\ read_YYYY_MM_DD (end_date (precip_prediction body)) = Some e
    /\ s = calendar_next_day d
    /\ e = calendar_plus_days 2 s
    /\ date_ltb d s = true /\ date_ltb s e = true.
Proof.
  intros Hparse Hpad H.
  destruct (predict_precipitation_fall_returns _ _ _ _ H)
    as (reg & d & X & v & rest & _ & E & Hv & Hy & Hle & _ & _ & ->).
  assert (d0 = midnight d) as -> by congruence.
  assert (Hpad' : pads_year rt = true \/ 1000 <= date_year d)
    by (destruct d; exact Hpad).
  exists d, (calendar_plus_days 1 d), (calendar_plus_days 3 d).
  cbn [precip_input_date precip_prediction start_date end_date].
  split; [apply (shifted_text_reads rt d 0 28); assumption || lia|].
  split; [apply (shifted_text_reads rt d 1 28); assumption || lia|].
  split; [apply (shifted_text_reads rt d 3 28); assumption || lia|].
  split; [reflexivity|]. split; [reflexivity|].
  split; [apply next_day_later, Hv|].
  apply (plus_days_later 1 (calendar_next_day d)), next_day_valid, Hv.
Qed.

Lemma precipitation_window_is_ordered_witness :
  exists d s e,
    read_YYYY_MM_DD "2024-02-28" = Some d
    /\ read_YYYY_MM_DD "2024-02-29" = Some s
    /\ read_YYYY_MM_DD "2024-03-02" = Some e
    /\ s = calendar_next_day d
    /\ e = calendar_plus_days 2 s
    /\ date_ltb d s = true /\ date_ltb s e = true.
Proof.
  assert (Hpad : pads_year glibc_runtime = true
                 \/ 1000 <= year (mkdatetime 2024 2 28 0 0 0 0))
    by (right; cbn; lia).
  apply (precipitation_window_is_ordered glibc_runtime ready_state
           "2024-02-28" (mkdatetime 2024 2 28 0 0 0 0)
           (mkPrecipBody "2024-02-28"
              (mkPrecipPrediction "2024-02-29" "2024-03-02" "28.2"))
           eq_refl Hpad).
  reflexivity.
Defined.

(** X13.  In every body of the rain route, when the runtime pads the
    year or the base date is of year 1000 or later, [input_date] and
    [prediction.date] are zero-padded texts, the second of the date
    seven days after the first and strictly later than it. *)
Theorem rain_target_is_later
    (rt : Runtime) (st : State) (date : string) (d0 : datetime)
    (body : RainBody) :
  parse_date date = Return d0 ->
  pads_year rt = true \/ 1000 <= year d0 ->
  predict_rain rt st date = Return body ->
  exists d t,
    read_YYYY_MM_DD (rain_input_date body) = Some d
    /\ read_YYYY_MM_DD (rp_date (rain_prediction body)) = Some t
    /\ t = calendar_plus_days 7 d
    /\ date_ltb d t = true.
Proof.
  intros Hparse Hpad H.
  destruct (predict_rain_returns _ _ _ _ H)
    as (clf & d & X & v & rest & _ & E & Hv & Hy & Hle & _ & _ & ->).
  assert (d0 = midnight d) as -> by congruence.
  assert (Hpad' : pads_year rt = true \/ 1000 <= date_year d)
    by (destruct d; exact Hpad).
  exists d, (calendar_plus_days 7 d).
  cbn [rain_input_date rain_prediction rp_date].
  split; [apply (shifted_text_reads rt d 0 24); assumption || lia|].
  split; [apply (shifted_text_reads rt d 7 24); assumption || lia|].
  split; [reflexivity|]. apply plus_days_later, Hv.
Qed.

Lemma rain_target_is_later_witness :
  exists d t,
    read_YYYY_MM_DD "2023-12-28" = Some d
    /\ read_YYYY_MM_DD "2024-01-04" = Some t
    /\ t = calendar_plus_days 7 d
    /\ date_ltb d t = true.
Proof.
  assert (Hpad : pads_year glibc_runtime = true
                 \/ 1000 <= year (mkdatetime 2023 12 28 0 0 0 0))
    by (right; cbn; lia).
  apply (rain_target_is_later glibc_runtime ready_state "2023-12-28"
           (mkdatetime 2023 12 28 0 0 0 0)
           (mkRainBody "2023-12-28" (mkRainPrediction "2024-01-04" true))
           eq_refl Hpad).
  reflexivity.
Defined.

(** ** The feature frame and the start-up state *)

(** X14.  Two timestamps get the same frame exactly when they fall on
    the same calendar date: the frame forgets the time of day and
    nothing else.  Timestamps of one date get the same outcome, a frame
    or the exception; and a frame that was built for one timestamp is
    built for another exactly when their dates are equal. *)
Theorem build_features_depends_on_date_only (rt : Runtime) (d d' : datetime) :
  (datetime_date d = datetime_date d' ->
   build_features_for_date rt d = build_features_for_date rt d')
  /\ (forall X,
        build_features_for_date rt d = Return X ->
        (build_features_for_date rt d' = Return X
         <-> datetime_date d = datetime_date d')).
Proof.
  split.
  - intros E. rewrite !build_features_outcome, E. reflexivity.
  - intros X H. apply build_features_returns in H. destruct H as [Hin ->].
    split.
    + intros H'. apply build_features_returns in H'. destruct H' as [_ E].
      apply (same_midnight (datetime_date d') (datetime_date d)).
      congruence.
    + intros E. rewrite build_features_outcome, <- E, Hin. reflexivity.
Qed.

Lemma build_features_depends_on_date_only_witness :
  build_features_for_date glibc_runtime (mkdatetime 2023 1 1 13 45 10 0)
  = build_features_for_date glibc_runtime (mkdatetime 2023 1 1 0 0 0 0).
Proof.
  apply (proj1 (build_features_depends_on_date_only glibc_runtime
                  (mkdatetime 2023 1 1 13 45 10 0)
                  (mkdatetime 2023 1 1 0 0 0 0))).
  reflexivity.
Defined.

(** X15.  After a start-up in which a file was missing, both prediction
    routes answer every request with the 500 error whose detail is the
    route's fixed sentence followed by the recorded message, which
    names the first missing path. *)
Theorem unloaded_detail_names_the_missing_file
    (rt : Runtime) (fs : FileSystem) (environ : Environ) (st : State)
    (date : string) :
  startup fs environ = Return st ->
  both_loaded st = false ->
  exists path,
    fs path = None
    /\ (path = RAIN_MODEL_PATH environ
        \/ (path = PRECIP_MODEL_PATH environ
            /\ fs (RAIN_MODEL_PATH environ) <> None))
    /\ predict_rain rt st date
       = Raise (HTTPException 500
                  ("Rain model not loaded. Model file not found: " ++ path))
    /\ predict_precipitation_fall rt st date
       = Raise (HTTPException 500
                  ("Precipitation model not loaded. Model file not found: "
                   ++ path)).
Proof.
  rewrite startup_outcome.
  destruct (fs (RAIN_MODEL_PATH environ)) as [a|] eqn:Ea;
    [destruct (fs (PRECIP_MODEL_PATH environ)) as [b|] eqn:Eb|];
    intros [= <-] Hb.
  - discriminate Hb.
  - exists (PRECIP_MODEL_PATH environ). split; [assumption|].
    split; [right; split; [reflexivity | congruence]|].
    split; reflexivity.
  - exists (RAIN_MODEL_PATH environ). split; [assumption|].
    split; [left; reflexivity|]. split; reflexivity.
Qed.

Lemma unloaded_detail_names_the_missing_file_witness :
  exists path,
    only_rain_fs path = None
    /\ (path = RAIN_MODEL_PATH no_environ
        \/ (path = PRECIP_MODEL_PATH no_environ
            /\ only_rain_fs (RAIN_MODEL_PATH no_environ) <> None))
    /\ predict_rain glibc_runtime
         (mkState None None
            (Some ("Model file not found: " ++ PRECIP_MODEL_PATH no_environ)))
         "2023-01-01"
       = Raise (HTTPException 500
                  ("Rain model not loaded. Model file not found: " ++ path))
    /\ predict_precipitation_fall glibc_runtime
         (mkState None None
            (Some ("Model file not found: " ++ PRECIP_MODEL_PATH no_environ)))
         "2023-01-01"
       = Raise (HTTPException 500
                  ("Precipitation model not loaded. Model file not found: "
                   ++ path)).
Proof.
  apply (unloaded_detail_names_the_missing_file glibc_runtime only_rain_fs
           no_environ);
    reflexivity.
Defined.

(** ** Spellings of one date *)

(** X16.  Two texts that denote the same date of the calendar, padded
    with zeros or not, get the same answer from each prediction
    route. *)
Theorem spellings_of_a_date_get_the_same_answer
    (rt : Runtime) (st : State) (s s' : string) (d : date) :
  lenient_text s d -> lenient_text s' d -> calendar_valid d = true ->
  predict_rain rt st s = predict_rain rt st s'
  /\ predict_precipitation_fall rt st s
     = predict_precipitation_fall rt st s'.
Proof.
  intros Hs Hs' Hv.
  assert (E : parse_date s = parse_date s').
  { transitivity (Return (midnight d)); [|symmetry];
      apply parse_date_strptime, strptime_accepts; exists d;
      (split; [assumption | split; [assumption | reflexivity]]). }
  unfold predict_rain, predict_precipitation_fall. rewrite E.
  split; reflexivity.
Qed.

Lemma spellings_of_a_date_get_the_same_answer_witness :
  predict_rain glibc_runtime ready_state "2023-3-07"
  = predict_rain glibc_runtime ready_state "2023-03- 7"
  /\ predict_precipitation_fall glibc_runtime ready_state "2023-3-07"
     = predict_precipitation_fall glibc_runtime ready_state "2023-03- 7".
Proof.
  apply (spellings_of_a_date_get_the_same_answer glibc_runtime ready_state
           "2023-3-07" "2023-03- 7" (mkdate 2023 3 7)).
  - apply (lenient_fields "2023" "3" "07" 2023 3 7).
    + apply (year_four_digits "2" "0" "2" "3"); reflexivity.
    + apply (month_one_digit "3"). cbv. split; discriminate.
    + apply (day_two_digits "0" "7"); try reflexivity.
      cbv. split; discriminate.
  - apply (lenient_fields "2023" "03" " 7" 2023 3 7).
    + apply (year_four_digits "2" "0" "2" "3"); reflexivity.
    + apply (month_two_digits "0" "3"); try reflexivity.
      cbv. split; discriminate.
    + apply (day_blank_digit "7"). cbv. split; discriminate.
  - reflexivity.
Defined.

(** ** The printed amount *)

(** X17.  In every body of the precipitation route whose amount comes
    from a finite output, [precipitation_fall] reads as a whole number
    of tenths nearest to the magnitude of the regressor's first output
    (the output itself when it is an integer, within half a tenth
    otherwise), with a minus sign exactly when the output's sign bit is
    set. *)
Theorem precipitation_text_is_nearest_tenth
    (rt : Runtime) (st : State) (date : string) (body : PrecipBody) :
  predict_precipitation_fall rt st date = Return body ->
  exists reg d X v rest,
    precip_reg st = Some reg
    /\ parse_date date = Return (midnight d)
    /\ build_features_for_date rt (midnight d) = Return X
    /\ predict reg X = Return (v :: rest)
    /\ (is_finite (py_float v) = true ->
        exists t,
          tenths_of_text (precipitation_fall (precip_prediction body))
          = Some (sign_bit (py_float v), t)
          /\ nearest_tenths (py_float v) t).
Proof.
  intros H.
  destruct (predict_precipitation_fall_returns _ _ _ _ H)
    as (reg & d & X & v & rest & Hreg & Hparse & _ & _ & _ & Hb & Hp & ->).
  exists reg, d, X, v, rest. repeat split; try assumption.
  cbn [precip_prediction precipitation_fall].
  apply format_1f_reads_back.
Qed.

Lemma precipitation_text_is_nearest_tenth_witness :
  exists t,
    tenths_of_text "28.2" = Some (false, t)
    /\ nearest_tenths double_28_16 t.
Proof.
  destruct (precipitation_text_is_nearest_tenth glibc_runtime ready_state
              "2023-01-01"
              (mkPrecipBody "2023-01-01"
                 (mkPrecipPrediction "2023-01-02" "2023-01-04" "28.2"))
              eq_refl)
    as (reg & d & X & v & rest & Hreg & Hparse & Hb & Hp & Hfin).
  injection Hreg as <-. cbn in Hp. injection Hp as <- <-.
  apply Hfin. reflexivity.
Defined.

(** ** The descriptor *)

(** The date of the descriptor's examples has a timestamp in every
    runtime. *)
Lemma example_date_in_bounds (rt : Runtime) :
  timestamp_in_bounds rt (mkdate 2023 1 1) = true.
Proof.
  destruct rt as [p [|]]; vm_compute; reflexivity.
Qed.

(** X18.  The examples of the descriptor are what the handlers answer:
    asking a prediction route for the date of its example, with a
    classifier whose first output is true, or a regressor whose first
    output prints as 28.2, returns the body the descriptor shows. *)
Theorem descriptor_examples_match_the_handlers
    (rt : Runtime) (environ : Environ) (st : State) (m : Artifact)
    (v : npval) (rest : list npval) :
  (forall date d0 X,
     example_date "/predict/rain/" (root environ) = Some date ->
     parse_date date = Return d0 ->
     rain_clf st = Some m ->
     build_features_for_date rt d0 = Return X ->
     predict m X = Return (v :: rest) ->
     py_bool v = true ->
     exists body,
       predict_rain rt st date = Return body
       /\ output_example "/predict/rain/" (root environ)
          = Some (rain_json body))
  /\ (forall date d0 X,
        example_date "/predict/precipitation/fall/" (root environ)
        = Some date ->
        parse_date date = Return d0 ->
        precip_reg st = Some m ->
        build_features_for_date rt d0 = Return X ->
        predict m X = Return (v :: rest) ->
        format_1f (py_float v) = "28.2" ->
        exists body,
          predict_precipitation_fall rt st date = Return body
          /\ output_example "/predict/precipitation/fall/" (root environ)
             = Some (precip_json body))
  /\ exists X,
       build_features_for_date rt (mkdatetime 2023 1 1 0 0 0 0) = Return X.
Proof.
  assert (Hpad : strftime rt (mkdatetime 2023 1 1 0 0 0 0) = "2023-01-01"
                 /\ strftime rt (mkdatetime 2023 1 8 0 0 0 0) = "2023-01-08"
                 /\ strftime rt (mkdatetime 2023 1 2 0 0 0 0) = "2023-01-02"
                 /\ strftime rt (mkdatetime 2023 1 4 0 0 0 0) = "2023-01-04")
    by (destruct rt as [[|] r]; repeat split; reflexivity).
  destruct Hpad as (P0 & P7 & P1 & P3).
  split; [|split]; [intros date d0 X Hex Hparse Hm Hb Hp Hv ..|].
  - assert (date = "2023-01-01") as ->
      by (change (example_date "/predict/rain/" (root environ))
            with (Some "2023-01-01") in Hex; congruence).
    assert (d0 = mkdatetime 2023 1 1 0 0 0 0) as ->
      by (change (parse_date "2023-01-01")
            with (Return (mkdatetime 2023 1 1 0 0 0 0)) in Hparse;
          congruence).
    rewrite (predict_rain_loaded rt st m (mkdate 2023 1 1) "2023-01-01" Hm
               eq_refl eq_refl).
    change (midnight (mkdate 2023 1 1))
      with (mkdatetime 2023 1 1 0 0 0 0).
    change (midnight (calendar_plus_days 7 (mkdate 2023 1 1)))
      with (mkdatetime 2023 1 8 0 0 0 0).
    rewrite Hb. cbn [bind]. rewrite Hp.
    cbn [bind try_except getitem nth_error]. rewrite Hv, P0, P7.
    eexists. split; reflexivity.
  - assert (date = "2023-01-01") as ->
      by (change (example_date "/predict/precipitation/fall/"
                    (root environ))
            with (Some "2023-01-01") in Hex; congruence).
    assert (d0 = mkdatetime 2023 1 1 0 0 0 0) as ->
      by (change (parse_date "2023-01-01")
            with (Return (mkdatetime 2023 1 1 0 0 0 0)) in Hparse;
          congruence).
    rewrite (predict_precipitation_fall_loaded rt st m (mkdate 2023 1 1)
               "2023-01-01" Hm eq_refl eq_refl).
    change (midnight (mkdate 2023 1 1))
      with (mkdatetime 2023 1 1 0 0 0 0).
    change (midnight (calendar_plus_days 1 (mkdate 2023 1 1)))
      with (mkdatetime 2023 1 2 0 0 0 0).
    change (midnight (calendar_plus_days 3 (mkdate 2023 1 1)))
      with (mkdatetime 2023 1 4 0 0 0 0).
    rewrite Hb. cbn [bind]. rewrite Hp.
    cbn [bind try_except getitem nth_error]. rewrite Hv, P0, P1, P3.
    eexists. split; reflexivity.
  - eexists. rewrite build_features_outcome.
    change (datetime_date (mkdatetime 2023 1 1 0 0 0 0))
      with (mkdate 2023 1 1).
    rewrite example_date_in_bounds. reflexivity.
Qed.

Lemma descriptor_examples_match_the_handlers_witness :
  exists body,
    predict_rain glibc_runtime ready_state "2023-01-01" = Return body
    /\ output_example "/predict/rain/" (root no_environ)
       = Some (rain_json body).
Proof.
  apply (proj1 (descriptor_examples_match_the_handlers glibc_runtime
                  no_environ ready_state (constant_model [NpInt 1])
                  (NpInt 1) [])
           "2023-01-01" (mkdatetime 2023 1 1 0 0 0 0)
           [("date", [mkdatetime 2023 1 1 0 0 0 0])]);
    reflexivity.
Defined.

(** ** Dates that have a frame *)

(** X19.  The feature builder returns a frame for a parsed date
    exactly when the timestamps count microseconds, or they count
    nanoseconds and the date lies from 1677-09-22 to 2262-04-11. *)
Theorem frame_is_built_within_timestamp_range
    (rt : Runtime) (date : string) (d0 : datetime) :
  parse_date date = Return d0 ->
  (exists X, build_features_for_date rt d0 = Return X)
  <-> (resolution rt = Microseconds
       \/ date_leb (mkdate 1677 9 22) (datetime_date d0)
          && date_leb (datetime_date d0) (mkdate 2262 4 11) = true).
Proof.
  intros Hparse.
  destruct (parse_date_valid _ _ Hparse) as (d & -> & Hv & Hy & _).
  rewrite datetime_date_midnight.
  rewrite <- (timestamp_in_bounds_dates rt d Hv Hy).
  rewrite build_features_outcome, datetime_date_midnight.
  destruct (timestamp_in_bounds rt d); split.
  - intros _. reflexivity.
  - intros _. eexists. reflexivity.
  - intros [X H]. discriminate H.
  - intros H. discriminate H.
Qed.

Lemma frame_is_built_within_timestamp_range_witness :
  (exists X,
     build_features_for_date glibc_runtime (mkdatetime 2262 4 11 0 0 0 0)
     = Return X)
  /\ ~ (exists X,
          build_features_for_date glibc_runtime (mkdatetime 2262 4 12 0 0 0 0)
          = Return X).
Proof.
  split.
  - apply (proj2 (frame_is_built_within_timestamp_range glibc_runtime
                    "2262-04-11" (mkdatetime 2262 4 11 0 0 0 0) eq_refl)).
    right. reflexivity.
  - intros H.
    apply (proj1 (frame_is_built_within_timestamp_range glibc_runtime
                    "2262-04-12" (mkdatetime 2262 4 12 0 0 0 0) eq_refl))
      in H.
    destruct H as [H | H]; discriminate H.
Defined.

(** X20.  Where timestamps count nanoseconds, a parsed date before
    1677-09-22 or after 2262-04-11 makes the feature builder raise
    before the [try] block of a handler: with its model loaded, and the
    date within the handler's bound for the date arithmetic, each
    prediction handler lets [OutOfBoundsDatetime] through, the model is
    not asked, and the request is answered 500 outside the handler's
    own errors. *)
Theorem date_without_timestamp_escapes
    (rt : Runtime) (st : State) (date : string) (d0 : datetime) :
  parse_date date = Return d0 ->
  resolution rt = Nanoseconds ->
  date_leb (mkdate 1677 9 22) (datetime_date d0)
  && date_leb (datetime_date d0) (mkdate 2262 4 11) = false ->
  (rain_clf st <> None ->
   date_leb (datetime_date d0) (mkdate 9999 12 24) = true ->
   (exists msg, predict_rain rt st date = Raise (OutOfBoundsDatetime msg))
   /\ unhandled (predict_rain rt st date) = true
   /\ http_status (predict_rain rt st date) = 500)
  /\ (precip_reg st <> None ->
      date_leb (datetime_date d0) (mkdate 9999 12 28) = true ->
      (exists msg,
         predict_precipitation_fall rt st date
         = Raise (OutOfBoundsDatetime msg))
      /\ unhandled (predict_precipitation_fall rt st date) = true
      /\ http_status (predict_precipitation_fall rt st date) = 500).
Proof.
  intros Hparse Hr Hout.
  destruct (parse_date_valid _ _ Hparse) as (d & -> & Hv & Hy & _).
  rewrite datetime_date_midnight in *.
  rewrite <- (nanosecond_timestamp_range rt d Hr Hv) in Hout.
  destruct (build_features_raises rt d Hv Hy Hout) as [_ [msg Hb]].
  split; intros Hm Hle.
  - destruct (rain_clf st) as [clf|] eqn:Hclf; [|contradiction].
    rewrite (predict_rain_loaded rt st clf d date Hclf Hparse Hle), Hb.
    split; [exists msg; reflexivity|]. split; reflexivity.
  - destruct (precip_reg st) as [reg|] eqn:Hreg; [|contradiction].
    rewrite (predict_precipitation_fall_loaded rt st reg d date Hreg Hparse
               Hle), Hb.
    split; [exists msg; reflexivity|]. split; reflexivity.
Qed.

Lemma date_without_timestamp_escapes_witness :
  unhandled (predict_rain glibc_runtime ready_state "1677-09-21") = true
  /\ unhandled
       (predict_precipitation_fall glibc_runtime ready_state "2262-04-12")
     = true.
Proof.
  assert (Hrain : rain_clf ready_state <> None) by discriminate.
  assert (Hprecip : precip_reg ready_state <> None) by discriminate.
  split.
  - destruct (proj1 (date_without_timestamp_escapes glibc_runtime ready_state
                       "1677-09-21" (mkdatetime 1677 9 21 0 0 0 0)
                       eq_refl eq_refl eq_refl) Hrain eq_refl)
      as (_ & H & _).
    exact H.
  - destruct (proj2 (date_without_timestamp_escapes glibc_runtime ready_state
                       "2262-04-12" (mkdatetime 2262 4 12 0 0 0 0)
                       eq_refl eq_refl eq_refl) Hprecip eq_refl)
      as (_ & H & _).
    exact H.
Defined.
